(** * School manager: validation, entity records and the two SQLite adapters

    A shallow embedding of
      - [school.py]        validation helpers and the entity classes with
                           their dictionary (de)serialisation,
      - [app_tk_done.py]   the form-side validators [is_valid_email] and
                           [nonempty],
      - [db_done.py]       the adapter [DB] (integer identifiers),
      - [school_sqlite.py] the adapter [SqliteSchoolDB] (text identifiers),
    followed by the properties established about them.

    Conventions.  A Python [str] is a [string]; its characters stand for the
    code points 0..255.  A Python [int] is a [Z].  An operation that can raise
    returns a [result].  A table is the list of its rows in storage order and
    every SQL statement is a function on the tables that performs the checks
    the schema of the source declares for it (primary keys, UNIQUE columns,
    foreign keys with their ON DELETE / ON UPDATE actions). *)

From Stdlib Require Import ZArith List String Ascii Bool Lia Permutation.
From Stdlib Require Import Sorting.Sorted.
From stdpp Require Import base option list gmap strings.

Import ListNotations.
Set Warnings "-register-all".
Local Open Scope string_scope.
Local Open Scope list_scope.

(* ===================================================================== *)
(** * Part I: definitions                                                  *)
(* ===================================================================== *)

(** ** Exceptions and fallible computations *)

Inductive exn : Type :=
| ValueError (msg : string)
| KeyError (key : string)
| TypeError
| OverflowError
| IntegrityError (msg : string).

Inductive result (A : Type) : Type :=
| Ok (a : A)
| Raise (e : exn).

Arguments Ok {A} a.
Arguments Raise {A} e.

Definition rbind {A B} (m : result A) (k : A -> result B) : result B :=
  match m with
  | Ok a => k a
  | Raise e => Raise e
  end.

#[global] Instance result_bind : MBind result :=
  fun A B k m => rbind m k.
#[global] Instance result_ret : MRet result := @Ok.

(** [[f(x) for x in l]] where [f] may raise: the first exception wins. *)
Fixpoint rmap {A B} (f : A -> result B) (l : list A) : result (list B) :=
  match l with
  | [] => Ok []
  | x :: l' =>
      y ← f x; ys ← rmap f l'; Ok (y :: ys)
  end.

Definition is_ok {A} (r : result A) : bool :=
  match r with Ok _ => true | Raise _ => false end.

(** ** ORDER BY: a stable insertion sort on a key *)

Section OrderBy.
Context {A K : Type} (leb : K -> K -> bool) (key : A -> K).

Fixpoint insert_by (x : A) (l : list A) : list A :=
  match l with
  | [] => [x]
  | y :: l' =>
      if leb (key x) (key y) then x :: y :: l' else y :: insert_by x l'
  end.

Fixpoint order_by (l : list A) : list A :=
  match l with
  | [] => []
  | x :: l' => insert_by x (order_by l')
  end.
End OrderBy.

(** ** Regular expressions, for [re.match] and [re.fullmatch] *)

Module Regex.

Inductive regex : Type :=
| Void
| Eps
| Class (p : ascii -> bool)
| Cat (r1 r2 : regex)
| Alt (r1 r2 : regex)
| Star (r : regex).

(** [r+] and [r{2,}] *)
Definition Plus (r : regex) : regex := Cat r (Star r).
Definition AtLeast2 (r : regex) : regex := Cat r (Cat r (Star r)).
Definition Chr (c : ascii) : regex := Class (Ascii.eqb c).

(** The strings a regular expression denotes. *)
Inductive matches : regex -> list ascii -> Prop :=
| m_eps : matches Eps []
| m_class p c : p c = true -> matches (Class p) [c]
| m_cat r1 r2 s1 s2 :
    matches r1 s1 -> matches r2 s2 -> matches (Cat r1 r2) (s1 ++ s2)
| m_alt_l r1 r2 s : matches r1 s -> matches (Alt r1 r2) s
| m_alt_r r1 r2 s : matches r2 s -> matches (Alt r1 r2) s
| m_star_nil r : matches (Star r) []
| m_star_cons r s1 s2 :
    matches r s1 -> matches (Star r) s2 -> matches (Star r) (s1 ++ s2).

(** The matcher: Brzozowski derivatives. *)
Fixpoint nullable (r : regex) : bool :=
  match r with
  | Void => false
  | Eps => true
  | Class _ => false
  | Cat r1 r2 => nullable r1 && nullable r2
  | Alt r1 r2 => nullable r1 || nullable r2
  | Star _ => true
  end.

Fixpoint deriv (a : ascii) (r : regex) : regex :=
  match r with
  | Void => Void
  | Eps => Void
  | Class p => if p a then Eps else Void
  | Cat r1 r2 =>
      if nullable r1
      then Alt (Cat (deriv a r1) r2) (deriv a r2)
      else Cat (deriv a r1) r2
  | Alt r1 r2 => Alt (deriv a r1) (deriv a r2)
  | Star r1 => Cat (deriv a r1) (Star r1)
  end.

Fixpoint accepts (r : regex) (s : list ascii) : bool :=
  match s with
  | [] => nullable r
  | a :: s' => accepts (deriv a r) s'
  end.

(** The assertion [$] (no MULTILINE flag): the position is the end of the
    string, or just before a line feed that is the last character. *)
Definition at_dollar (rest : list ascii) : bool :=
  match rest with
  | [] => true
  | [c] => Ascii.eqb c "010"%char
  | _ => false
  end.

Definition at_end (rest : list ascii) : bool :=
  match rest with [] => true | _ => false end.

(** [re.match(r'^' + body + '$', s)]: some prefix of [s] matches [body] and
    [$] holds where it ends ([^] holds at position 0, where the match
    starts). *)
Definition re_match (body : regex) (s : list ascii) : bool :=
  existsb (fun k => accepts body (firstn k s) && at_dollar (skipn k s))
          (seq 0 (S (length s))).

(** [re.compile(r'^' + body + '$').fullmatch(s)]: as [re_match], and the
    match must end where the string ends. *)
Definition re_fullmatch (body : regex) (s : list ascii) : bool :=
  existsb (fun k => accepts body (firstn k s) && at_dollar (skipn k s)
                    && at_end (skipn k s))
          (seq 0 (S (length s))).

(** *** The e-mail pattern
    [[a-zA-Z0-9._%+-]+@[a-zA-Z0-9.-]+\.[a-zA-Z]{2,}] *)

Definition between (lo hi c : ascii) : bool :=
  (nat_of_ascii lo <=? nat_of_ascii c)%nat
  && (nat_of_ascii c <=? nat_of_ascii hi)%nat.

Definition one_of (cs : list ascii) (c : ascii) : bool :=
  existsb (Ascii.eqb c) cs.

Definition alpha (c : ascii) : bool :=
  between "a" "z" c || between "A" "Z" c.

Definition alnum (c : ascii) : bool :=
  alpha c || between "0" "9" c.

Definition local_class (c : ascii) : bool :=
  alnum c || one_of ["."; "_"; "%"; "+"; "-"]%char c.

Definition domain_class (c : ascii) : bool :=
  alnum c || one_of ["."; "-"]%char c.

Definition email_body : regex :=
  Cat (Plus (Class local_class))
    (Cat (Chr "@")
       (Cat (Plus (Class domain_class))
          (Cat (Chr ".") (AtLeast2 (Class alpha))))).

End Regex.

(** ** [school.py]: validation, entities and their dictionaries *)

Module School.

(** [validate_email]: returns [True] or raises [ValueError]. *)
Definition validate_email (email : string) : result bool :=
  if Regex.re_match Regex.email_body (list_ascii_of_string email)
  then Ok true
  else Raise (ValueError "Invalid email format").

(** [validate_age]: returns [None] or raises [ValueError]. *)
Definition validate_age (age : Z) : result unit :=
  if (age <? 0)%Z
  then Raise (ValueError "Age must be non-negative integer")
  else Ok tt.

(** The attributes [Person.__init__] sets. *)
Record Person : Type := {
  name : string;
  age : Z;
  _email : string
}.

Definition Person_init (name : string) (age : Z) (email : string)
  : result Person :=
  _ ← validate_email email;
  _ ← validate_age age;
  Ok {| name := name; age := age; _email := email |}.

Record Student : Type := {
  student_person :> Person;
  student_id : string;
  registered_courses : list string
}.

Definition Student_init (name : string) (age : Z) (email : string)
    (student_id : string) (registered_courses : option (list string))
  : result Student :=
  p ← Person_init name age email;
  Ok {| student_person := p;
        student_id := student_id;
        registered_courses :=
          match registered_courses with
          | None => []
          | Some l => l
          end |}.

Record Instructor : Type := {
  instructor_person :> Person;
  instructor_id : string;
  assigned_courses : list string
}.

Definition Instructor_init (name : string) (age : Z) (email : string)
    (instructor_id : string) (assigned_courses : option (list string))
  : result Instructor :=
  p ← Person_init name age email;
  Ok {| instructor_person := p;
        instructor_id := instructor_id;
        assigned_courses :=
          match assigned_courses with
          | None => []
          | Some l => l
          end |}.

Record Course : Type := {
  course_id : string;
  course_name : string;
  instructor : option Instructor;
  enrolled_students : list Student
}.

(** [Course.__init__] validates nothing. *)
Definition Course_init (course_id course_name : string)
    (instructor : option Instructor)
    (enrolled_students : option (list Student)) : Course :=
  {| course_id := course_id;
     course_name := course_name;
     instructor := instructor;
     enrolled_students :=
       match enrolled_students with
       | None => []
       | Some l => l
       end |}.

(** *** The values a serialised record holds.  A [dict] keeps its keys in
    insertion order. *)
Inductive value : Type :=
| VNone
| VInt (n : Z)
| VStr (s : string)
| VList (l : list value)
| VDict (d : list (string * value)).

Definition dict : Type := list (string * value).

(** [d.get(k)] as an option; [None] when the key is absent. *)
Fixpoint dict_lookup (k : string) (d : dict) : option value :=
  match d with
  | [] => None
  | (k', v) :: d' => if String.eqb k k' then Some v else dict_lookup k d'
  end.

(** [d[k]] *)
Definition dict_getitem (k : string) (d : dict) : result value :=
  match dict_lookup k d with
  | Some v => Ok v
  | None => Raise (KeyError k)
  end.

(** [d.get(k, dflt)] *)
Definition dict_get (k : string) (dflt : value) (d : dict) : value :=
  match dict_lookup k d with
  | Some v => v
  | None => dflt
  end.

(** [d[k] = v]: an existing key keeps its place. *)
Fixpoint dict_set (k : string) (v : value) (d : dict) : dict :=
  match d with
  | [] => [(k, v)]
  | (k', v') :: d' =>
      if String.eqb k k' then (k', v) :: d' else (k', v') :: dict_set k v d'
  end.

(** [d.update(other)] *)
Definition dict_update (d other : dict) : dict :=
  fold_left (fun acc kv => dict_set (fst kv) (snd kv) acc) other d.

(** Truth value of an object in a condition. *)
Definition truthy (v : value) : bool :=
  match v with
  | VNone => false
  | VInt n => negb (n =? 0)%Z
  | VStr s => negb (String.eqb s "")
  | VList l => match l with [] => false | _ => true end
  | VDict d => match d with [] => false | _ => true end
  end.

(** The attributes are held at the types their docstrings give them; a
    record value of another type is a [TypeError] here.  (For [age] and
    [email] Python raises it too, in [validate_age] and [re.match].) *)
Definition as_str (v : value) : result string :=
  match v with VStr s => Ok s | _ => Raise TypeError end.

Definition as_int (v : value) : result Z :=
  match v with VInt n => Ok n | _ => Raise TypeError end.

Definition as_str_list (v : value) : result (list string) :=
  match v with VList l => rmap as_str l | _ => Raise TypeError end.

(** Subscripting with a string key needs a dict. *)
Definition as_dict (v : value) : result dict :=
  match v with VDict d => Ok d | _ => Raise TypeError end.

(** [for s in v]: a list yields its items, a dict its keys, a string its
    characters; [None] and integers are not iterable. *)
Definition iterate (v : value) : result (list value) :=
  match v with
  | VList l => Ok l
  | VDict d => Ok (map (fun kv => VStr (fst kv)) d)
  | VStr s => Ok (map (fun c => VStr (String c "")) (list_ascii_of_string s))
  | VNone | VInt _ => Raise TypeError
  end.

(** *** [save_to_dict] *)

Definition Person_save_to_dict (p : Person) : dict :=
  [("name", VStr (name p)); ("age", VInt (age p)); ("email", VStr (_email p))].

Definition Student_save_to_dict (s : Student) : dict :=
  let data := Person_save_to_dict s in
  dict_update data
    [("student_id", VStr (student_id s));
     ("registered_courses", VList (map VStr (registered_courses s)))].

Definition Instructor_save_to_dict (i : Instructor) : dict :=
  let data := Person_save_to_dict i in
  dict_update data
    [("instructor_id", VStr (instructor_id i));
     ("assigned_courses", VList (map VStr (assigned_courses i)))].

(** An instance of a class that defines neither [__bool__] nor [__len__]
    is true, so [self.instructor.save_to_dict() if self.instructor else
    None] tests for [None]. *)
Definition Course_save_to_dict (c : Course) : dict :=
  [("course_id", VStr (course_id c));
   ("course_name", VStr (course_name c));
   ("instructor",
     match instructor c with
     | Some i => VDict (Instructor_save_to_dict i)
     | None => VNone
     end);
   ("enrolled_students",
     VList (map (fun s => VDict (Student_save_to_dict s))
                (enrolled_students c)))].

(** *** [from_dict]: the five subscripts are evaluated first, in the order
    of the keyword arguments, then the constructor runs. *)

Definition Student_from_dict (data : value) : result Student :=
  d ← as_dict data;
  v_name ← dict_getitem "name" d;
  v_age ← dict_getitem "age" d;
  v_email ← dict_getitem "email" d;
  v_id ← dict_getitem "student_id" d;
  v_courses ← dict_getitem "registered_courses" d;
  name ← as_str v_name;
  age ← as_int v_age;
  email ← as_str v_email;
  sid ← as_str v_id;
  courses ← as_str_list v_courses;
  Student_init name age email sid (Some courses).

Definition Instructor_from_dict (data : value) : result Instructor :=
  d ← as_dict data;
  v_name ← dict_getitem "name" d;
  v_age ← dict_getitem "age" d;
  v_email ← dict_getitem "email" d;
  v_id ← dict_getitem "instructor_id" d;
  v_courses ← dict_getitem "assigned_courses" d;
  name ← as_str v_name;
  age ← as_int v_age;
  email ← as_str v_email;
  iid ← as_str v_id;
  courses ← as_str_list v_courses;
  Instructor_init name age email iid (Some courses).

Definition Course_from_dict (data : value) : result Course :=
  d ← as_dict data;
  instructor ←
    (if truthy (dict_get "instructor" VNone d)
     then v ← dict_getitem "instructor" d;
          i ← Instructor_from_dict v;
          Ok (Some i)
     else Ok None);
  items ← iterate (dict_get "enrolled_students" (VList []) d);
  enrolled_students ← rmap Student_from_dict items;
  v_id ← dict_getitem "course_id" d;
  v_name ← dict_getitem "course_name" d;
  cid ← as_str v_id;
  cname ← as_str v_name;
  Ok (Course_init cid cname instructor (Some enrolled_students)).

(** *** Methods that change an entity ([print] output is not modelled) *)

(** [Student.register_course]: appends, whether or not the course is
    already there. *)
Definition register_course (s : Student) (course : string) : Student :=
  {| student_person := student_person s;
     student_id := student_id s;
     registered_courses := registered_courses s ++ [course] |}.

(** [Instructor.assign_course]: appends unless the course is there. *)
Definition assign_course (i : Instructor) (course : string) : Instructor :=
  if existsb (String.eqb course) (assigned_courses i)
  then i
  else {| instructor_person := instructor_person i;
          instructor_id := instructor_id i;
          assigned_courses := assigned_courses i ++ [course] |}.

(** *** [School_DB]: the in-memory store *)

Record School_DB : Type := {
  students : list Student;
  instructors : list Instructor;
  courses : list Course
}.

Definition School_DB_init : School_DB :=
  {| students := []; instructors := []; courses := [] |}.

Definition add_student (db : School_DB) (student : Student) : School_DB :=
  {| students := students db ++ [student];
     instructors := instructors db;
     courses := courses db |}.

Definition add_instructor (db : School_DB) (instructor : Instructor)
  : School_DB :=
  {| students := students db;
     instructors := instructors db ++ [instructor];
     courses := courses db |}.

Definition add_course (db : School_DB) (course : Course) : School_DB :=
  {| students := students db;
     instructors := instructors db;
     courses := courses db ++ [course] |}.

(** [save_to_file]: the document handed to [json.dump].  The file holds
    that document and [json.load] returns it: it is built of integers,
    strings, lists, [None] and dictionaries with string keys only. *)
Definition save_to_file (db : School_DB) : value :=
  VDict
    [("students",
       VList (map (fun s => VDict (Student_save_to_dict s)) (students db)));
     ("instructors",
       VList (map (fun i => VDict (Instructor_save_to_dict i))
                  (instructors db)));
     ("courses",
       VList (map (fun c => VDict (Course_save_to_dict c)) (courses db)))].

(** [[cls.from_dict(x) for x in data[key]]] *)
Definition load_list {A} (from_dict : value -> result A) (key : string)
    (data : value) : result (list A) :=
  d ← as_dict data;
  v ← dict_getitem key d;
  items ← iterate v;
  rmap from_dict items.

(** [load_from_file], from the document [json.load] returned.  The three
    attributes are assigned one after the other: when a later list raises,
    the earlier ones are already replaced. *)
Definition load_from_file (db : School_DB) (data : value)
  : result unit * School_DB :=
  match load_list Student_from_dict "students" data with
  | Raise e => (Raise e, db)
  | Ok ss =>
      let db1 := {| students := ss; instructors := instructors db;
                    courses := courses db |} in
      match load_list Instructor_from_dict "instructors" data with
      | Raise e => (Raise e, db1)
      | Ok ins =>
          let db2 := {| students := ss; instructors := ins;
                        courses := courses db |} in
          match load_list Course_from_dict "courses" data with
          | Raise e => (Raise e, db2)
          | Ok cs =>
              (Ok tt, {| students := ss; instructors := ins; courses := cs |})
          end
      end
  end.

End School.

(** ** [app_tk_done.py]: the validators of the Tk forms *)

Module AppTk.

(** [str.isspace] on the code points below 256. *)
Definition is_space (c : ascii) : bool :=
  let n := nat_of_ascii c in
  ((9 <=? n) && (n <=? 13) || (28 <=? n) && (n <=? 32)
   || (n =? 133) || (n =? 160))%nat.

Fixpoint lstrip (s : list ascii) : list ascii :=
  match s with
  | [] => []
  | c :: s' => if is_space c then lstrip s' else s
  end.

Definition rstrip (s : list ascii) : list ascii :=
  rev (lstrip (rev s)).

(** [s.strip()] *)
Definition strip (s : list ascii) : list ascii := rstrip (lstrip s).

(** [is_valid_email]: [email or ""] is [email] for every [str]. *)
Definition is_valid_email (email : string) : bool :=
  Regex.re_fullmatch Regex.email_body (strip (list_ascii_of_string email)).

(** [nonempty]: the variadic arguments as a list. *)
Definition nonempty (strings : list string) : bool :=
  forallb (fun s => match strip (list_ascii_of_string s) with
                    | [] => false
                    | _ => true
                    end) strings.

End AppTk.

(** ** [db_done.py]: the adapter [DB]

    Every method of [DB] runs one statement through [_exec], which commits
    at once, or one query through [_all].  A statement that violates a
    constraint changes nothing and raises [sqlite3.IntegrityError], so a
    method is a function from the tables to a [result]. *)

Module DbDone.

Record student_row : Type := {
  student_id : Z;
  name : string;
  age : Z;
  email : string
}.

Record instructor_row : Type := {
  instructor_id : Z;
  i_name : string;
  i_age : Z;
  i_email : string
}.

Record course_row : Type := {
  course_id : Z;
  course_name : string;
  c_instructor_id : option Z
}.

(** The four tables of [SCHEMA]. *)
Record store : Type := {
  students : list student_row;
  instructors : list instructor_row;
  courses : list course_row;
  enrollments : list (Z * Z)
}.

Definition empty : store :=
  {| students := []; instructors := []; courses := []; enrollments := [] |}.

(** Binding a Python [int] to a statement: SQLite integers have 64 bits. *)
Definition bind_int (n : Z) : result Z :=
  if ((- 2 ^ 63 <=? n) && (n <? 2 ^ 63))%Z then Ok n else Raise OverflowError.

Definition bind_opt_int (n : option Z) : result (option Z) :=
  match n with
  | None => Ok None
  | Some z => z' ← bind_int z; Ok (Some z')
  end.

Definition has_student (s : store) (sid : Z) : bool :=
  existsb (fun r => (student_id r =? sid)%Z) (students s).

Definition has_instructor (s : store) (iid : Z) : bool :=
  existsb (fun r => (instructor_id r =? iid)%Z) (instructors s).

Definition has_course (s : store) (cid : Z) : bool :=
  existsb (fun r => (course_id r =? cid)%Z) (courses s).

Definition has_enrollment (s : store) (sid cid : Z) : bool :=
  existsb (fun e => (fst e =? sid)%Z && (snd e =? cid)%Z) (enrollments s).

Definition fk_failed : exn := IntegrityError "FOREIGN KEY constraint failed".

(** [upsert_student]: INSERT ... ON CONFLICT(student_id) DO UPDATE SET
    name, age, email.  The conflict clause covers the primary key only:
    an [email] already held by a row of another id violates UNIQUE. *)
Definition upsert_student (s : store) (student_id : Z) (name : string)
    (age : Z) (email : string) : result store :=
  sid ← bind_int student_id;
  a ← bind_int age;
  if existsb (fun r => negb (DbDone.student_id r =? sid)%Z
                       && String.eqb (DbDone.email r) email) (students s)
  then Raise (IntegrityError "UNIQUE constraint failed: students.email")
  else
    let row := {| student_id := sid; name := name; age := a; email := email |} in
    Ok {| students :=
            if has_student s sid
            then map (fun r => if (DbDone.student_id r =? sid)%Z
                               then row else r) (students s)
            else students s ++ [row];
          instructors := instructors s;
          courses := courses s;
          enrollments := enrollments s |}.

(** [list_students]: SELECT student_id, name, age, email FROM students
    ORDER BY student_id *)
Definition list_students (s : store) : list (Z * string * Z * string) :=
  map (fun r => (student_id r, name r, age r, email r))
      (order_by Z.leb student_id (students s)).

Definition upsert_instructor (s : store) (instructor_id : Z) (name : string)
    (age : Z) (email : string) : result store :=
  iid ← bind_int instructor_id;
  a ← bind_int age;
  if existsb (fun r => negb (DbDone.instructor_id r =? iid)%Z
                       && String.eqb (i_email r) email) (instructors s)
  then Raise (IntegrityError "UNIQUE constraint failed: instructors.email")
  else
    let row := {| instructor_id := iid; i_name := name; i_age := a;
                  i_email := email |} in
    Ok {| students := students s;
          instructors :=
            if has_instructor s iid
            then map (fun r => if (DbDone.instructor_id r =? iid)%Z
                               then row else r) (instructors s)
            else instructors s ++ [row];
          courses := courses s;
          enrollments := enrollments s |}.

Definition list_instructors (s : store) : list (Z * string * Z * string) :=
  map (fun r => (instructor_id r, i_name r, i_age r, i_email r))
      (order_by Z.leb instructor_id (instructors s)).

(** [upsert_course]: the row written names its instructor, so the foreign
    key to [instructors] is checked when the reference is not NULL. *)
Definition upsert_course (s : store) (course_id : Z) (course_name : string)
    (instructor_id : option Z) : result store :=
  cid ← bind_int course_id;
  iid ← bind_opt_int instructor_id;
  if match iid with
     | Some i => negb (has_instructor s i)
     | None => false
     end
  then Raise fk_failed
  else
    let row := {| course_id := cid; course_name := course_name;
                  c_instructor_id := iid |} in
    Ok {| students := students s;
          instructors := instructors s;
          courses :=
            if has_course s cid
            then map (fun r => if (DbDone.course_id r =? cid)%Z
                               then row else r) (courses s)
            else courses s ++ [row];
          enrollments := enrollments s |}.

(** [assign_instructor]: UPDATE courses SET instructor_id=? WHERE
    course_id=?.  No row, no check. *)
Definition assign_instructor (s : store) (course_id instructor_id : Z)
  : result store :=
  iid ← bind_int instructor_id;
  cid ← bind_int course_id;
  if has_course s cid && negb (has_instructor s iid)
  then Raise fk_failed
  else
    Ok {| students := students s;
          instructors := instructors s;
          courses :=
            map (fun r => if (DbDone.course_id r =? cid)%Z
                          then {| course_id := DbDone.course_id r;
                                  course_name := DbDone.course_name r;
                                  c_instructor_id := Some iid |}
                          else r) (courses s);
          enrollments := enrollments s |}.

(** [list_courses]: courses LEFT JOIN instructors, ORDER BY c.course_id.
    A course without a matching instructor yields NULLs. *)
Definition list_courses (s : store)
  : list (Z * string * option string * option string) :=
  flat_map
    (fun c =>
       match match c_instructor_id c with
             | Some i => List.filter (fun r => (instructor_id r =? i)%Z)
                                     (instructors s)
             | None => []
             end with
       | [] => [(course_id c, course_name c, None, None)]
       | js => map (fun r => (course_id c, course_name c,
                              Some (i_name r), Some (i_email r))) js
       end)
    (order_by Z.leb course_id (courses s)).

(** [enroll]: INSERT OR IGNORE INTO enrollments.  OR IGNORE skips a row
    whose primary key is taken; it does not cover foreign keys. *)
Definition enroll (s : store) (student_id course_id : Z) : result store :=
  sid ← bind_int student_id;
  cid ← bind_int course_id;
  if has_enrollment s sid cid then Ok s
  else if has_student s sid && has_course s cid
  then Ok {| students := students s;
             instructors := instructors s;
             courses := courses s;
             enrollments := enrollments s ++ [(sid, cid)] |}
  else Raise fk_failed.

(** [list_enrollments]: enrollments JOIN students, WHERE e.course_id = ?,
    ORDER BY s.student_id *)
Definition list_enrollments (s : store) (course_id : Z)
  : result (list (Z * string * string)) :=
  cid ← bind_int course_id;
  Ok (map (fun r => (student_id r, name r, email r))
        (order_by Z.leb student_id
           (flat_map
              (fun e =>
                 if (snd e =? cid)%Z
                 then List.filter (fun r => (student_id r =? fst e)%Z)
                                  (students s)
                 else [])
              (enrollments s)))).

(** The stores a [DB] on a fresh file can be in: the schema was just
    created, and every later change is a method call that returned. *)
Inductive reachable : store -> Prop :=
| reach_empty : reachable empty
| reach_upsert_student s sid n a e s' :
    reachable s -> upsert_student s sid n a e = Ok s' -> reachable s'
| reach_upsert_instructor s iid n a e s' :
    reachable s -> upsert_instructor s iid n a e = Ok s' -> reachable s'
| reach_upsert_course s cid n i s' :
    reachable s -> upsert_course s cid n i = Ok s' -> reachable s'
| reach_assign_instructor s cid iid s' :
    reachable s -> assign_instructor s cid iid = Ok s' -> reachable s'
| reach_enroll s sid cid s' :
    reachable s -> enroll s sid cid = Ok s' -> reachable s'.

(** What [SCHEMA] declares: the primary keys and the UNIQUE e-mails ... *)
Definition keys_unique (s : store) : Prop :=
  NoDup (map student_id (students s))
  /\ NoDup (map email (students s))
  /\ NoDup (map instructor_id (instructors s))
  /\ NoDup (map i_email (instructors s))
  /\ NoDup (map course_id (courses s))
  /\ NoDup (enrollments s).

(** ... and the foreign keys. *)
Definition refs_valid (s : store) : Prop :=
  (forall c i, In c (courses s) -> c_instructor_id c = Some i ->
               In i (map instructor_id (instructors s)))
  /\ (forall e, In e (enrollments s) ->
                In (fst e) (map student_id (students s))
                /\ In (snd e) (map course_id (courses s))).

End DbDone.

(** ** [school_sqlite.py]: the adapter [SqliteSchoolDB]

    Its methods run several statements on one connection and commit at the
    end, so the connection is modelled with the transaction it has open:
    [db] is what the last commit wrote, [tx] what the statements since then
    have produced.  The connection runs with [PRAGMA foreign_keys = ON]. *)

Module SchoolSqlite.

Record student_row : Type := {
  student_id : string;
  name : string;
  age : Z;
  email : string
}.

Record instructor_row : Type := {
  instructor_id : string;
  i_name : string;
  i_age : Z;
  i_email : string
}.

Record course_row : Type := {
  course_id : string;
  course_name : string;
  c_instructor_id : option string
}.

(** The four tables of [SCHEMA]; a registration is (student_id, course_id). *)
Record store : Type := {
  tbl_students : list student_row;
  tbl_instructors : list instructor_row;
  tbl_courses : list course_row;
  tbl_registrations : list (string * string)
}.

Definition empty : store :=
  {| tbl_students := []; tbl_instructors := []; tbl_courses := [];
     tbl_registrations := [] |}.

Definition bind_int (n : Z) : result Z :=
  if ((- 2 ^ 63 <=? n) && (n <? 2 ^ 63))%Z then Ok n else Raise OverflowError.

Definition has_student (s : store) (sid : string) : bool :=
  existsb (fun r => String.eqb (student_id r) sid) (tbl_students s).

Definition has_instructor (s : store) (iid : string) : bool :=
  existsb (fun r => String.eqb (instructor_id r) iid) (tbl_instructors s).

Definition has_course (s : store) (cid : string) : bool :=
  existsb (fun r => String.eqb (course_id r) cid) (tbl_courses s).

Definition has_registration (s : store) (sid cid : string) : bool :=
  existsb (fun e => String.eqb (fst e) sid && String.eqb (snd e) cid)
          (tbl_registrations s).

Definition fk_failed : exn := IntegrityError "FOREIGN KEY constraint failed".
Definition unique_failed (col : string) : exn :=
  IntegrityError ("UNIQUE constraint failed: " ++ col).

Definition with_students (s : store) (l : list student_row) : store :=
  {| tbl_students := l; tbl_instructors := tbl_instructors s;
     tbl_courses := tbl_courses s; tbl_registrations := tbl_registrations s |}.

Definition with_instructors (s : store) (l : list instructor_row) : store :=
  {| tbl_students := tbl_students s; tbl_instructors := l;
     tbl_courses := tbl_courses s; tbl_registrations := tbl_registrations s |}.

Definition with_courses (s : store) (l : list course_row) : store :=
  {| tbl_students := tbl_students s; tbl_instructors := tbl_instructors s;
     tbl_courses := l; tbl_registrations := tbl_registrations s |}.

Definition with_registrations (s : store) (l : list (string * string))
  : store :=
  {| tbl_students := tbl_students s; tbl_instructors := tbl_instructors s;
     tbl_courses := tbl_courses s; tbl_registrations := l |}.

(** *** The statements the methods execute.  A failing statement leaves
    the tables as they were. *)

(** INSERT INTO students(student_id,name,age,email) VALUES(?,?,?,?) *)
Definition insert_student (sid name : string) (age : Z) (email : string)
    (s : store) : result store :=
  a ← bind_int age;
  if has_student s sid then Raise (unique_failed "students.student_id")
  else Ok (with_students s
             (tbl_students s ++
                [{| student_id := sid; name := name; age := a;
                    email := email |}])).

(** INSERT INTO instructors(instructor_id,name,age,email) VALUES(?,?,?,?) *)
Definition insert_instructor (iid name : string) (age : Z) (email : string)
    (s : store) : result store :=
  a ← bind_int age;
  if has_instructor s iid
  then Raise (unique_failed "instructors.instructor_id")
  else Ok (with_instructors s
             (tbl_instructors s ++
                [{| instructor_id := iid; i_name := name; i_age := a;
                    i_email := email |}])).

(** INSERT INTO courses(course_id,course_name,instructor_id) VALUES(?,?,?) *)
Definition insert_course (cid cname : string) (iid : option string)
    (s : store) : result store :=
  if has_course s cid then Raise (unique_failed "courses.course_id")
  else if match iid with
          | Some i => negb (has_instructor s i)
          | None => false
          end
  then Raise fk_failed
  else Ok (with_courses s
             (tbl_courses s ++
                [{| course_id := cid; course_name := cname;
                    c_instructor_id := iid |}])).

(** UPDATE students SET name=? WHERE student_id=? *)
Definition update_students_name (v sid : string) (s : store) : result store :=
  Ok (with_students s
        (map (fun r => if String.eqb (student_id r) sid
                       then {| student_id := student_id r; name := v;
                               age := age r; email := email r |}
                       else r) (tbl_students s))).

(** UPDATE students SET age=? WHERE student_id=? *)
Definition update_students_age (v : Z) (sid : string) (s : store)
  : result store :=
  a ← bind_int v;
  Ok (with_students s
        (map (fun r => if String.eqb (student_id r) sid
                       then {| student_id := student_id r; name := name r;
                               age := a; email := email r |}
                       else r) (tbl_students s))).

(** UPDATE students SET email=? WHERE student_id=? *)
Definition update_students_email (v sid : string) (s : store)
  : result store :=
  Ok (with_students s
        (map (fun r => if String.eqb (student_id r) sid
                       then {| student_id := student_id r; name := name r;
                               age := age r; email := v |}
                       else r) (tbl_students s))).

(** UPDATE registrations SET student_id=? WHERE student_id=?
    The rows changed must keep the primary key unique, and at the end of
    the statement must name a student that exists (the foreign key is
    immediate). *)
Definition update_registrations_student_id (new old : string) (s : store)
  : result store :=
  if existsb (fun e => String.eqb (fst e) old && negb (String.eqb new old)
                       && has_registration s new (snd e))
             (tbl_registrations s)
  then Raise (unique_failed "registrations.student_id, registrations.course_id")
  else if existsb (fun e => String.eqb (fst e) old) (tbl_registrations s)
          && negb (has_student s new)
  then Raise fk_failed
  else Ok (with_registrations s
             (map (fun e => if String.eqb (fst e) old then (new, snd e) else e)
                  (tbl_registrations s))).

(** UPDATE students SET student_id=? WHERE student_id=?
    [registrations.student_id] declares no ON UPDATE action: a student
    whose key changes must not be referenced. *)
Definition update_students_student_id (new old : string) (s : store)
  : result store :=
  let changes := has_student s old && negb (String.eqb new old) in
  if changes && has_student s new
  then Raise (unique_failed "students.student_id")
  else if changes
          && existsb (fun e => String.eqb (fst e) old) (tbl_registrations s)
  then Raise fk_failed
  else Ok (with_students s
             (map (fun r => if String.eqb (student_id r) old
                            then {| student_id := new; name := name r;
                                    age := age r; email := email r |}
                            else r) (tbl_students s))).

(** UPDATE instructors SET name=? / age=? / email=? WHERE instructor_id=? *)
Definition update_instructors_name (v iid : string) (s : store)
  : result store :=
  Ok (with_instructors s
        (map (fun r => if String.eqb (instructor_id r) iid
                       then {| instructor_id := instructor_id r; i_name := v;
                               i_age := i_age r; i_email := i_email r |}
                       else r) (tbl_instructors s))).

Definition update_instructors_age (v : Z) (iid : string) (s : store)
  : result store :=
  a ← bind_int v;
  Ok (with_instructors s
        (map (fun r => if String.eqb (instructor_id r) iid
                       then {| instructor_id := instructor_id r;
                               i_name := i_name r; i_age := a;
                               i_email := i_email r |}
                       else r) (tbl_instructors s))).

Definition update_instructors_email (v iid : string) (s : store)
  : result store :=
  Ok (with_instructors s
        (map (fun r => if String.eqb (instructor_id r) iid
                       then {| instructor_id := instructor_id r;
                               i_name := i_name r; i_age := i_age r;
                               i_email := v |}
                       else r) (tbl_instructors s))).

Definition teaches (iid : string) (c : course_row) : bool :=
  match c_instructor_id c with
  | Some i => String.eqb i iid
  | None => false
  end.

(** UPDATE courses SET instructor_id=? WHERE instructor_id=? *)
Definition update_courses_instructor_id (new old : string) (s : store)
  : result store :=
  if existsb (teaches old) (tbl_courses s) && negb (has_instructor s new)
  then Raise fk_failed
  else Ok (with_courses s
             (map (fun c => if teaches old c
                            then {| course_id := course_id c;
                                    course_name := course_name c;
                                    c_instructor_id := Some new |}
                            else c) (tbl_courses s))).

(** UPDATE instructors SET instructor_id=? WHERE instructor_id=? *)
Definition update_instructors_instructor_id (new old : string) (s : store)
  : result store :=
  let changes := has_instructor s old && negb (String.eqb new old) in
  if changes && has_instructor s new
  then Raise (unique_failed "instructors.instructor_id")
  else if changes && existsb (teaches old) (tbl_courses s)
  then Raise fk_failed
  else Ok (with_instructors s
             (map (fun r => if String.eqb (instructor_id r) old
                            then {| instructor_id := new; i_name := i_name r;
                                    i_age := i_age r; i_email := i_email r |}
                            else r) (tbl_instructors s))).

(** UPDATE courses SET course_name=? WHERE course_id=? *)
Definition update_courses_name (v cid : string) (s : store) : result store :=
  Ok (with_courses s
        (map (fun c => if String.eqb (course_id c) cid
                       then {| course_id := course_id c; course_name := v;
                               c_instructor_id := c_instructor_id c |}
                       else c) (tbl_courses s))).

(** UPDATE courses SET instructor_id=? WHERE course_id=? *)
Definition update_courses_instructor (v : option string) (cid : string)
    (s : store) : result store :=
  if has_course s cid
     && match v with
        | Some i => negb (has_instructor s i)
        | None => false
        end
  then Raise fk_failed
  else Ok (with_courses s
             (map (fun c => if String.eqb (course_id c) cid
                            then {| course_id := course_id c;
                                    course_name := course_name c;
                                    c_instructor_id := v |}
                            else c) (tbl_courses s))).

(** UPDATE registrations SET course_id=? WHERE course_id=? *)
Definition update_registrations_course_id (new old : string) (s : store)
  : result store :=
  if existsb (fun e => String.eqb (snd e) old && negb (String.eqb new old)
                       && has_registration s (fst e) new)
             (tbl_registrations s)
  then Raise (unique_failed "registrations.student_id, registrations.course_id")
  else if existsb (fun e => String.eqb (snd e) old) (tbl_registrations s)
          && negb (has_course s new)
  then Raise fk_failed
  else Ok (with_registrations s
             (map (fun e => if String.eqb (snd e) old then (fst e, new) else e)
                  (tbl_registrations s))).

(** UPDATE courses SET course_id=? WHERE course_id=? *)
Definition update_courses_course_id (new old : string) (s : store)
  : result store :=
  let changes := has_course s old && negb (String.eqb new old) in
  if changes && has_course s new
  then Raise (unique_failed "courses.course_id")
  else if changes
          && existsb (fun e => String.eqb (snd e) old) (tbl_registrations s)
  then Raise fk_failed
  else Ok (with_courses s
             (map (fun c => if String.eqb (course_id c) old
                            then {| course_id := new;
                                    course_name := course_name c;
                                    c_instructor_id := c_instructor_id c |}
                            else c) (tbl_courses s))).

(** DELETE FROM students WHERE student_id=?
    ON DELETE CASCADE: the registrations of a deleted student go too. *)
Definition delete_students (sid : string) (s : store) : result store :=
  Ok {| tbl_students :=
          List.filter (fun r => negb (String.eqb (student_id r) sid))
                      (tbl_students s);
        tbl_instructors := tbl_instructors s;
        tbl_courses := tbl_courses s;
        tbl_registrations :=
          if has_student s sid
          then List.filter (fun e => negb (String.eqb (fst e) sid))
                           (tbl_registrations s)
          else tbl_registrations s |}.

(** DELETE FROM instructors WHERE instructor_id=?
    ON DELETE SET NULL: the courses of a deleted instructor lose their
    reference. *)
Definition delete_instructors (iid : string) (s : store) : result store :=
  Ok {| tbl_students := tbl_students s;
        tbl_instructors :=
          List.filter (fun r => negb (String.eqb (instructor_id r) iid))
                      (tbl_instructors s);
        tbl_courses :=
          if has_instructor s iid
          then map (fun c => if teaches iid c
                             then {| course_id := course_id c;
                                     course_name := course_name c;
                                     c_instructor_id := None |}
                             else c) (tbl_courses s)
          else tbl_courses s;
        tbl_registrations := tbl_registrations s |}.

(** DELETE FROM courses WHERE course_id=? *)
Definition delete_courses (cid : string) (s : store) : result store :=
  Ok {| tbl_students := tbl_students s;
        tbl_instructors := tbl_instructors s;
        tbl_courses :=
          List.filter (fun c => negb (String.eqb (course_id c) cid))
                      (tbl_courses s);
        tbl_registrations :=
          if has_course s cid
          then List.filter (fun e => negb (String.eqb (snd e) cid))
                           (tbl_registrations s)
          else tbl_registrations s |}.

(** INSERT OR IGNORE INTO registrations(student_id, course_id) VALUES(?,?) *)
Definition insert_or_ignore_registration (sid cid : string) (s : store)
  : result store :=
  if has_registration s sid cid then Ok s
  else if has_student s sid && has_course s cid
  then Ok (with_registrations s (tbl_registrations s ++ [(sid, cid)]))
  else Raise fk_failed.

(** *** The connection *)

Record conn : Type := {
  db : store;          (* committed *)
  tx : option store    (* the open transaction, if any *)
}.

(** What a statement on the connection sees. *)
Definition view (c : conn) : store :=
  match tx c with
  | Some s => s
  | None => db c
  end.

(** [SqliteSchoolDB(path)] on a fresh file: the schema is created and
    committed. *)
Definition connect : conn := {| db := empty; tx := None |}.

(** A method: it may raise, and either way leaves the connection in some
    state. *)
Definition M (A : Type) : Type := conn -> result A * conn.

Definition ret {A} (a : A) : M A := fun c => (Ok a, c).

Definition bind {A B} (m : M A) (k : A -> M B) : M B :=
  fun c =>
    match m c with
    | (Ok a, c') => k a c'
    | (Raise e, c') => (Raise e, c')
    end.

Notation "m >> k" := (bind m (fun _ => k))
  (at level 62, right associativity).

(** [self.con.execute(stmt)] for INSERT, UPDATE and DELETE: the module
    opens a transaction first when none is open; a statement that fails
    undoes its own changes only, and the transaction stays open. *)
Definition execute (stmt : store -> result store) : M unit :=
  fun c =>
    match stmt (view c) with
    | Ok s' => (Ok tt, {| db := db c; tx := Some s' |})
    | Raise e => (Raise e, {| db := db c; tx := Some (view c) |})
    end.

(** [self.con.commit()] *)
Definition commit : M unit :=
  fun c => (Ok tt, {| db := view c; tx := None |}).

(** [if x is not None: ...] *)
Definition when_given {A} (x : option A) (k : A -> M unit) : M unit :=
  match x with
  | Some a => k a
  | None => ret tt
  end.

(** *** Create *)

Definition add_student (s : School.Student) : M unit :=
  execute (insert_student (School.student_id s)
             (School.name (School.student_person s))
             (School.age (School.student_person s))
             (School._email (School.student_person s))) >>
  commit.

Definition add_instructor (i : School.Instructor) : M unit :=
  execute (insert_instructor (School.instructor_id i)
             (School.name (School.instructor_person i))
             (School.age (School.instructor_person i))
             (School._email (School.instructor_person i))) >>
  commit.

Definition add_course (c : School.Course) : M unit :=
  let instr_id :=
    match School.instructor c with
    | Some i => Some (School.instructor_id i)
    | None => None
    end in
  execute (insert_course (School.course_id c) (School.course_name c)
             instr_id) >>
  commit.

(** *** Update *)

Definition update_student (student_id : string)
    (name : option string) (age : option Z) (email : option string)
    (new_id : option string) : M unit :=
  when_given name (fun v => execute (update_students_name v student_id)) >>
  when_given age (fun v => execute (update_students_age v student_id)) >>
  when_given email (fun v => execute (update_students_email v student_id)) >>
  when_given new_id (fun v =>
    if negb (String.eqb v student_id)
    then execute (update_registrations_student_id v student_id) >>
         execute (update_students_student_id v student_id)
    else ret tt) >>
  commit.

Definition update_instructor (instructor_id : string)
    (name : option string) (age : option Z) (email : option string)
    (new_id : option string) : M unit :=
  when_given name (fun v => execute (update_instructors_name v instructor_id)) >>
  when_given age (fun v => execute (update_instructors_age v instructor_id)) >>
  when_given email (fun v => execute (update_instructors_email v instructor_id)) >>
  when_given new_id (fun v =>
    if negb (String.eqb v instructor_id)
    then execute (update_courses_instructor_id v instructor_id) >>
         execute (update_instructors_instructor_id v instructor_id)
    else ret tt) >>
  commit.

(** [instructor_id: Optional[str] = None]: the guard [is not None] skips
    the statement for [None], given or defaulted. *)
Definition update_course (course_id : string)
    (name : option string) (instructor_id : option string)
    (new_id : option string) : M unit :=
  when_given name (fun v => execute (update_courses_name v course_id)) >>
  when_given instructor_id (fun v =>
    execute (update_courses_instructor (Some v) course_id)) >>
  when_given new_id (fun v =>
    if negb (String.eqb v course_id)
    then execute (update_registrations_course_id v course_id) >>
         execute (update_courses_course_id v course_id)
    else ret tt) >>
  commit.

(** *** Delete *)

Definition delete_student (student_id : string) : M unit :=
  execute (delete_students student_id) >> commit.

Definition delete_instructor (instructor_id : string) : M unit :=
  execute (delete_instructors instructor_id) >> commit.

Definition delete_course (course_id : string) : M unit :=
  execute (delete_courses course_id) >> commit.

(** *** Enrollment and assignment *)

Definition register_student_in_course (student_id course_id : string)
  : M unit :=
  execute (insert_or_ignore_registration student_id course_id) >> commit.

Definition assign_instructor_to_course (instructor_id : option string)
    (course_id : string) : M unit :=
  execute (update_courses_instructor instructor_id course_id) >> commit.

(** *** Read: the properties [students], [instructors], [courses].
    They run SELECTs only, so they are functions of what the connection
    sees; building the entities can raise, since the constructors
    validate. *)

(** [m.setdefault(k, []).append(v)] for every pair, in order. *)
Definition group_by_key (pairs : list (string * string))
  : gmap string (list string) :=
  foldl (fun m kv => <[fst kv := default [] (m !! fst kv) ++ [snd kv]]> m)
        ∅ pairs.

Definition students (c : conn) : result (list School.Student) :=
  let rows := order_by String.leb name (tbl_students (view c)) in
  let reg_map := group_by_key (tbl_registrations (view c)) in
  rmap (fun r => School.Student_init (name r) (age r) (email r)
                   (student_id r)
                   (Some (default [] (reg_map !! student_id r))))
       rows.

(** SELECT course_id, instructor_id FROM courses WHERE instructor_id IS NOT
    NULL, as (instructor_id, course_id) pairs. *)
Definition taught_pairs (s : store) : list (string * string) :=
  flat_map (fun c => match c_instructor_id c with
                     | Some i => [(i, course_id c)]
                     | None => []
                     end) (tbl_courses s).

Definition instructors (c : conn) : result (list School.Instructor) :=
  let rows := order_by String.leb i_name (tbl_instructors (view c)) in
  let assigned := group_by_key (taught_pairs (view c)) in
  rmap (fun r => School.Instructor_init (i_name r) (i_age r) (i_email r)
                   (instructor_id r)
                   (Some (default [] (assigned !! instructor_id r))))
       rows.

(** [{x.id: x for x in xs}]: a later entry replaces an earlier one. *)
Definition index_by {A} (key : A -> string) (xs : list A) : gmap string A :=
  foldl (fun m x => <[key x := x]> m) ∅ xs.

Definition courses (c : conn) : result (list School.Course) :=
  ins ← instructors c;
  let ins_map := index_by School.instructor_id ins in
  let rows := order_by String.leb course_name (tbl_courses (view c)) in
  let enrolled :=
    group_by_key (map (fun e => (snd e, fst e)) (tbl_registrations (view c))) in
  stus ← students c;
  let stu_map := index_by School.student_id stus in
  Ok (map (fun r =>
             let instr :=
               match c_instructor_id r with
               | Some iid => ins_map !! iid
               | None => None
               end in
             let enrolled_objs :=
               omap (fun sid => stu_map !! sid)
                    (default [] (enrolled !! course_id r)) in
             School.Course_init (course_id r) (course_name r) instr
               (Some enrolled_objs))
          rows).

(** *** What [SCHEMA] declares *)

Definition keys_unique (s : store) : Prop :=
  NoDup (map student_id (tbl_students s))
  /\ NoDup (map instructor_id (tbl_instructors s))
  /\ NoDup (map course_id (tbl_courses s))
  /\ NoDup (tbl_registrations s).

Definition refs_valid (s : store) : Prop :=
  (forall c i, In c (tbl_courses s) -> c_instructor_id c = Some i ->
               In i (map instructor_id (tbl_instructors s)))
  /\ (forall e, In e (tbl_registrations s) ->
                In (fst e) (map student_id (tbl_students s))
                /\ In (snd e) (map course_id (tbl_courses s))).


(** The public methods that write, with any arguments. *)
Inductive method : M unit -> Prop :=
| m_add_student s : method (add_student s)
| m_add_instructor i : method (add_instructor i)
| m_add_course c : method (add_course c)
| m_update_student sid n a e new :
    method (update_student sid n a e new)
| m_update_instructor iid n a e new :
    method (update_instructor iid n a e new)
| m_update_course cid n i new : method (update_course cid n i new)
| m_delete_student sid : method (delete_student sid)
| m_delete_instructor iid : method (delete_instructor iid)
| m_delete_course cid : method (delete_course cid)
| m_register sid cid : method (register_student_in_course sid cid)
| m_assign iid cid : method (assign_instructor_to_course iid cid).

(** The states of a connection to a fresh file: after any number of
    method calls, each of which returned or raised. *)
Inductive reachable : conn -> Prop :=
| reach_connect : reachable connect
| reach_call c m : reachable c -> method m -> reachable (snd (m c)).

End SchoolSqlite.

(** ** [app_tk_done.py]: the handlers of the Tk window [App]

    The window is its [DB], the text of the status bar and the rows of its
    four tables.  A handler receives the values of the form variables it
    reads ([IntVar]s as integers, [StringVar]s as strings) and the answer to
    the confirmation it asks for; it returns the message boxes it shows.
    The timer that clears the status bar later is not modelled. *)

Module App.

Inductive dialog : Type :=
| showwarning (msg : string)
| showerror (e : exn).

Record app : Type := {
  db : DbDone.store;
  _status_var : string;
  stu_tree : list (Z * string * Z * string);
  ins_tree : list (Z * string * Z * string);
  crs_tree : list (Z * string * option string * option string);
  enr_tree : list (Z * string * string)
}.

(** [s.strip()] on a string. *)
Definition strip (s : string) : string :=
  string_of_list_ascii (AppTk.strip (list_ascii_of_string s)).

Definition with_db (a : app) (d : DbDone.store) : app :=
  {| db := d; _status_var := _status_var a; stu_tree := stu_tree a;
     ins_tree := ins_tree a; crs_tree := crs_tree a; enr_tree := enr_tree a |}.

Definition _set_status (a : app) (text : string) : app :=
  {| db := db a; _status_var := text; stu_tree := stu_tree a;
     ins_tree := ins_tree a; crs_tree := crs_tree a; enr_tree := enr_tree a |}.

Definition refresh_students (a : app) : app :=
  {| db := db a; _status_var := _status_var a;
     stu_tree := DbDone.list_students (db a);
     ins_tree := ins_tree a; crs_tree := crs_tree a; enr_tree := enr_tree a |}.

Definition refresh_instructors (a : app) : app :=
  {| db := db a; _status_var := _status_var a; stu_tree := stu_tree a;
     ins_tree := DbDone.list_instructors (db a);
     crs_tree := crs_tree a; enr_tree := enr_tree a |}.

Definition refresh_courses (a : app) : app :=
  {| db := db a; _status_var := _status_var a; stu_tree := stu_tree a;
     ins_tree := ins_tree a; crs_tree := DbDone.list_courses (db a);
     enr_tree := enr_tree a |}.

Definition add_student (a : app) (sid : Z) (sname : string) (sage : Z)
    (semail : string) : list dialog * app :=
  let name := strip sname in
  let email := strip semail in
  if negb (AppTk.nonempty [name; email])
  then ([showwarning "Name and Email are required."], a)
  else if negb (AppTk.is_valid_email email)
  then ([showwarning "Please enter a valid email address."], a)
  else
    match DbDone.upsert_student (db a) sid name sage email with
    | Ok d => ([], _set_status (refresh_students (with_db a d)) "Student saved")
    | Raise e => ([showerror e], a)
    end.

Definition add_instructor (a : app) (iid : Z) (iname : string) (iage : Z)
    (iemail : string) : list dialog * app :=
  let name := strip iname in
  let email := strip iemail in
  if negb (AppTk.nonempty [name; email])
  then ([showwarning "Name and Email are required."], a)
  else if negb (AppTk.is_valid_email email)
  then ([showwarning "Please enter a valid email address."], a)
  else
    match DbDone.upsert_instructor (db a) iid name iage email with
    | Ok d =>
        ([], _set_status (refresh_instructors (with_db a d)) "Instructor saved")
    | Raise e => ([showerror e], a)
    end.

(** An instructor field left at 0 means no instructor. *)
Definition save_course (a : app) (cid : Z) (cname : string) (cinstr : Z)
  : list dialog * app :=
  let name := strip cname in
  if negb (AppTk.nonempty [name])
  then ([showwarning "Course name is required."], a)
  else
    let instr := if negb (cinstr =? 0)%Z then Some cinstr else None in
    match DbDone.upsert_course (db a) cid name instr with
    | Ok d => ([], _set_status (refresh_courses (with_db a d)) "Course saved")
    | Raise e => ([showerror e], a)
    end.

Definition assign_instr (a : app) (cid cinstr : Z) (confirmed : bool)
  : list dialog * app :=
  if (cinstr =? 0)%Z
  then ([showwarning
           "Enter an Instructor ID to assign (or leave 0 for none)."], a)
  else if negb confirmed then ([], a)
  else
    match DbDone.assign_instructor (db a) cid cinstr with
    | Ok d =>
        ([], _set_status (refresh_courses (with_db a d)) "Instructor assigned")
    | Raise e => ([showerror e], a)
    end.

Definition show_course_enrollments (a : app) (ecid : Z) : list dialog * app :=
  if (ecid <=? 0)%Z
  then ([showwarning "Enter a Course ID to list enrollments."], a)
  else
    match DbDone.list_enrollments (db a) ecid with
    | Raise e => ([showerror e], a)
    | Ok rows =>
        ([], {| db := db a; _status_var := _status_var a;
                stu_tree := stu_tree a; ins_tree := ins_tree a;
                crs_tree := crs_tree a; enr_tree := rows |})
    end.

Definition enroll (a : app) (esid ecid : Z) : list dialog * app :=
  if (esid <=? 0)%Z || (ecid <=? 0)%Z
  then ([showwarning "Both IDs must be greater than 0."], a)
  else
    match DbDone.enroll (db a) esid ecid with
    | Ok d =>
        show_course_enrollments (_set_status (with_db a d) "Enrollment added")
          ecid
    | Raise e => ([showerror e], a)
    end.

(** The stores the window reaches on a fresh file when it is used through
    its forms. *)
Inductive handler : (app -> list dialog * app) -> Prop :=
| h_add_student sid n ag e : handler (fun a => add_student a sid n ag e)
| h_add_instructor iid n ag e : handler (fun a => add_instructor a iid n ag e)
| h_save_course cid n i : handler (fun a => save_course a cid n i)
| h_assign_instr cid i yes : handler (fun a => assign_instr a cid i yes)
| h_enroll sid cid : handler (fun a => enroll a sid cid)
| h_show cid : handler (fun a => show_course_enrollments a cid)
| h_refresh_students : handler (fun a => ([], refresh_students a))
| h_refresh_instructors : handler (fun a => ([], refresh_instructors a))
| h_refresh_courses : handler (fun a => ([], refresh_courses a)).

(** [App(root)] on a fresh file. *)
Definition start : app :=
  {| db := DbDone.empty; _status_var := "Ready"; stu_tree := [];
     ins_tree := []; crs_tree := []; enr_tree := [] |}.

Inductive reachable : app -> Prop :=
| reach_start : reachable start
| reach_handler a h : reachable a -> handler h -> reachable (snd (h a)).

End App.

(** ** What the specification says, in its own words *)

Module Spec.

(** The shape [local@domain.tld]: a non-empty local part of ASCII letters,
    digits and [._%+-], a non-empty domain of letters, digits, dots and
    hyphens (its labels, separated by dots), and after the last dot a
    top-level label of at least two letters. *)
Definition email_shape (s : list ascii) : Prop :=
  exists local domain tld : list ascii,
    s = local ++ "@"%char :: domain ++ "."%char :: tld
    /\ local <> [] /\ forallb Regex.local_class local = true
    /\ domain <> [] /\ forallb Regex.domain_class domain = true
    /\ (2 <= length tld)%nat /\ forallb Regex.alpha tld = true.

(** An entity as its constructor leaves it: the e-mail passed
    [validate_email] and the age passed [validate_age]. *)
Definition person_ok (p : School.Person) : Prop :=
  School.validate_email (School._email p) = Ok true
  /\ School.validate_age (School.age p) = Ok tt.

Definition student_ok (s : School.Student) : Prop :=
  person_ok (School.student_person s).

Definition instructor_ok (i : School.Instructor) : Prop :=
  person_ok (School.instructor_person i).

(** [Course.__init__] validates nothing; the instructor and the students
    nested in a course are entities themselves. *)
Definition course_ok (c : School.Course) : Prop :=
  (forall i, School.instructor c = Some i -> instructor_ok i)
  /\ Forall student_ok (School.enrolled_students c).

(** The values SQLite stores as INTEGER. *)
Definition int64 (n : Z) : Prop := (- 2 ^ 63 <= n < 2 ^ 63)%Z.

(** A form that calls [upsert_student] for the same id once per entry of
    [calls] and reports a failed call instead of propagating it (as the
    Tk form does): the store after all the calls. *)
Definition after_upserts (s : DbDone.store) (sid : Z)
    (calls : list (string * Z * string)) : DbDone.store :=
  fold_left
    (fun st call =>
       match DbDone.upsert_student st sid (fst (fst call)) (snd (fst call))
               (snd call) with
       | Ok st' => st'
       | Raise _ => st
       end)
    calls s.


End Spec.

(** ** What the Tk forms let through *)

Module AppRows.

(** A text the forms let through: not blank, and stripped. *)
Definition text_ok (s : string) : Prop :=
  AppTk.nonempty [s] = true /\ App.strip s = s.

(** Rows as the forms write them. *)
Definition rows_valid (s : DbDone.store) : Prop :=
  (forall r, In r (DbDone.students s) ->
     text_ok (DbDone.name r)
     /\ Spec.email_shape (list_ascii_of_string (DbDone.email r)))
  /\ (forall r, In r (DbDone.instructors s) ->
        text_ok (DbDone.i_name r)
        /\ Spec.email_shape (list_ascii_of_string (DbDone.i_email r)))
  /\ (forall c, In c (DbDone.courses s) -> text_ok (DbDone.course_name c)).

(** Enrollments as the enroll form writes them. *)
Definition enrollments_positive (s : DbDone.store) : Prop :=
  forall e, In e (DbDone.enrollments s) -> (0 < fst e)%Z /\ (0 < snd e)%Z.

End AppRows.

(** ** The entities that [SqliteSchoolDB] builds from its rows *)

Module Hydrated.

(** What the [students] property builds from a row. *)
Definition student_of_row (regs : list (string * string))
    (r : SchoolSqlite.student_row) (st : School.Student) : Prop :=
  School.student_id st = SchoolSqlite.student_id r
  /\ School.student_person st
     = {| School.name := SchoolSqlite.name r;
          School.age := SchoolSqlite.age r;
          School._email := SchoolSqlite.email r |}
  /\ School.registered_courses st
     = map snd (List.filter
                  (fun e => String.eqb (fst e) (SchoolSqlite.student_id r))
                  regs).

(** What the [instructors] property builds from a row. *)
Definition instructor_of_row (courses : list SchoolSqlite.course_row)
    (r : SchoolSqlite.instructor_row) (i : School.Instructor) : Prop :=
  School.instructor_id i = SchoolSqlite.instructor_id r
  /\ School.instructor_person i
     = {| School.name := SchoolSqlite.i_name r;
          School.age := SchoolSqlite.i_age r;
          School._email := SchoolSqlite.i_email r |}
  /\ School.assigned_courses i
     = map SchoolSqlite.course_id
         (List.filter (SchoolSqlite.teaches (SchoolSqlite.instructor_id r))
            courses).

End Hydrated.

(** ** Concrete data for the examples *)

Module Examples.

Definition ann : School.Student :=
  {| School.student_person :=
       {| School.name := "Ann"; School.age := 20;
          School._email := "ann@x.com" |};
     School.student_id := "s1";
     School.registered_courses := ["c1"; "c2"] |}.

Definition kim : School.Instructor :=
  {| School.instructor_person :=
       {| School.name := "Kim"; School.age := 41;
          School._email := "kim@x.com" |};
     School.instructor_id := "i5";
     School.assigned_courses := ["c1"] |}.

Definition cs101 : School.Course :=
  {| School.course_id := "c1";
     School.course_name := "CS101";
     School.instructor := Some kim;
     School.enrolled_students := [ann] |}.

(** A [DB] with student 1 and course 10. *)
Definition db1 : DbDone.store :=
  {| DbDone.students :=
       [{| DbDone.student_id := 1; DbDone.name := "Ann"; DbDone.age := 20;
           DbDone.email := "ann@x.com" |}];
     DbDone.instructors := [];
     DbDone.courses :=
       [{| DbDone.course_id := 10; DbDone.course_name := "CS101";
           DbDone.c_instructor_id := None |}];
     DbDone.enrollments := [] |}.

(** A [SqliteSchoolDB] with student s1 registered in the courses c1 and
    c2, and instructor i5 teaching c1. *)
Definition school1 : SchoolSqlite.conn :=
  {| SchoolSqlite.db :=
       {| SchoolSqlite.tbl_students :=
            [{| SchoolSqlite.student_id := "s1"; SchoolSqlite.name := "Ann";
                SchoolSqlite.age := 20; SchoolSqlite.email := "ann@x.com" |}];
          SchoolSqlite.tbl_instructors :=
            [{| SchoolSqlite.instructor_id := "i5";
                SchoolSqlite.i_name := "Kim"; SchoolSqlite.i_age := 41;
                SchoolSqlite.i_email := "kim@x.com" |}];
          SchoolSqlite.tbl_courses :=
            [{| SchoolSqlite.course_id := "c1";
                SchoolSqlite.course_name := "CS101";
                SchoolSqlite.c_instructor_id := Some "i5" |};
             {| SchoolSqlite.course_id := "c2";
                SchoolSqlite.course_name := "AI";
                SchoolSqlite.c_instructor_id := None |}];
          SchoolSqlite.tbl_registrations := [("s1", "c1"); ("s1", "c2")] |};
     SchoolSqlite.tx := None |}.

(** A [SqliteSchoolDB] whose students sort differently by id and by
    name. *)
Definition school2 : SchoolSqlite.conn :=
  {| SchoolSqlite.db :=
       {| SchoolSqlite.tbl_students :=
            [{| SchoolSqlite.student_id := "1"; SchoolSqlite.name := "Zed";
                SchoolSqlite.age := 20; SchoolSqlite.email := "zed@x.com" |};
             {| SchoolSqlite.student_id := "2"; SchoolSqlite.name := "Amy";
                SchoolSqlite.age := 21; SchoolSqlite.email := "amy@x.com" |}];
          SchoolSqlite.tbl_instructors := [];
          SchoolSqlite.tbl_courses := [];
          SchoolSqlite.tbl_registrations := [] |};
     SchoolSqlite.tx := None |}.

(** A [SqliteSchoolDB] with two students, two instructors and three
    courses: s1 is registered in c1 and c2, s2 in c1; i5 teaches c1, i6
    teaches c2, nobody teaches c3. *)
Definition school3 : SchoolSqlite.conn :=
  {| SchoolSqlite.db :=
       {| SchoolSqlite.tbl_students :=
            [{| SchoolSqlite.student_id := "s1"; SchoolSqlite.name := "Ann";
                SchoolSqlite.age := 20; SchoolSqlite.email := "ann@x.com" |};
             {| SchoolSqlite.student_id := "s2"; SchoolSqlite.name := "Bob";
                SchoolSqlite.age := 22; SchoolSqlite.email := "bob@x.com" |}];
          SchoolSqlite.tbl_instructors :=
            [{| SchoolSqlite.instructor_id := "i5";
                SchoolSqlite.i_name := "Kim"; SchoolSqlite.i_age := 41;
                SchoolSqlite.i_email := "kim@x.com" |};
             {| SchoolSqlite.instructor_id := "i6";
                SchoolSqlite.i_name := "Lee"; SchoolSqlite.i_age := 50;
                SchoolSqlite.i_email := "lee@x.com" |}];
          SchoolSqlite.tbl_courses :=
            [{| SchoolSqlite.course_id := "c1";
                SchoolSqlite.course_name := "CS101";
                SchoolSqlite.c_instructor_id := Some "i5" |};
             {| SchoolSqlite.course_id := "c2";
                SchoolSqlite.course_name := "AI";
                SchoolSqlite.c_instructor_id := Some "i6" |};
             {| SchoolSqlite.course_id := "c3";
                SchoolSqlite.course_name := "Logic";
                SchoolSqlite.c_instructor_id := None |}];
          SchoolSqlite.tbl_registrations :=
            [("s1", "c1"); ("s2", "c1"); ("s1", "c2")] |};
     SchoolSqlite.tx := None |}.

(** A [DB] with two instructors and three courses stored out of id order:
    12 and 11 are taught by instructor 5, 10 by nobody. *)
Definition db2 : DbDone.store :=
  {| DbDone.students := [];
     DbDone.instructors :=
       [{| DbDone.instructor_id := 5; DbDone.i_name := "Kim";
           DbDone.i_age := 41; DbDone.i_email := "kim@x.com" |};
        {| DbDone.instructor_id := 6; DbDone.i_name := "Lee";
           DbDone.i_age := 50; DbDone.i_email := "lee@x.com" |}];
     DbDone.courses :=
       [{| DbDone.course_id := 12; DbDone.course_name := "Logic";
           DbDone.c_instructor_id := Some 5%Z |};
        {| DbDone.course_id := 10; DbDone.course_name := "CS101";
           DbDone.c_instructor_id := None |};
        {| DbDone.course_id := 11; DbDone.course_name := "AI";
           DbDone.c_instructor_id := Some 5%Z |}];
     DbDone.enrollments := [] |}.

End Examples.

(* ===================================================================== *)
(** * Part II: properties                                                  *)
(* ===================================================================== *)

(** ** ORDER BY returns the same rows, in key order *)

Section OrderByFacts.
Context {A K : Type} (leb : K -> K -> bool) (key : A -> K).
Hypothesis leb_total : forall a b, leb a b = true \/ leb b a = true.
Hypothesis leb_trans :
  forall a b c, leb a b = true -> leb b c = true -> leb a c = true.


Lemma insert_by_perm x l : Permutation (insert_by leb key x l) (x :: l).
Proof using Type.
  induction l as [|y l IH]; simpl; [reflexivity|].
  destruct (leb (key x) (key y)); [reflexivity|].
  rewrite IH. apply perm_swap.
Qed.

Lemma order_by_perm l : Permutation (order_by leb key l) l.
Proof using Type.
  induction l as [|x l IH]; simpl; [reflexivity|].
  rewrite insert_by_perm. now constructor.
Qed.

Lemma order_by_In x l : In x (order_by leb key l) <-> In x l.
Proof using Type.
  split; apply Permutation_in;
    [apply order_by_perm | symmetry; apply order_by_perm].
Qed.



Lemma order_by_filter (f : A -> bool) l :
  Permutation (List.filter f (order_by leb key l)) (List.filter f l).
Proof using Type.
  pose proof (order_by_perm l) as HP.
  induction HP as [|x l1 l2 HP IH|x y l0|l1 l2 l3 H1 IH1 H2 IH2]; simpl.
  - reflexivity.
  - destruct (f x); [now constructor | exact IH].
  - destruct (f x), (f y); try reflexivity. apply perm_swap.
  - etransitivity; eassumption.
Qed.
End OrderByFacts.






(** ** The matcher accepts exactly the strings the expression denotes *)

Module RegexFacts.
Import Regex.

Create HintDb re.
#[local] Hint Constructors matches : re.

Lemma nullable_iff r : nullable r = true <-> matches r [].
Proof.
  split.
  - induction r; simpl; intros H; try discriminate; auto with re.
    + apply andb_prop in H as [H1 H2].
      change (@nil ascii) with (@nil ascii ++ []). auto with re.
    + apply orb_prop in H as [H|H]; auto with re.
  - intros H. remember [] as s eqn:Es.
    induction H; simpl; try discriminate; auto.
    + apply app_eq_nil in Es as [-> ->]. now rewrite IHmatches1, IHmatches2.
    + now rewrite IHmatches.
    + rewrite IHmatches by assumption. apply orb_true_r.
Qed.

Lemma matches_cat_iff r1 r2 s :
  matches (Cat r1 r2) s <->
  exists s1 s2, s = s1 ++ s2 /\ matches r1 s1 /\ matches r2 s2.
Proof.
  split.
  - inversion 1; subst; eauto.
  - intros (s1 & s2 & -> & H1 & H2). auto with re.
Qed.

Lemma matches_star_cons_inv r a s :
  matches (Star r) (a :: s) ->
  exists s1 s2, s = s1 ++ s2 /\ matches r (a :: s1) /\ matches (Star r) s2.
Proof.
  intros H. remember (Star r) as r' eqn:Er. remember (a :: s) as s' eqn:Es.
  revert s Es.
  induction H; intros s0 Es; try discriminate.
  injection Er as ->.
  destruct s1 as [|b s1]; simpl in Es.
  - subst s2. now apply IHmatches2.
  - injection Es as -> <-. eauto.
Qed.

Lemma deriv_iff a r : forall s, matches (deriv a r) s <-> matches r (a :: s).
Proof.
  induction r as [| |p|r1 IH1 r2 IH2|r1 IH1 r2 IH2|r IH]; intros s; simpl.
  - split; inversion 1.
  - split; inversion 1.
  - split.
    + destruct (p a) eqn:E; inversion 1; subst. now constructor.
    + intros H. inversion H as [|p0 c Hc| | | | |]; subst.
      rewrite Hc. constructor.
  - assert (Hcat : matches (Cat (deriv a r1) r2) s <->
                   exists s1 s2, s = s1 ++ s2 /\ matches r1 (a :: s1)
                                 /\ matches r2 s2).
    { rewrite matches_cat_iff. split; intros (s1 & s2 & -> & H1 & H2);
        exists s1, s2; (split; [reflexivity|split; [|exact H2]]);
        now apply IH1. }
    destruct (nullable r1) eqn:N.
    + split.
      * intros H. inversion H as [| | |? ? ? HL|? ? ? HR| |]; subst.
        -- apply Hcat in HL as (s1 & s2 & -> & H1 & H2).
           change (a :: s1 ++ s2) with ((a :: s1) ++ s2). auto with re.
        -- change (a :: s) with ([] ++ a :: s). constructor.
           ++ now apply nullable_iff.
           ++ now apply IH2.
      * intros H. apply matches_cat_iff in H as (s1 & s2 & E & H1 & H2).
        destruct s1 as [|b s1]; simpl in E.
        -- subst s2. apply m_alt_r. now apply IH2.
        -- injection E as <- ->. apply m_alt_l. apply Hcat. eauto.
    + rewrite Hcat. split.
      * intros (s1 & s2 & -> & H1 & H2).
        change (a :: s1 ++ s2) with ((a :: s1) ++ s2). auto with re.
      * intros H. apply matches_cat_iff in H as (s1 & s2 & E & H1 & H2).
        destruct s1 as [|b s1]; simpl in E.
        -- apply nullable_iff in H1. congruence.
        -- injection E as <- ->. eauto.
  - split.
    + inversion 1; subst; [apply m_alt_l; now apply IH1
                          |apply m_alt_r; now apply IH2].
    + inversion 1; subst; [apply m_alt_l; now apply IH1
                          |apply m_alt_r; now apply IH2].
  - split.
    + intros H. apply matches_cat_iff in H as (s1 & s2 & -> & H1 & H2).
      change (a :: s1 ++ s2) with ((a :: s1) ++ s2).
      constructor; [now apply IH | exact H2].
    + intros H. apply matches_star_cons_inv in H as (s1 & s2 & -> & H1 & H2).
      constructor; [now apply IH | exact H2].
Qed.

Theorem accepts_iff r s : accepts r s = true <-> matches r s.
Proof.
  revert r. induction s as [|a s IH]; intros r; simpl.
  - apply nullable_iff.
  - rewrite IH. apply deriv_iff.
Qed.

(** *** Character classes *)

Lemma matches_class_iff p s :
  matches (Class p) s <-> exists c, s = [c] /\ p c = true.
Proof.
  split.
  - inversion 1; subst; eauto.
  - intros (c & -> & H). now constructor.
Qed.

Lemma matches_chr_iff c s : matches (Chr c) s <-> s = [c].
Proof.
  unfold Chr. rewrite matches_class_iff. split.
  - intros (c' & -> & H). apply Ascii.eqb_eq in H. now subst.
  - intros ->. exists c. split; [reflexivity | apply Ascii.eqb_refl].
Qed.

Lemma matches_star_class_iff p s :
  matches (Star (Class p)) s <-> forallb p s = true.
Proof.
  split.
  - intros H. remember (Star (Class p)) as r eqn:Er.
    induction H; try discriminate; [reflexivity|].
    injection Er as ->.
    apply matches_class_iff in H as (c & -> & Hc). simpl.
    rewrite Hc. now apply IHmatches2.
  - induction s as [|c s IH]; simpl; intros H; [constructor|].
    apply andb_prop in H as [Hc Hs].
    change (c :: s) with ([c] ++ s).
    constructor; [now constructor | auto].
Qed.

Lemma matches_plus_class_iff p s :
  matches (Plus (Class p)) s <-> s <> [] /\ forallb p s = true.
Proof.
  unfold Plus. rewrite matches_cat_iff. split.
  - intros (s1 & s2 & -> & H1 & H2).
    apply matches_class_iff in H1 as (c & -> & Hc).
    apply matches_star_class_iff in H2. simpl. rewrite Hc, H2.
    split; [discriminate | reflexivity].
  - intros [Hne H]. destruct s as [|c s]; [congruence|].
    simpl in H. apply andb_prop in H as [Hc Hs].
    exists [c], s. repeat split.
    + now constructor.
    + now apply matches_star_class_iff.
Qed.

Lemma matches_atleast2_class_iff p s :
  matches (AtLeast2 (Class p)) s <->
  (2 <= length s)%nat /\ forallb p s = true.
Proof.
  unfold AtLeast2. rewrite matches_cat_iff. split.
  - intros (s1 & s2 & -> & H1 & H2).
    apply matches_class_iff in H1 as (c & -> & Hc).
    apply matches_cat_iff in H2 as (s3 & s4 & -> & H3 & H4).
    apply matches_class_iff in H3 as (d & -> & Hd).
    apply matches_star_class_iff in H4. simpl. rewrite Hc, Hd, H4.
    split; [lia | reflexivity].
  - intros [Hlen H]. destruct s as [|c [|d s]]; simpl in Hlen; try lia.
    simpl in H. apply andb_prop in H as [Hc H].
    apply andb_prop in H as [Hd Hs].
    exists [c], (d :: s). repeat split; [now constructor|].
    apply matches_cat_iff. exists [d], s. repeat split; [now constructor|].
    now apply matches_star_class_iff.
Qed.

(** The expression of the source denotes the shape of the specification. *)
Theorem email_body_shape s : matches email_body s <-> Spec.email_shape s.
Proof.
  unfold email_body, Spec.email_shape. split.
  - intros H.
    apply matches_cat_iff in H as (lo & r1 & -> & Hlo & H).
    apply matches_cat_iff in H as (at_ & r2 & -> & Hat & H).
    apply matches_cat_iff in H as (dom & r3 & -> & Hdom & H).
    apply matches_cat_iff in H as (dot & tld & -> & Hdot & Htld).
    apply matches_chr_iff in Hat, Hdot. subst.
    apply matches_plus_class_iff in Hlo as [? ?], Hdom as [? ?].
    apply matches_atleast2_class_iff in Htld as [? ?].
    exists lo, dom, tld. simpl. repeat split; assumption.
  - intros (lo & dom & tld & -> & Hl1 & Hl2 & Hd1 & Hd2 & Ht1 & Ht2).
    apply matches_cat_iff. exists lo, ("@"%char :: dom ++ "."%char :: tld).
    repeat split; [now apply matches_plus_class_iff|].
    apply matches_cat_iff. exists ["@"%char], (dom ++ "."%char :: tld).
    repeat split; [now apply matches_chr_iff|].
    apply matches_cat_iff. exists dom, ("."%char :: tld).
    repeat split; [now apply matches_plus_class_iff|].
    apply matches_cat_iff. exists ["."%char], tld.
    repeat split; [now apply matches_chr_iff|].
    now apply matches_atleast2_class_iff.
Qed.

(** *** [fullmatch] and [match] with a final [$] *)

Lemma at_end_iff (s : list ascii) : at_end s = true <-> s = [].
Proof. destruct s; simpl; split; congruence. Qed.

Lemma at_dollar_iff (s : list ascii) :
  at_dollar s = true <-> s = [] \/ s = ["010"%char].
Proof.
  destruct s as [|c [|d s]]; simpl.
  - tauto.
  - rewrite Ascii.eqb_eq. split.
    + intros ->. now right.
    + intros [H|H]; congruence.
  - split; [discriminate | intros [H|H]; discriminate].
Qed.

Lemma re_fullmatch_iff body s :
  re_fullmatch body s = true <-> matches body s.
Proof.
  unfold re_fullmatch. rewrite existsb_exists. split.
  - intros (k & _ & H).
    apply andb_prop in H as [H He]. apply andb_prop in H as [H _].
    apply at_end_iff in He. apply accepts_iff in H.
    rewrite <- (firstn_skipn k s), He, app_nil_r. exact H.
  - intros H. exists (length s). split.
    + apply in_seq. lia.
    + rewrite firstn_all, skipn_all. simpl.
      rewrite !andb_true_r. now apply accepts_iff.
Qed.

Lemma re_match_iff body s :
  re_match body s = true <->
  matches body s \/ exists t, s = t ++ ["010"%char] /\ matches body t.
Proof.
  unfold re_match. rewrite existsb_exists. split.
  - intros (k & _ & H). apply andb_prop in H as [H Hd].
    apply accepts_iff in H. apply at_dollar_iff in Hd as [Hd|Hd].
    + left. rewrite <- (firstn_skipn k s), Hd, app_nil_r. exact H.
    + right. exists (firstn k s). split; [|exact H].
      now rewrite <- Hd, firstn_skipn.
  - intros [H|(t & -> & H)].
    + exists (length s). split; [apply in_seq; lia|].
      rewrite firstn_all, skipn_all. simpl.
      rewrite andb_true_r. now apply accepts_iff.
    + exists (length t). split; [apply in_seq; rewrite length_app; simpl; lia|].
      rewrite firstn_app, Nat.sub_diag, firstn_all. simpl.
      rewrite app_nil_r.
      rewrite skipn_app, Nat.sub_diag, skipn_all. simpl.
      rewrite andb_true_r. now apply accepts_iff.
Qed.

End RegexFacts.

(** ** The e-mail validators *)

Lemma email_shape_accepts s :
  Spec.email_shape s <-> Regex.accepts Regex.email_body s = true.
Proof.
  rewrite RegexFacts.accepts_iff. symmetry. apply RegexFacts.email_body_shape.
Qed.

(** [validate_email] returns [True] on a string of the shape, and also on
    such a string followed by one line feed. *)
Lemma validate_email_iff (email : string) :
  School.validate_email email = Ok true <->
  Spec.email_shape (list_ascii_of_string email)
  \/ exists t, list_ascii_of_string email = t ++ ["010"%char]
               /\ Spec.email_shape t.
Proof.
  unfold School.validate_email.
  destruct (Regex.re_match _ _) eqn:E.
  - apply RegexFacts.re_match_iff in E.
    split; [intros _|reflexivity].
    destruct E as [E|(t & Et & E)]; [left|right; exists t; split; [exact Et|]];
      now apply RegexFacts.email_body_shape.
  - split; [discriminate|]. intros H.
    assert (Regex.re_match Regex.email_body (list_ascii_of_string email) = true)
      as E'; [|congruence].
    apply RegexFacts.re_match_iff.
    destruct H as [H|(t & Et & H)]; [left|right; exists t; split; [exact Et|]];
      now apply RegexFacts.email_body_shape.
Qed.

Lemma is_valid_email_iff (email : string) :
  AppTk.is_valid_email email = true <->
  Spec.email_shape (AppTk.strip (list_ascii_of_string email)).
Proof.
  unfold AppTk.is_valid_email.
  rewrite RegexFacts.re_fullmatch_iff. apply RegexFacts.email_body_shape.
Qed.

(** C7, as stated, fails: [is_valid_email] accepts an address with a leading
    space, and the whole string does not have the shape. *)
Lemma is_valid_email_accepts_padded :
  ~ (AppTk.is_valid_email " ann@x.com" = true <->
     Spec.email_shape (list_ascii_of_string " ann@x.com")).
Proof.
  intros [H _]. specialize (H eq_refl).
  apply email_shape_accepts in H. vm_compute in H. discriminate.
Qed.

(** C7, amended: [is_valid_email] accepts [s] exactly when [s] with the
    white space around it stripped has the shape [local@domain.tld] as a
    whole; [validate_email] accepts every string that has the shape as a
    whole, and a string it accepts that does not end in a line feed has the
    shape as a whole. *)
Theorem email_validators_accept_shape :
  (forall s, AppTk.is_valid_email s = true <->
             Spec.email_shape (AppTk.strip (list_ascii_of_string s)))
  /\ (forall s, Spec.email_shape (list_ascii_of_string s) ->
                School.validate_email s = Ok true)
  /\ (forall s, (forall t, list_ascii_of_string s <> t ++ ["010"%char]) ->
                School.validate_email s = Ok true ->
                Spec.email_shape (list_ascii_of_string s)).
Proof.
  split; [exact is_valid_email_iff|]. split.
  - intros s H. apply validate_email_iff. now left.
  - intros s Hnl H. apply validate_email_iff in H as [H|(t & Et & _)].
    + exact H.
    + now destruct (Hnl t).
Qed.

Lemma email_validators_accept_shape_witness :
  AppTk.is_valid_email "  ann@x.com " = true
  /\ School.validate_email "ann@x.com" = Ok true
  /\ Spec.email_shape (list_ascii_of_string "ann@x.com").
Proof.
  destruct email_validators_accept_shape as (H1 & H2 & H3).
  assert (Hs : Spec.email_shape (list_ascii_of_string "ann@x.com"))
    by (apply email_shape_accepts; reflexivity).
  split; [|split].
  - apply H1. apply email_shape_accepts. reflexivity.
  - apply H2. exact Hs.
  - apply H3; [|apply H2; exact Hs].
    intros t Et. apply (f_equal (@rev ascii)) in Et.
    rewrite rev_app_distr in Et. simpl in Et. discriminate.
Defined.

(** ** Entities and their dictionaries *)

Ltac unfold_bind := unfold mbind, result_bind, rbind.

Lemma validate_age_iff (a : Z) : School.validate_age a = Ok tt <-> (0 <= a)%Z.
Proof.
  unfold School.validate_age. destruct (Z.ltb_spec a 0); split; intros;
    try reflexivity; try discriminate; lia.
Qed.

Lemma validate_email_ok (e : string) (b : bool) :
  School.validate_email e = Ok b -> School.validate_email e = Ok true.
Proof.
  unfold School.validate_email. now destruct (Regex.re_match _ _).
Qed.

(** The constructor builds exactly the valid persons. *)
Lemma Person_init_ok n a e p :
  School.Person_init n a e = Ok p <->
  p = {| School.name := n; School.age := a; School._email := e |}
  /\ Spec.person_ok p.
Proof.
  unfold School.Person_init, Spec.person_ok. unfold_bind. split.
  - destruct (School.validate_email e) as [b|] eqn:Ee; [|discriminate].
    destruct (School.validate_age a) as [[]|] eqn:Ea; [|discriminate].
    intros [= <-]. simpl. apply validate_email_ok in Ee. auto.
  - intros [-> [Ee Ea]]. simpl in *. now rewrite Ee, Ea.
Qed.

Lemma Person_init_self p :
  Spec.person_ok p ->
  School.Person_init (School.name p) (School.age p) (School._email p) = Ok p.
Proof.
  intros H. apply Person_init_ok. split; [now destruct p | exact H].
Qed.

Lemma rmap_as_str (l : list string) :
  rmap School.as_str (map School.VStr l) = Ok l.
Proof.
  induction l as [|x l IH]; simpl; [reflexivity|].
  unfold_bind. simpl. now rewrite IH.
Qed.

Lemma Student_roundtrip s :
  Spec.student_ok s ->
  School.Student_from_dict (School.VDict (School.Student_save_to_dict s)) = Ok s.
Proof.
  intros H. destruct s as [p sid rc].
  unfold School.Student_from_dict, School.Student_save_to_dict,
    School.Student_init.
  cbn. unfold_bind. rewrite rmap_as_str.
  rewrite (Person_init_self p H). reflexivity.
Qed.

Lemma Instructor_roundtrip i :
  Spec.instructor_ok i ->
  School.Instructor_from_dict
    (School.VDict (School.Instructor_save_to_dict i)) = Ok i.
Proof.
  intros H. destruct i as [p iid ac].
  unfold School.Instructor_from_dict, School.Instructor_save_to_dict,
    School.Instructor_init.
  cbn. unfold_bind. rewrite rmap_as_str.
  rewrite (Person_init_self p H). reflexivity.
Qed.

Lemma rmap_Student_roundtrip (l : list School.Student) :
  Forall Spec.student_ok l ->
  rmap School.Student_from_dict
    (map (fun s => School.VDict (School.Student_save_to_dict s)) l) = Ok l.
Proof.
  induction 1 as [|s l Hs Hl IH]; [reflexivity|].
  cbn [map rmap]. unfold_bind. rewrite (Student_roundtrip s Hs).
  unfold_bind. fold (@rmap School.value School.Student).
  now rewrite IH.
Qed.

Lemma Course_roundtrip c :
  Spec.course_ok c ->
  School.Course_from_dict (School.VDict (School.Course_save_to_dict c)) = Ok c.
Proof.
  intros [Hi Hs]. destruct c as [cid cname ins stus]. simpl in Hi, Hs.
  unfold School.Course_from_dict, School.Course_save_to_dict. unfold_bind.
  destruct ins as [i|];
    cbn -[School.Instructor_from_dict School.Instructor_save_to_dict
          School.Student_from_dict School.Student_save_to_dict rmap].
  - rewrite (Instructor_roundtrip i (Hi i eq_refl)).
    now rewrite (rmap_Student_roundtrip stus Hs).
  - now rewrite (rmap_Student_roundtrip stus Hs).
Qed.

(** C4: deserialising the serialisation of a Student, an Instructor or a
    Course (with its nested instructor and students) gives back an entity
    with the same field values. *)
Theorem from_dict_save_to_dict :
  (forall s, Spec.student_ok s ->
     School.Student_from_dict (School.VDict (School.Student_save_to_dict s))
     = Ok s)
  /\ (forall i, Spec.instructor_ok i ->
        School.Instructor_from_dict
          (School.VDict (School.Instructor_save_to_dict i)) = Ok i)
  /\ (forall c, Spec.course_ok c ->
        School.Course_from_dict (School.VDict (School.Course_save_to_dict c))
        = Ok c).
Proof.
  split; [exact Student_roundtrip|].
  split; [exact Instructor_roundtrip | exact Course_roundtrip].
Qed.

Lemma from_dict_save_to_dict_witness :
  Spec.course_ok Examples.cs101
  /\ School.Course_from_dict
       (School.VDict (School.Course_save_to_dict Examples.cs101))
     = Ok Examples.cs101.
Proof.
  assert (H : Spec.course_ok Examples.cs101).
  { split.
    - intros i [= <-]. split; reflexivity.
    - repeat constructor. }
  split; [exact H|].
  exact (proj2 (proj2 from_dict_save_to_dict) Examples.cs101 H).
Defined.

(** ** Tables keyed by an integer *)

Section KeyedRows.
Context {A : Type} (key : A -> Z).

Lemma existsb_key_In (k : Z) (l : list A) :
  existsb (fun r => (key r =? k)%Z) l = true <-> In k (map key l).
Proof.
  rewrite existsb_exists, List.in_map_iff. split.
  - intros (r & Hr & E). apply Z.eqb_eq in E. eauto.
  - intros (r & E & Hr). exists r. split; [exact Hr | now apply Z.eqb_eq].
Qed.

Lemma map_key_replace (row : A) (k : Z) (l : list A) :
  key row = k ->
  map key (map (fun r => if (key r =? k)%Z then row else r) l) = map key l.
Proof.
  intros Hk. induction l as [|x l IH]; simpl; [reflexivity|].
  rewrite IH. f_equal.
  destruct (Z.eqb_spec (key x) k); congruence.
Qed.

Lemma filter_key_absent (k : Z) (l : list A) :
  ~ In k (map key l) -> List.filter (fun r => (key r =? k)%Z) l = [].
Proof.
  induction l as [|x l IH]; simpl; [reflexivity|]. intros H.
  destruct (Z.eqb_spec (key x) k) as [E|E]; [tauto|]. apply IH. tauto.
Qed.

Lemma replace_absent (row : A) (k : Z) (l : list A) :
  ~ In k (map key l) ->
  map (fun r => if (key r =? k)%Z then row else r) l = l.
Proof.
  induction l as [|x l IH]; simpl; [reflexivity|]. intros H.
  destruct (Z.eqb_spec (key x) k) as [E|E]; [tauto|].
  rewrite IH; tauto.
Qed.

Lemma filter_key_replace (row : A) (k : Z) (l : list A) :
  key row = k -> NoDup (map key l) -> In k (map key l) ->
  List.filter (fun r => (key r =? k)%Z)
    (map (fun r => if (key r =? k)%Z then row else r) l) = [row].
Proof.
  intros Hk. induction l as [|x l IH]; simpl; [tauto|].
  intros Hnd Hin. apply NoDup_cons in Hnd as [Hx Hnd].
  rewrite list_elem_of_In in Hx.
  destruct (Z.eqb_spec (key x) k) as [E|E].
  - simpl. rewrite Hk, Z.eqb_refl. f_equal.
    rewrite replace_absent by congruence.
    apply filter_key_absent. congruence.
  - simpl. destruct (Z.eqb_spec (key x) k); [contradiction|].
    apply IH; [exact Hnd | tauto].
Qed.
End KeyedRows.

Lemma filter_map_comm {A B} (f : B -> bool) (g : A -> B) (l : list A) :
  List.filter f (map g l) = map g (List.filter (fun x => f (g x)) l).
Proof.
  induction l as [|x l IH]; simpl; [reflexivity|].
  destruct (f (g x)); simpl; now rewrite IH.
Qed.

(** ** [DB]: students *)

Lemma DbDone_bind_int_ok (n m : Z) :
  DbDone.bind_int n = Ok m <-> m = n /\ Spec.int64 n.
Proof.
  unfold DbDone.bind_int, Spec.int64.
  destruct (Z.leb_spec (- 2 ^ 63) n), (Z.ltb_spec n (2 ^ 63)); simpl;
    split; try discriminate; try (intros [= <-]; split; [reflexivity|lia]);
    try (intros [-> ?]; reflexivity); intros [_ ?]; lia.
Qed.

(** What a successful [upsert_student] leaves in the table. *)
Lemma upsert_student_students s sid n a e s' :
  DbDone.upsert_student s sid n a e = Ok s' ->
  let row := {| DbDone.student_id := sid; DbDone.name := n; DbDone.age := a;
                DbDone.email := e |} in
  DbDone.students s' =
    if DbDone.has_student s sid
    then map (fun r => if (DbDone.student_id r =? sid)%Z then row else r)
             (DbDone.students s)
    else DbDone.students s ++ [row].
Proof.
  unfold DbDone.upsert_student. unfold_bind.
  destruct (DbDone.bind_int sid) as [sid'|] eqn:Es; [|discriminate].
  destruct (DbDone.bind_int a) as [a'|] eqn:Ea; [|discriminate].
  apply DbDone_bind_int_ok in Es as [-> _], Ea as [-> _].
  destruct (existsb _ _); [discriminate|].
  now intros [= <-].
Qed.

(** It succeeds exactly when the integers fit and no other student holds
    the e-mail. *)
Lemma upsert_student_succeeds s sid n a e :
  is_ok (DbDone.upsert_student s sid n a e) = true <->
  Spec.int64 sid /\ Spec.int64 a
  /\ forall r, In r (DbDone.students s) -> DbDone.email r = e ->
               DbDone.student_id r = sid.
Proof.
  unfold DbDone.upsert_student. unfold_bind.
  destruct (DbDone.bind_int sid) as [sid'|] eqn:Es.
  2:{ split; [discriminate|]. intros (H & _).
      assert (DbDone.bind_int sid = Ok sid) by now apply DbDone_bind_int_ok.
      congruence. }
  destruct (DbDone.bind_int a) as [a'|] eqn:Ea.
  2:{ split; [discriminate|]. intros (_ & H & _).
      assert (DbDone.bind_int a = Ok a) by now apply DbDone_bind_int_ok.
      congruence. }
  apply DbDone_bind_int_ok in Es as [-> Hs], Ea as [-> Ha].
  destruct (existsb _ _) eqn:Ex; simpl.
  - split; [discriminate|]. intros (_ & _ & H).
    apply existsb_exists in Ex as (r & Hr & Hc).
    apply andb_prop in Hc as [Hid He].
    apply String.eqb_eq in He. specialize (H r Hr He).
    rewrite H, Z.eqb_refl in Hid. discriminate.
  - split; [intros _|reflexivity].
    split; [exact Hs|]. split; [exact Ha|].
    intros r Hr He.
    destruct (Z.eqb_spec (DbDone.student_id r) sid) as [E|E]; [exact E|].
    exfalso. apply Bool.not_true_iff_false in Ex. apply Ex.
    apply existsb_exists. exists r. split; [exact Hr|].
    apply andb_true_intro. split.
    + now apply negb_true_iff, Z.eqb_neq.
    + now apply String.eqb_eq.
Qed.

Lemma upsert_student_pk s sid n a e s' :
  NoDup (map DbDone.student_id (DbDone.students s)) ->
  DbDone.upsert_student s sid n a e = Ok s' ->
  NoDup (map DbDone.student_id (DbDone.students s')).
Proof.
  intros Hnd H. apply upsert_student_students in H. simpl in H. rewrite H.
  destruct (DbDone.has_student s sid) eqn:Eh.
  - now rewrite map_key_replace.
  - rewrite map_app. simpl. apply NoDup_app. repeat split.
    + exact Hnd.
    + intros x Hx [<-|[]]%list_elem_of_In.
      apply list_elem_of_In, (existsb_key_In DbDone.student_id) in Hx.
      unfold DbDone.has_student in Eh. congruence.
    + apply NoDup_singleton.
Qed.

Lemma after_upserts_pk calls : forall s sid,
  NoDup (map DbDone.student_id (DbDone.students s)) ->
  NoDup (map DbDone.student_id (DbDone.students (Spec.after_upserts s sid calls))).
Proof.
  unfold Spec.after_upserts.
  induction calls as [|[[n a] e] calls IH]; intros s sid Hnd; simpl;
    [exact Hnd|].
  destruct (DbDone.upsert_student s sid n a e) as [st|] eqn:E; apply IH;
    [eapply upsert_student_pk; eassumption | exact Hnd].
Qed.

Lemma upsert_student_row s sid n a e s' :
  NoDup (map DbDone.student_id (DbDone.students s)) ->
  DbDone.upsert_student s sid n a e = Ok s' ->
  List.filter (fun t => (fst (fst (fst t)) =? sid)%Z) (DbDone.list_students s')
  = [(sid, n, a, e)].
Proof.
  intros Hnd H. apply upsert_student_students in H. simpl in H.
  set (row := {| DbDone.student_id := sid; DbDone.name := n; DbDone.age := a;
                 DbDone.email := e |}) in H.
  unfold DbDone.list_students. rewrite filter_map_comm. simpl.
  assert (Hf : List.filter (fun r => (DbDone.student_id r =? sid)%Z)
                 (DbDone.students s') = [row]).
  { rewrite H. destruct (DbDone.has_student s sid) eqn:Eh.
    - apply filter_key_replace; [reflexivity | exact Hnd |].
      now apply existsb_key_In.
    - rewrite List.filter_app, filter_key_absent.
      + simpl. now rewrite Z.eqb_refl.
      + intros Hin. apply (existsb_key_In DbDone.student_id) in Hin.
        unfold DbDone.has_student in Eh. congruence. }
  pose proof (order_by_filter Z.leb DbDone.student_id
                (fun r => (DbDone.student_id r =? sid)%Z)
                (DbDone.students s')) as HP.
  rewrite Hf in HP. symmetry in HP. apply Permutation_length_1_inv in HP.
  now rewrite HP.
Qed.

(** C6: however many times [upsert_student] was called for an id before,
    after a call that succeeds [list_students] has exactly one row for the
    id, and it carries the fields of that last call.  (The hypothesis is the
    primary key of [students]; every reachable store has it.) *)
Theorem upsert_student_overwrites
    (s : DbDone.store) (sid : Z) (calls : list (string * Z * string))
    (name : string) (age : Z) (email : string) (s' : DbDone.store) :
  NoDup (map DbDone.student_id (DbDone.students s)) ->
  DbDone.upsert_student (Spec.after_upserts s sid calls) sid name age email
    = Ok s' ->
  List.filter (fun t => (fst (fst (fst t)) =? sid)%Z) (DbDone.list_students s')
  = [(sid, name, age, email)].
Proof.
  intros Hnd H. eapply upsert_student_row; [|exact H].
  now apply after_upserts_pk.
Qed.

Lemma upsert_student_overwrites_witness :
  exists s',
    DbDone.upsert_student
      (Spec.after_upserts Examples.db1 1
         [("Ann B", 21, "ann@y.org"); ("Ann C", 22, "ann@z.net")]%Z)
      1 "Anna" 23 "anna@x.com" = Ok s'
    /\ List.filter (fun t => (fst (fst (fst t)) =? 1)%Z)
         (DbDone.list_students s') = [(1, "Anna", 23, "anna@x.com")]%Z.
Proof.
  eexists. split; [reflexivity|].
  apply (upsert_student_overwrites Examples.db1 1
           [("Ann B", 21, "ann@y.org"); ("Ann C", 22, "ann@z.net")]%Z).
  - simpl. apply NoDup_singleton.
  - reflexivity.
Defined.

(** ** Enrolling twice *)

Lemma has_enrollment_In s sid cid :
  DbDone.has_enrollment s sid cid = true <-> In (sid, cid) (DbDone.enrollments s).
Proof.
  unfold DbDone.has_enrollment. rewrite existsb_exists. split.
  - intros ([a b] & Hin & H). simpl in H.
    apply andb_prop in H as [Ha Hb].
    apply Z.eqb_eq in Ha, Hb. now subst.
  - intros H. exists (sid, cid). simpl. now rewrite !Z.eqb_refl.
Qed.

Lemma has_registration_In s sid cid :
  SchoolSqlite.has_registration s sid cid = true <->
  In (sid, cid) (SchoolSqlite.tbl_registrations s).
Proof.
  unfold SchoolSqlite.has_registration. rewrite existsb_exists. split.
  - intros ([a b] & Hin & H). simpl in H.
    apply andb_prop in H as [Ha Hb].
    apply String.eqb_eq in Ha, Hb. now subst.
  - intros H. exists (sid, cid). simpl. now rewrite !String.eqb_refl.
Qed.

(** In a list without duplicates a member occurs once. *)
Lemma NoDup_filter_one {A} (same : A -> bool) (x : A) (l : list A) :
  (forall y, same y = true <-> y = x) ->
  NoDup l -> In x l -> length (List.filter same l) = 1%nat.
Proof.
  intros Hsame. induction l as [|y l IH]; simpl; [tauto|].
  intros Hnd Hin. apply NoDup_cons in Hnd as [Hy Hnd].
  rewrite list_elem_of_In in Hy.
  destruct (same y) eqn:E.
  - apply Hsame in E. subst y. simpl. f_equal.
    destruct (List.filter same l) as [|z l'] eqn:Ef; [reflexivity|].
    assert (Hz : In z (List.filter same l)) by (rewrite Ef; now left).
    apply List.filter_In in Hz as [Hz Hs]. apply Hsame in Hs. now subst.
  - destruct Hin as [->|Hin]; [|now apply IH].
    assert (same x = true) by now apply Hsame. congruence.
Qed.

Lemma same_pair_Z (a b : Z) (e : Z * Z) :
  (fst e =? a)%Z && (snd e =? b)%Z = true <-> e = (a, b).
Proof.
  destruct e as [x y]. simpl.
  rewrite andb_true_iff, !Z.eqb_eq. split; [intros [-> ->]|intros [= -> ->]];
    auto.
Qed.

Lemma same_pair_string (a b : string) (e : string * string) :
  String.eqb (fst e) a && String.eqb (snd e) b = true <-> e = (a, b).
Proof.
  destruct e as [x y]. simpl.
  rewrite andb_true_iff, !String.eqb_eq.
  split; [intros [-> ->]|intros [= -> ->]]; auto.
Qed.

Lemma enroll_pk s sid cid s' :
  NoDup (DbDone.enrollments s) -> DbDone.enroll s sid cid = Ok s' ->
  NoDup (DbDone.enrollments s') /\ In (sid, cid) (DbDone.enrollments s').
Proof.
  unfold DbDone.enroll. unfold_bind. intros Hnd.
  destruct (DbDone.bind_int sid) as [sid'|] eqn:Es; [|discriminate].
  destruct (DbDone.bind_int cid) as [cid'|] eqn:Ec; [|discriminate].
  apply DbDone_bind_int_ok in Es as [-> _], Ec as [-> _].
  destruct (DbDone.has_enrollment s sid cid) eqn:Eh.
  - intros [= <-]. split; [exact Hnd | now apply has_enrollment_In].
  - destruct (_ && _); [|discriminate]. intros [= <-]. simpl. split.
    + apply NoDup_app. repeat split; [exact Hnd | | apply NoDup_singleton].
      intros x Hx [<-|[]]%list_elem_of_In.
      apply list_elem_of_In, has_enrollment_In in Hx. congruence.
    + apply in_or_app. right. now left.
Qed.

(** One statement, then commit. *)
Lemma execute_commit_ok stmt c s' :
  stmt (SchoolSqlite.view c) = Ok s' ->
  SchoolSqlite.bind (SchoolSqlite.execute stmt) (fun _ => SchoolSqlite.commit) c
  = (Ok tt, {| SchoolSqlite.db := s'; SchoolSqlite.tx := None |}).
Proof.
  intros H. unfold SchoolSqlite.bind, SchoolSqlite.execute, SchoolSqlite.commit.
  now rewrite H.
Qed.

Lemma insert_or_ignore_registration_pk s sid cid s' :
  NoDup (SchoolSqlite.tbl_registrations s) ->
  SchoolSqlite.insert_or_ignore_registration sid cid s = Ok s' ->
  NoDup (SchoolSqlite.tbl_registrations s')
  /\ In (sid, cid) (SchoolSqlite.tbl_registrations s').
Proof.
  unfold SchoolSqlite.insert_or_ignore_registration. intros Hnd.
  destruct (SchoolSqlite.has_registration s sid cid) eqn:Eh.
  - intros [= <-]. split; [exact Hnd | now apply has_registration_In].
  - destruct (_ && _); [|discriminate]. intros [= <-]. simpl. split.
    + apply NoDup_app. repeat split; [exact Hnd | | apply NoDup_singleton].
      intros x Hx [<-|[]]%list_elem_of_In.
      apply list_elem_of_In, has_registration_In in Hx. congruence.
    + apply in_or_app. right. now left.
Qed.

(** The primary keys of [students] and [enrollments] hold in every store a
    [DB] reaches. *)
Lemma reachable_keys_unique s :
  DbDone.reachable s ->
  NoDup (map DbDone.student_id (DbDone.students s))
  /\ NoDup (DbDone.enrollments s).
Proof.
  induction 1 as [|s sid n a e s' _ [IH1 IH2] H
                  |s iid n a e s' _ [IH1 IH2] H
                  |s cid n i s' _ [IH1 IH2] H
                  |s cid iid s' _ [IH1 IH2] H
                  |s sid cid s' _ [IH1 IH2] H].
  - split; apply NoDup_nil_2.
  - split; [eapply upsert_student_pk; eassumption|].
    revert H. unfold DbDone.upsert_student. unfold_bind.
    destruct (DbDone.bind_int sid); [|discriminate].
    destruct (DbDone.bind_int a); [|discriminate].
    destruct (existsb _ _); [discriminate|]. now intros [= <-].
  - revert H. unfold DbDone.upsert_instructor. unfold_bind.
    destruct (DbDone.bind_int iid); [|discriminate].
    destruct (DbDone.bind_int a); [|discriminate].
    destruct (existsb _ _); [discriminate|]. now intros [= <-].
  - revert H. unfold DbDone.upsert_course. unfold_bind.
    destruct (DbDone.bind_int cid); [|discriminate].
    destruct (DbDone.bind_opt_int i) as [i'|]; [|discriminate].
    destruct (match i' with Some _ => _ | None => _ end); [discriminate|].
    now intros [= <-].
  - revert H. unfold DbDone.assign_instructor. unfold_bind.
    destruct (DbDone.bind_int iid); [|discriminate].
    destruct (DbDone.bind_int cid); [|discriminate].
    destruct (_ && _); [discriminate|]. now intros [= <-].
  - split; [|eapply enroll_pk; eassumption].
    revert H. unfold DbDone.enroll. unfold_bind.
    destruct (DbDone.bind_int sid); [|discriminate].
    destruct (DbDone.bind_int cid); [|discriminate].
    destruct (DbDone.has_enrollment _ _ _); [now intros [= <-]|].
    destruct (_ && _); [|discriminate]. now intros [= <-].
Qed.

(** C5: enrolling a pair whose student and course exist, twice, leaves
    exactly one row for the pair, and the second attempt changes nothing and
    raises nothing; for [DB.enroll] and for
    [SqliteSchoolDB.register_student_in_course].  (The [NoDup] hypothesis is
    the primary key of the table.) *)
Theorem enroll_twice_one_row :
  (forall (s : DbDone.store) (sid cid : Z),
      NoDup (DbDone.enrollments s) ->
      Spec.int64 sid -> Spec.int64 cid ->
      DbDone.has_student s sid = true -> DbDone.has_course s cid = true ->
      exists s1,
        DbDone.enroll s sid cid = Ok s1
        /\ DbDone.enroll s1 sid cid = Ok s1
        /\ length (List.filter (fun e => (fst e =? sid)%Z && (snd e =? cid)%Z)
                     (DbDone.enrollments s1)) = 1%nat)
  /\ (forall (c : SchoolSqlite.conn) (sid cid : string),
        NoDup (SchoolSqlite.tbl_registrations (SchoolSqlite.view c)) ->
        SchoolSqlite.has_student (SchoolSqlite.view c) sid = true ->
        SchoolSqlite.has_course (SchoolSqlite.view c) cid = true ->
        exists c1,
          SchoolSqlite.register_student_in_course sid cid c = (Ok tt, c1)
          /\ SchoolSqlite.register_student_in_course sid cid c1 = (Ok tt, c1)
          /\ SchoolSqlite.tx c1 = None
          /\ length (List.filter
                       (fun e => String.eqb (fst e) sid && String.eqb (snd e) cid)
                       (SchoolSqlite.tbl_registrations (SchoolSqlite.db c1)))
             = 1%nat).
Proof.
  split.
  - intros s sid cid Hnd Hs Hc Hst Hco.
    assert (Hok : exists s1, DbDone.enroll s sid cid = Ok s1).
    { unfold DbDone.enroll. unfold_bind.
      rewrite (proj2 (DbDone_bind_int_ok sid sid) (conj eq_refl Hs)).
      rewrite (proj2 (DbDone_bind_int_ok cid cid) (conj eq_refl Hc)).
      rewrite Hst, Hco. simpl. destruct (DbDone.has_enrollment s sid cid); eauto. }
    destruct Hok as [s1 H1]. exists s1.
    destruct (enroll_pk _ _ _ _ Hnd H1) as [Hnd1 Hin1].
    split; [exact H1|]. split.
    + unfold DbDone.enroll. unfold_bind.
      rewrite (proj2 (DbDone_bind_int_ok sid sid) (conj eq_refl Hs)).
      rewrite (proj2 (DbDone_bind_int_ok cid cid) (conj eq_refl Hc)).
      now rewrite (proj2 (has_enrollment_In s1 sid cid) Hin1).
    + apply (NoDup_filter_one _ (sid, cid)); auto using same_pair_Z.
  - intros c sid cid Hnd Hst Hco.
    assert (Hok : exists s1,
      SchoolSqlite.insert_or_ignore_registration sid cid (SchoolSqlite.view c)
      = Ok s1).
    { unfold SchoolSqlite.insert_or_ignore_registration.
      rewrite Hst, Hco. simpl. destruct (SchoolSqlite.has_registration _ _ _); eauto. }
    destruct Hok as [s1 H1].
    destruct (insert_or_ignore_registration_pk _ _ _ _ Hnd H1) as [Hnd1 Hin1].
    exists {| SchoolSqlite.db := s1; SchoolSqlite.tx := None |}.
    unfold SchoolSqlite.register_student_in_course.
    split; [now apply execute_commit_ok|]. split; [|split; [reflexivity|]].
    + apply execute_commit_ok.
      unfold SchoolSqlite.view. cbn [SchoolSqlite.tx SchoolSqlite.db].
      unfold SchoolSqlite.insert_or_ignore_registration.
      now rewrite (proj2 (has_registration_In s1 sid cid) Hin1).
    + simpl. apply (NoDup_filter_one _ (sid, cid)); auto using same_pair_string.
Qed.

Lemma enroll_twice_one_row_witness :
  (exists s1,
      DbDone.enroll Examples.db1 1 10 = Ok s1
      /\ DbDone.enroll s1 1 10 = Ok s1
      /\ length (List.filter (fun e => (fst e =? 1)%Z && (snd e =? 10)%Z)
                   (DbDone.enrollments s1)) = 1%nat)
  /\ (exists c1,
        SchoolSqlite.register_student_in_course "s1" "c1" Examples.school1
        = (Ok tt, c1)
        /\ SchoolSqlite.register_student_in_course "s1" "c1" c1 = (Ok tt, c1)
        /\ SchoolSqlite.tx c1 = None
        /\ length (List.filter
                     (fun e => String.eqb (fst e) "s1" && String.eqb (snd e) "c1")
                     (SchoolSqlite.tbl_registrations (SchoolSqlite.db c1)))
           = 1%nat).
Proof.
  split.
  - apply (proj1 enroll_twice_one_row Examples.db1 1 10)%Z.
    + apply NoDup_nil_2.
    + unfold Spec.int64. lia.
    + unfold Spec.int64. lia.
    + reflexivity.
    + reflexivity.
  - apply (proj2 enroll_twice_one_row Examples.school1 "s1" "c1").
    + simpl. apply NoDup_ListNoDup.
      constructor; [simpl; intros [H|[]]; discriminate|].
      constructor; [intros []|constructor].
    + reflexivity.
    + reflexivity.
Defined.

(** ** Ages *)

Lemma In_replace {A} (key : A -> Z) (row : A) (k : Z) (l : list A) :
  existsb (fun r => (key r =? k)%Z) l = true ->
  In row (map (fun r => if (key r =? k)%Z then row else r) l).
Proof.
  induction l as [|x l IH]; simpl; [discriminate|].
  destruct (key x =? k)%Z; simpl; auto.
Qed.

Lemma upsert_student_In s sid n a e s' :
  DbDone.upsert_student s sid n a e = Ok s' ->
  In (sid, n, a, e) (DbDone.list_students s').
Proof.
  intros H. apply upsert_student_students in H. simpl in H.
  unfold DbDone.list_students.
  apply List.in_map_iff.
  exists {| DbDone.student_id := sid; DbDone.name := n; DbDone.age := a;
            DbDone.email := e |}.
  split; [reflexivity|]. apply order_by_In. rewrite H.
  destruct (DbDone.has_student s sid) eqn:Eh.
  - now apply (In_replace DbDone.student_id).
  - apply in_or_app. right. now left.
Qed.

Lemma upsert_instructor_In s iid n a e s' :
  DbDone.upsert_instructor s iid n a e = Ok s' ->
  In (iid, n, a, e) (DbDone.list_instructors s').
Proof.
  unfold DbDone.upsert_instructor. unfold_bind.
  destruct (DbDone.bind_int iid) as [iid'|] eqn:Es; [|discriminate].
  destruct (DbDone.bind_int a) as [a'|] eqn:Ea; [|discriminate].
  apply DbDone_bind_int_ok in Es as [-> _], Ea as [-> _].
  destruct (existsb _ _); [discriminate|]. intros [= <-].
  unfold DbDone.list_instructors. cbn [DbDone.instructors].
  apply List.in_map_iff.
  exists {| DbDone.instructor_id := iid; DbDone.i_name := n; DbDone.i_age := a;
            DbDone.i_email := e |}.
  split; [reflexivity|]. apply order_by_In.
  destruct (DbDone.has_instructor s iid) eqn:Eh.
  - now apply (In_replace DbDone.instructor_id).
  - apply in_or_app. right. now left.
Qed.

Lemma SchoolSqlite_bind_int_ok (n : Z) :
  Spec.int64 n -> SchoolSqlite.bind_int n = Ok n.
Proof.
  unfold SchoolSqlite.bind_int, Spec.int64. intros H.
  destruct (Z.leb_spec (- 2 ^ 63) n), (Z.ltb_spec n (2 ^ 63)); simpl;
    try reflexivity; lia.
Qed.

Lemma update_student_age_stored c sid a :
  Spec.int64 a ->
  SchoolSqlite.has_student (SchoolSqlite.view c) sid = true ->
  exists c',
    SchoolSqlite.update_student sid None (Some a) None None c = (Ok tt, c')
    /\ SchoolSqlite.tx c' = None
    /\ exists r, In r (SchoolSqlite.tbl_students (SchoolSqlite.db c'))
                 /\ SchoolSqlite.student_id r = sid
                 /\ SchoolSqlite.age r = a.
Proof.
  intros Ha Hs.
  unfold SchoolSqlite.update_student, SchoolSqlite.when_given,
    SchoolSqlite.bind, SchoolSqlite.ret, SchoolSqlite.execute,
    SchoolSqlite.commit, SchoolSqlite.update_students_age.
  unfold_bind. rewrite (SchoolSqlite_bind_int_ok a Ha).
  eexists. split; [reflexivity|]. split; [reflexivity|].
  cbn [SchoolSqlite.view SchoolSqlite.tx SchoolSqlite.db
       SchoolSqlite.with_students SchoolSqlite.tbl_students].
  unfold SchoolSqlite.has_student in Hs.
  apply existsb_exists in Hs as (r & Hr & E).
  exists {| SchoolSqlite.student_id := SchoolSqlite.student_id r;
            SchoolSqlite.name := SchoolSqlite.name r;
            SchoolSqlite.age := a;
            SchoolSqlite.email := SchoolSqlite.email r |}.
  split; [|split; [now apply String.eqb_eq | reflexivity]].
  apply List.in_map_iff. exists r. split; [|exact Hr]. now rewrite E.
Qed.

(** C8, as stated, fails: on the empty [DB], [upsert_student] with age -5
    returns, so the store it leaves is reachable through the public
    operations, and [list_students] shows a row with a negative age. *)
Lemma upsert_student_stores_negative_age :
  exists s',
    DbDone.upsert_student DbDone.empty 1 "Ann" (-5) "ann@x.com" = Ok s'
    /\ DbDone.reachable s'
    /\ In (1, "Ann", -5, "ann@x.com")%Z (DbDone.list_students s')
    /\ ~ (forall row, In row (DbDone.list_students s') ->
                      (0 <= snd (fst row))%Z).
Proof.
  eexists. split; [reflexivity|]. split; [|split].
  - apply (DbDone.reach_upsert_student DbDone.empty 1 "Ann" (-5) "ann@x.com");
      [apply DbDone.reach_empty | reflexivity].
  - simpl. now left.
  - intros H. specialize (H (1, "Ann", -5, "ann@x.com")%Z (or_introl eq_refl)).
    simpl in H. lia.
Qed.

(** C8, amended: [validate_age], and with it the construction of a Person,
    a Student or an Instructor, raises on a negative age (the last four
    parts: a constructor called with an age below 0 raises [ValueError],
    and one that returns kept the age it was given), so every constructed
    entity has age >= 0; the adapters do not check the age: a successful
    [DB.upsert_student] or [DB.upsert_instructor] stores the age it is
    given, and so does [SqliteSchoolDB.update_student]. *)
Theorem age_checked_by_constructors_only :
  (forall a, (a < 0)%Z ->
     School.validate_age a
     = Raise (ValueError "Age must be non-negative integer"))
  /\ (forall n a e p, School.Person_init n a e = Ok p -> (0 <= School.age p)%Z)
  /\ (forall n a e sid rc s,
        School.Student_init n a e sid rc = Ok s ->
        (0 <= School.age (School.student_person s))%Z)
  /\ (forall n a e iid ac i,
        School.Instructor_init n a e iid ac = Ok i ->
        (0 <= School.age (School.instructor_person i))%Z)
  /\ (forall s sid n a e s',
        DbDone.upsert_student s sid n a e = Ok s' ->
        In (sid, n, a, e) (DbDone.list_students s'))
  /\ (forall s iid n a e s',
        DbDone.upsert_instructor s iid n a e = Ok s' ->
        In (iid, n, a, e) (DbDone.list_instructors s'))
  /\ (forall c sid a,
        Spec.int64 a ->
        SchoolSqlite.has_student (SchoolSqlite.view c) sid = true ->
        exists c',
          SchoolSqlite.update_student sid None (Some a) None None c
          = (Ok tt, c')
          /\ SchoolSqlite.tx c' = None
          /\ exists r, In r (SchoolSqlite.tbl_students (SchoolSqlite.db c'))
                       /\ SchoolSqlite.student_id r = sid
                       /\ SchoolSqlite.age r = a)
  /\ (forall n a e p, School.Person_init n a e = Ok p -> School.age p = a)
  /\ (forall n a e, (a < 0)%Z ->
        exists msg, School.Person_init n a e = Raise (ValueError msg))
  /\ (forall n a e sid rc, (a < 0)%Z ->
        exists msg, School.Student_init n a e sid rc = Raise (ValueError msg))
  /\ (forall n a e iid ac, (a < 0)%Z ->
        exists msg,
          School.Instructor_init n a e iid ac = Raise (ValueError msg)).
Proof.
  assert (HP : forall n a e p,
             School.Person_init n a e = Ok p -> (0 <= School.age p)%Z).
  { intros n a e p H. apply Person_init_ok in H as [_ [_ H]].
    now apply validate_age_iff. }
  assert (HR : forall n a e, (a < 0)%Z ->
             exists msg, School.Person_init n a e = Raise (ValueError msg)).
  { intros n a e Ha.
    unfold School.Person_init, School.validate_email, School.validate_age.
    unfold_bind.
    destruct (Regex.re_match _ _); [|eauto]. cbn [rbind].
    destruct (Z.ltb_spec a 0); [eauto | lia]. }
  split.
  { intros a Ha. unfold School.validate_age.
    destruct (Z.ltb_spec a 0); [reflexivity|lia]. }
  split; [exact HP|]. split.
  { intros n a e sid rc s. unfold School.Student_init. unfold_bind.
    destruct (School.Person_init n a e) as [p|] eqn:E; [|discriminate].
    intros [= <-]. simpl. eapply HP, E. }
  split.
  { intros n a e iid ac i. unfold School.Instructor_init. unfold_bind.
    destruct (School.Person_init n a e) as [p|] eqn:E; [|discriminate].
    intros [= <-]. simpl. eapply HP, E. }
  split; [exact upsert_student_In|].
  split; [exact upsert_instructor_In|].
  split; [exact update_student_age_stored|].
  split.
  { intros n a e p H. apply Person_init_ok in H as [-> _]. reflexivity. }
  split; [exact HR|]. split.
  - intros n a e sid rc Ha. destruct (HR n a e Ha) as [msg E]. exists msg.
    unfold School.Student_init. unfold_bind. now rewrite E.
  - intros n a e iid ac Ha. destruct (HR n a e Ha) as [msg E]. exists msg.
    unfold School.Instructor_init. unfold_bind. now rewrite E.
Qed.

Lemma age_checked_by_constructors_only_witness :
  School.validate_age (-5)
  = Raise (ValueError "Age must be non-negative integer")
  /\ (exists msg,
        School.Student_init "Bob" (-5) "bob@x.com" "s2" None
        = Raise (ValueError msg))
  /\ (exists s',
        DbDone.upsert_student Examples.db1 2 "Bob" (-5) "bob@x.com" = Ok s'
        /\ In (2, "Bob", -5, "bob@x.com")%Z (DbDone.list_students s')).
Proof.
  destruct age_checked_by_constructors_only
    as (H1 & _ & _ & _ & H5 & _ & _ & _ & _ & H10 & _).
  split; [apply H1; lia|]. split.
  - apply H10. lia.
  - eexists. split; [reflexivity|]. apply (H5 Examples.db1). reflexivity.
Defined.

(** ** The order of the listings *)


Lemma rmap_map_key {A B K} (f : A -> result B) (kA : A -> K) (kB : B -> K) :
  (forall x y, f x = Ok y -> kB y = kA x) ->
  forall l l', rmap f l = Ok l' -> map kB l' = map kA l.
Proof.
  intros Hk. induction l as [|x l IH]; simpl; intros l'.
  - now intros [= <-].
  - unfold_bind. destruct (f x) as [y|] eqn:Ex; [|discriminate].
    fold (@rmap A B).
    destruct (rmap f l) as [ys|] eqn:El; [|discriminate].
    intros [= <-]. simpl. now rewrite (Hk _ _ Ex), (IH ys eq_refl).
Qed.

Lemma Student_init_fields n a e sid rc s :
  School.Student_init n a e sid rc = Ok s ->
  School.name (School.student_person s) = n /\ School.student_id s = sid.
Proof.
  unfold School.Student_init. unfold_bind.
  destruct (School.Person_init n a e) as [p|] eqn:E; [|discriminate].
  apply Person_init_ok in E as [-> _]. now intros [= <-].
Qed.



Lemma students_ids c l :
  SchoolSqlite.students c = Ok l ->
  map School.student_id l
  = map SchoolSqlite.student_id
      (order_by String.leb SchoolSqlite.name
         (SchoolSqlite.tbl_students (SchoolSqlite.view c))).
Proof.
  unfold SchoolSqlite.students. apply rmap_map_key.
  intros r s H. now apply Student_init_fields in H as [_ H].
Qed.






(** ** [SqliteSchoolDB]: what its methods keep *)

(** A property of what the connection sees that every statement of a method
    keeps is kept by the method, whether it returns or raises. *)
Section ViewInvariant.
Import SchoolSqlite.
Variable P : store -> Prop.

Lemma ret_keeps {A} (a : A) c : P (view c) -> P (view (snd (ret a c))).
Proof using Type. auto. Qed.

Lemma commit_keeps c : P (view c) -> P (view (snd (commit c))).
Proof using Type. auto. Qed.

Lemma execute_keeps stmt :
  (forall s s', stmt s = Ok s' -> P s -> P s') ->
  forall c, P (view c) -> P (view (snd (execute stmt c))).
Proof using Type.
  intros Hstmt c Hc. unfold execute.
  destruct (stmt (view c)) as [s'|e] eqn:E; simpl; [eauto | exact Hc].
Qed.

Lemma bind_keeps {A B} (m : M A) (k : A -> M B) :
  (forall c, P (view c) -> P (view (snd (m c)))) ->
  (forall a c, P (view c) -> P (view (snd (k a c)))) ->
  forall c, P (view c) -> P (view (snd (bind m k c))).
Proof using Type.
  intros Hm Hk c Hc. unfold bind. specialize (Hm c Hc).
  destruct (m c) as [[a|e] c']; simpl in *; auto.
Qed.

Lemma when_given_keeps {A} (x : option A) (k : A -> M unit) :
  (forall a c, P (view c) -> P (view (snd (k a c)))) ->
  forall c, P (view c) -> P (view (snd (when_given x k c))).
Proof using Type.
  intros Hk c Hc. destruct x as [a|]; simpl; auto.
Qed.
End ViewInvariant.

Lemma map_instructor_if (f : SchoolSqlite.course_row -> bool)
    (g : SchoolSqlite.course_row -> SchoolSqlite.course_row)
    (l : list SchoolSqlite.course_row) :
  (forall r, SchoolSqlite.c_instructor_id (g r) = SchoolSqlite.c_instructor_id r) ->
  map SchoolSqlite.c_instructor_id (map (fun r => if f r then g r else r) l)
  = map SchoolSqlite.c_instructor_id l.
Proof.
  intros Hg. rewrite map_map. apply map_ext. intros r.
  destruct (f r); [apply Hg | reflexivity].
Qed.

(** C10: [update_course] called without an instructor, or with
    [instructor_id=None], leaves the instructor column of every course as it
    was, whatever else it is asked to change and whether it returns or
    raises: it offers no way to clear an assigned instructor. *)
Theorem update_course_none_keeps_instructor
    (c : SchoolSqlite.conn) (course_id : string)
    (name new_id : option string) :
  map SchoolSqlite.c_instructor_id
      (SchoolSqlite.tbl_courses
         (SchoolSqlite.view
            (snd (SchoolSqlite.update_course course_id name None new_id c))))
  = map SchoolSqlite.c_instructor_id
        (SchoolSqlite.tbl_courses (SchoolSqlite.view c)).
Proof.
  set (P := fun s : SchoolSqlite.store =>
              map SchoolSqlite.c_instructor_id (SchoolSqlite.tbl_courses s)
              = map SchoolSqlite.c_instructor_id
                    (SchoolSqlite.tbl_courses (SchoolSqlite.view c))).
  enough (H : forall c0, P (SchoolSqlite.view c0) ->
            P (SchoolSqlite.view
                 (snd (SchoolSqlite.update_course course_id name None new_id c0))))
    by exact (H c eq_refl).
  unfold SchoolSqlite.update_course.
  apply bind_keeps; [|intros _].
  { apply when_given_keeps. intros v. apply execute_keeps.
    intros s s' [= <-] Hs. unfold P in *. simpl.
    now rewrite map_instructor_if. }
  apply bind_keeps; [|intros _].
  { intros c0 Hc0. exact Hc0. }
  apply bind_keeps; [|intros _; apply commit_keeps].
  apply when_given_keeps. intros v c0.
  destruct (negb (String.eqb v course_id)); [|apply ret_keeps].
  apply bind_keeps; [|intros _].
  - apply execute_keeps. intros s s'.
    unfold SchoolSqlite.update_registrations_course_id.
    destruct (existsb _ _); [discriminate|].
    destruct (_ && _); [discriminate|]. now intros [= <-].
  - apply execute_keeps. intros s s'.
    unfold SchoolSqlite.update_courses_course_id.
    destruct (_ && _); [discriminate|].
    destruct (_ && _); [discriminate|]. intros [= <-] Hs.
    unfold P in *. simpl. now rewrite map_instructor_if.
Qed.

(** ** [SqliteSchoolDB]: deleting *)

Lemma has_student_filtered s sid :
  existsb (fun r => String.eqb (SchoolSqlite.student_id r) sid)
    (List.filter (fun r => negb (String.eqb (SchoolSqlite.student_id r) sid))
                 (SchoolSqlite.tbl_students s)) = false.
Proof.
  apply Bool.not_true_iff_false. intros H.
  apply existsb_exists in H as (r & Hr & E).
  apply List.filter_In in Hr as [_ Hr]. now rewrite E in Hr.
Qed.

Lemma index_by_lookup {A} (key : A -> string) (xs : list A) k x :
  SchoolSqlite.index_by key xs !! k = Some x -> In x xs /\ key x = k.
Proof.
  unfold SchoolSqlite.index_by. revert k x.
  induction xs as [|y xs IH] using rev_ind; intros k x; simpl.
  - now rewrite lookup_empty.
  - rewrite foldl_app. simpl.
    destruct (decide (key y = k)) as [E|E].
    + rewrite E, lookup_insert_eq. intros [= ->].
      split; [apply in_or_app; right; now left | exact E].
    + rewrite lookup_insert_ne by exact E. intros H.
      apply IH in H as [H1 H2]. split; [apply in_or_app; now left | exact H2].
Qed.

(** The students a course of the [courses] property holds are rows of the
    students table. *)
Lemma courses_enrolled_in_table c cs co st :
  SchoolSqlite.courses c = Ok cs ->
  In co cs -> In st (School.enrolled_students co) ->
  SchoolSqlite.has_student (SchoolSqlite.view c) (School.student_id st) = true.
Proof.
  unfold SchoolSqlite.courses. unfold_bind.
  destruct (SchoolSqlite.instructors c) as [ins|]; [|discriminate].
  destruct (SchoolSqlite.students c) as [stus|] eqn:Es; [|discriminate].
  intros [= <-] Hco Hst.
  apply List.in_map_iff in Hco as (r & <- & _). simpl in Hst.
  apply list_elem_of_In, list_elem_of_omap in Hst as (sid' & _ & Hl).
  apply index_by_lookup in Hl as [Hin _].
  apply (List.in_map School.student_id) in Hin.
  rewrite (students_ids c stus Es) in Hin.
  apply List.in_map_iff in Hin as (row & <- & Hrow).
  apply order_by_In in Hrow.
  unfold SchoolSqlite.has_student. apply existsb_exists.
  exists row. split; [exact Hrow | apply String.eqb_refl].
Qed.

Lemma filter_other_In {A} (key : A -> string) (k : string) (l : list A) x :
  In x (List.filter (fun r => negb (String.eqb (key r) k)) l)
  <-> In x l /\ key x <> k.
Proof.
  rewrite List.filter_In, negb_true_iff. now rewrite String.eqb_neq.
Qed.

(** C2: deleting a student that is in the store removes its row and every
    registration row with its id; afterwards no course of the [courses]
    property lists it among its enrolled students.  Nothing else goes: the
    students and the registrations left are exactly those of other ids,
    and the instructors and courses are as they were. *)
Theorem delete_student_cascades (c : SchoolSqlite.conn) (sid : string) :
  SchoolSqlite.has_student (SchoolSqlite.view c) sid = true ->
  exists c',
    SchoolSqlite.delete_student sid c = (Ok tt, c')
    /\ SchoolSqlite.tx c' = None
    /\ SchoolSqlite.has_student (SchoolSqlite.db c') sid = false
    /\ (forall cid,
          ~ In (sid, cid) (SchoolSqlite.tbl_registrations (SchoolSqlite.db c')))
    /\ (forall cs co st,
          SchoolSqlite.courses c' = Ok cs ->
          In co cs -> In st (School.enrolled_students co) ->
          School.student_id st <> sid)
    /\ (forall r,
          In r (SchoolSqlite.tbl_students (SchoolSqlite.db c'))
          <-> In r (SchoolSqlite.tbl_students (SchoolSqlite.view c))
              /\ SchoolSqlite.student_id r <> sid)
    /\ (forall e,
          In e (SchoolSqlite.tbl_registrations (SchoolSqlite.db c'))
          <-> In e (SchoolSqlite.tbl_registrations (SchoolSqlite.view c))
              /\ fst e <> sid)
    /\ SchoolSqlite.tbl_instructors (SchoolSqlite.db c')
       = SchoolSqlite.tbl_instructors (SchoolSqlite.view c)
    /\ SchoolSqlite.tbl_courses (SchoolSqlite.db c')
       = SchoolSqlite.tbl_courses (SchoolSqlite.view c).
Proof.
  intros Hs. eexists. split.
  { unfold SchoolSqlite.delete_student. apply execute_commit_ok.
    unfold SchoolSqlite.delete_students. rewrite Hs. reflexivity. }
  split; [reflexivity|]. split; [apply has_student_filtered|].
  assert (Hframe :
    (forall r,
        In r (List.filter
                (fun r => negb (String.eqb (SchoolSqlite.student_id r) sid))
                (SchoolSqlite.tbl_students (SchoolSqlite.view c)))
        <-> In r (SchoolSqlite.tbl_students (SchoolSqlite.view c))
            /\ SchoolSqlite.student_id r <> sid)
    /\ (forall e : string * string,
          In e (List.filter (fun e => negb (String.eqb (fst e) sid))
                  (SchoolSqlite.tbl_registrations (SchoolSqlite.view c)))
          <-> In e (SchoolSqlite.tbl_registrations (SchoolSqlite.view c))
              /\ fst e <> sid)).
  { split; intros x.
    - apply (filter_other_In SchoolSqlite.student_id).
    - apply (filter_other_In fst). }
  destruct Hframe as [Hstu Hreg].
  split; [|split; [|split; [exact Hstu|split; [exact Hreg|now split]]]].
  - intros cid Hin. cbn [SchoolSqlite.db SchoolSqlite.tbl_registrations] in Hin.
    apply List.filter_In in Hin as [_ Hin]. simpl in Hin.
    now rewrite String.eqb_refl in Hin.
  - intros cs co st Hcs Hco Hst E.
    pose proof (courses_enrolled_in_table _ _ _ _ Hcs Hco Hst) as H.
    rewrite E in H. unfold SchoolSqlite.view in H. cbn [SchoolSqlite.tx SchoolSqlite.db] in H.
    unfold SchoolSqlite.has_student in H.
    cbn [SchoolSqlite.tbl_students] in H.
    now rewrite has_student_filtered in H.
Qed.

Lemma delete_student_cascades_witness :
  exists c',
    SchoolSqlite.delete_student "s1" Examples.school3 = (Ok tt, c')
    /\ SchoolSqlite.tbl_students (SchoolSqlite.db c')
       = [{| SchoolSqlite.student_id := "s2"; SchoolSqlite.name := "Bob";
             SchoolSqlite.age := 22; SchoolSqlite.email := "bob@x.com" |}]
    /\ SchoolSqlite.tbl_registrations (SchoolSqlite.db c') = [("s2", "c1")]
    /\ SchoolSqlite.tbl_instructors (SchoolSqlite.db c')
       = SchoolSqlite.tbl_instructors (SchoolSqlite.db Examples.school3)
    /\ SchoolSqlite.tbl_courses (SchoolSqlite.db c')
       = SchoolSqlite.tbl_courses (SchoolSqlite.db Examples.school3)
    /\ (forall cs co st,
          SchoolSqlite.courses c' = Ok cs ->
          In co cs -> In st (School.enrolled_students co) ->
          School.student_id st <> "s1").
Proof.
  destruct (delete_student_cascades Examples.school3 "s1" eq_refl)
    as (c' & H & _ & _ & _ & Hc & _ & _ & Hi & Hcs).
  exists c'. split; [exact H|].
  split; [|split; [|split; [exact Hi|split; [exact Hcs|exact Hc]]]].
  - cbv in H. injection H as <-. reflexivity.
  - cbv in H. injection H as <-. reflexivity.
Defined.

Lemma teaches_iff (iid : string) (r : SchoolSqlite.course_row) :
  SchoolSqlite.teaches iid r = true <-> SchoolSqlite.c_instructor_id r = Some iid.
Proof.
  unfold SchoolSqlite.teaches.
  destruct (SchoolSqlite.c_instructor_id r) as [i|]; [|split; discriminate].
  rewrite String.eqb_eq. split; [now intros -> | now intros [= ->]].
Qed.

(** C3: deleting an instructor that courses name clears the reference of
    each such course; the course rows stay, with their ids and names.
    Nothing else changes: the courses of other instructors keep their
    reference, the instructors left are exactly those of other ids, and
    the students and registrations are as they were. *)
Theorem delete_instructor_clears_reference
    (c : SchoolSqlite.conn) (iid : string) :
  SchoolSqlite.has_instructor (SchoolSqlite.view c) iid = true ->
  exists c',
    SchoolSqlite.delete_instructor iid c = (Ok tt, c')
    /\ SchoolSqlite.tx c' = None
    /\ SchoolSqlite.has_instructor (SchoolSqlite.db c') iid = false
    /\ map SchoolSqlite.course_id (SchoolSqlite.tbl_courses (SchoolSqlite.db c'))
       = map SchoolSqlite.course_id
           (SchoolSqlite.tbl_courses (SchoolSqlite.view c))
    /\ map SchoolSqlite.course_name
         (SchoolSqlite.tbl_courses (SchoolSqlite.db c'))
       = map SchoolSqlite.course_name
           (SchoolSqlite.tbl_courses (SchoolSqlite.view c))
    /\ (forall r,
          In r (SchoolSqlite.tbl_courses (SchoolSqlite.view c)) ->
          SchoolSqlite.c_instructor_id r = Some iid ->
          In {| SchoolSqlite.course_id := SchoolSqlite.course_id r;
                SchoolSqlite.course_name := SchoolSqlite.course_name r;
                SchoolSqlite.c_instructor_id := None |}
             (SchoolSqlite.tbl_courses (SchoolSqlite.db c')))
    /\ (forall r,
          In r (SchoolSqlite.tbl_courses (SchoolSqlite.db c')) ->
          SchoolSqlite.c_instructor_id r <> Some iid)
    /\ (forall r,
          In r (SchoolSqlite.tbl_courses (SchoolSqlite.view c)) ->
          SchoolSqlite.c_instructor_id r <> Some iid ->
          In r (SchoolSqlite.tbl_courses (SchoolSqlite.db c')))
    /\ (forall r',
          In r' (SchoolSqlite.tbl_courses (SchoolSqlite.db c')) ->
          In r' (SchoolSqlite.tbl_courses (SchoolSqlite.view c))
          \/ exists r,
               In r (SchoolSqlite.tbl_courses (SchoolSqlite.view c))
               /\ SchoolSqlite.c_instructor_id r = Some iid
               /\ r' = {| SchoolSqlite.course_id := SchoolSqlite.course_id r;
                          SchoolSqlite.course_name := SchoolSqlite.course_name r;
                          SchoolSqlite.c_instructor_id := None |})
    /\ (forall r,
          In r (SchoolSqlite.tbl_instructors (SchoolSqlite.db c'))
          <-> In r (SchoolSqlite.tbl_instructors (SchoolSqlite.view c))
              /\ SchoolSqlite.instructor_id r <> iid)
    /\ SchoolSqlite.tbl_students (SchoolSqlite.db c')
       = SchoolSqlite.tbl_students (SchoolSqlite.view c)
    /\ SchoolSqlite.tbl_registrations (SchoolSqlite.db c')
       = SchoolSqlite.tbl_registrations (SchoolSqlite.view c).
Proof.
  intros Hi. eexists. split.
  { unfold SchoolSqlite.delete_instructor. apply execute_commit_ok.
    unfold SchoolSqlite.delete_instructors. rewrite Hi. reflexivity. }
  cbn [SchoolSqlite.db SchoolSqlite.tx SchoolSqlite.tbl_courses
       SchoolSqlite.tbl_instructors SchoolSqlite.tbl_students
       SchoolSqlite.tbl_registrations].
  split; [reflexivity|]. split.
  { unfold SchoolSqlite.has_instructor. cbn [SchoolSqlite.tbl_instructors].
    apply Bool.not_true_iff_false. intros H.
    apply existsb_exists in H as (r & Hr & E).
    apply List.filter_In in Hr as [_ Hr]. now rewrite E in Hr. }
  split.
  { rewrite map_map. apply map_ext. intros r.
    now destruct (SchoolSqlite.teaches iid r). }
  split.
  { rewrite map_map. apply map_ext. intros r.
    now destruct (SchoolSqlite.teaches iid r). }
  split.
  { intros r Hr E. apply List.in_map_iff. exists r. split; [|exact Hr].
    unfold SchoolSqlite.teaches. now rewrite E, String.eqb_refl. }
  split.
  { intros r Hr E. apply List.in_map_iff in Hr as (r0 & <- & _).
    unfold SchoolSqlite.teaches in E.
    destruct (SchoolSqlite.c_instructor_id r0) as [i|] eqn:E0;
      [|now rewrite E0 in E].
    destruct (String.eqb_spec i iid) as [->|Hne]; simpl in E; [discriminate|].
    rewrite E0 in E. congruence. }
  split.
  { intros r Hr Hne. apply List.in_map_iff. exists r. split; [|exact Hr].
    destruct (SchoolSqlite.teaches iid r) eqn:Et; [|reflexivity].
    apply teaches_iff in Et. contradiction. }
  split.
  { intros r' Hr'. apply List.in_map_iff in Hr' as (r & <- & Hr).
    destruct (SchoolSqlite.teaches iid r) eqn:Et.
    - right. exists r. apply teaches_iff in Et. now split.
    - now left. }
  split; [|now split].
  intros r. apply (filter_other_In SchoolSqlite.instructor_id).
Qed.

Lemma delete_instructor_clears_reference_witness :
  exists c',
    SchoolSqlite.delete_instructor "i5" Examples.school3 = (Ok tt, c')
    /\ SchoolSqlite.tbl_courses (SchoolSqlite.db c')
       = [{| SchoolSqlite.course_id := "c1";
             SchoolSqlite.course_name := "CS101";
             SchoolSqlite.c_instructor_id := None |};
          {| SchoolSqlite.course_id := "c2";
             SchoolSqlite.course_name := "AI";
             SchoolSqlite.c_instructor_id := Some "i6" |};
          {| SchoolSqlite.course_id := "c3";
             SchoolSqlite.course_name := "Logic";
             SchoolSqlite.c_instructor_id := None |}]
    /\ SchoolSqlite.tbl_instructors (SchoolSqlite.db c')
       = [{| SchoolSqlite.instructor_id := "i6";
             SchoolSqlite.i_name := "Lee"; SchoolSqlite.i_age := 50;
             SchoolSqlite.i_email := "lee@x.com" |}]
    /\ SchoolSqlite.tbl_students (SchoolSqlite.db c')
       = SchoolSqlite.tbl_students (SchoolSqlite.db Examples.school3)
    /\ SchoolSqlite.tbl_registrations (SchoolSqlite.db c')
       = SchoolSqlite.tbl_registrations (SchoolSqlite.db Examples.school3).
Proof.
  destruct (delete_instructor_clears_reference Examples.school3 "i5" eq_refl)
    as (c' & H & _ & _ & _ & _ & _ & _ & _ & _ & _ & Hs & Hr).
  exists c'. split; [exact H|].
  split; [|split; [|split; [exact Hs | exact Hr]]].
  - cbv in H. injection H as <-. reflexivity.
  - cbv in H. injection H as <-. reflexivity.
Defined.

(** ** [SqliteSchoolDB]: renaming a student that has registrations *)

Section RenameReferenced.
Import SchoolSqlite.
Variables (d0 : store) (sid new : string).
Hypothesis new_differs : new <> sid.

Let referenced (s : store) : bool :=
  existsb (fun e => String.eqb (fst e) sid) (tbl_registrations s).

(** Nothing committed, the student still there under its old id. *)
Let J (c : conn) : Prop :=
  db c = d0 /\ has_student (view c) sid = true.

(** ... and still referenced. *)
Let I (c : conn) : Prop := J c /\ referenced (view c) = true.

Lemma view_open d s : view {| db := d; tx := Some s |} = s.
Proof using Type. reflexivity. Qed.

Lemma execute_keeps_I stmt :
  (forall s s', stmt s = Ok s' ->
     tbl_registrations s' = tbl_registrations s
     /\ has_student s' sid = has_student s sid) ->
  forall c, I c -> I (snd (execute stmt c)).
Proof using Type.
  intros Hstmt c [[Hd Hs] Hr]. unfold execute.
  destruct (stmt (view c)) as [s'|e] eqn:E; simpl.
  - destruct (Hstmt _ _ E) as [H1 H2].
    unfold I, J, referenced, view. simpl. now rewrite H1, H2.
  - unfold I, J, view. simpl. auto.
Qed.

Lemma when_given_keeps_I {A} (x : option A) (stmt : A -> store -> result store) :
  (forall a s s', stmt a s = Ok s' ->
     tbl_registrations s' = tbl_registrations s
     /\ has_student s' sid = has_student s sid) ->
  forall c, I c -> I (snd (when_given x (fun v => execute (stmt v)) c)).
Proof using Type.
  intros Hstmt c Hc. destruct x as [a|]; simpl; [|exact Hc].
  apply execute_keeps_I; [apply Hstmt | exact Hc].
Qed.

Lemma bind_raises_after {A B} (m : M A) (k : A -> M B) :
  (forall c, I c -> I (snd (m c))) ->
  (forall a c, I c -> exists e, fst (k a c) = Raise e /\ J (snd (k a c))) ->
  forall c, I c ->
    exists e, fst (bind m k c) = Raise e /\ J (snd (bind m k c)).
Proof using Type.
  intros Hm Hk c Hc. unfold bind. specialize (Hm c Hc).
  destruct (m c) as [[a|e] c']; simpl in *.
  - now apply Hk.
  - exists e. split; [reflexivity | apply Hm].
Qed.

Lemma bind_raise {A B} (m : M A) (k : A -> M B) c e :
  fst (m c) = Raise e -> bind m k c = (Raise e, snd (m c)).
Proof using Type.
  unfold bind. destruct (m c) as [[a|e'] c']; simpl; congruence.
Qed.

Lemma has_student_map (f : student_row -> student_row) s k :
  (forall r, student_id (f r) = student_id r) ->
  has_student (with_students s (map f (tbl_students s))) k = has_student s k.
Proof using Type.
  intros Hf. unfold has_student. simpl.
  induction (tbl_students s) as [|r l IH]; simpl; [reflexivity|].
  now rewrite Hf, IH.
Qed.

(** The two statements of the rename: the first fails, or else the
    second does. *)
Lemma rename_statements_raise c :
  I c ->
  exists e,
    fst (bind (execute (update_registrations_student_id new sid))
              (fun _ => execute (update_students_student_id new sid)) c)
    = Raise e
    /\ J (snd (bind (execute (update_registrations_student_id new sid))
                    (fun _ => execute (update_students_student_id new sid))
                    c)).
Proof using new_differs.
  intros [[Hd Hs] Hr]. unfold bind, execute.
  destruct (update_registrations_student_id new sid (view c))
    as [s1|e] eqn:E1; simpl.
  2:{ exists e. split; [reflexivity|]. split; [exact Hd|exact Hs]. }
  unfold update_registrations_student_id in E1.
  destruct (existsb _ _) in E1; [discriminate|].
  fold (referenced (view c)) in E1. rewrite Hr in E1. simpl in E1.
  destruct (has_student (view c) new) eqn:Hn; [|discriminate].
  injection E1 as <-.
  rewrite !view_open.
  unfold update_students_student_id.
  change (has_student (with_registrations (view c) _) sid)
    with (has_student (view c) sid).
  change (has_student (with_registrations (view c) _) new)
    with (has_student (view c) new).
  rewrite Hs, Hn.
  destruct (String.eqb_spec new sid) as [E|_]; [contradiction|]. simpl.
  eexists. split; [reflexivity|]. split; [exact Hd | exact Hs].
Qed.

Lemma update_student_rename_raises name age email c :
  I c ->
  exists e,
    fst (update_student sid name age email (Some new) c) = Raise e
    /\ J (snd (update_student sid name age email (Some new) c)).
Proof using new_differs.
  revert c. unfold update_student.
  apply bind_raises_after; [|intros _].
  { apply when_given_keeps_I. intros v s s' [= <-].
    split; [reflexivity|].
    apply has_student_map. intros r. now destruct (String.eqb _ _). }
  apply bind_raises_after; [|intros _].
  { apply when_given_keeps_I. intros v s s'.
    unfold update_students_age. unfold_bind.
    destruct (bind_int v); [|discriminate]. intros [= <-].
    split; [reflexivity|].
    apply has_student_map. intros r. now destruct (String.eqb _ _). }
  apply bind_raises_after; [|intros _].
  { apply when_given_keeps_I. intros v s s' [= <-].
    split; [reflexivity|].
    apply has_student_map. intros r. now destruct (String.eqb _ _). }
  intros c1 Hc1. cbn [when_given].
  destruct (String.eqb_spec new sid) as [E|_]; [contradiction|].
  cbn [negb].
  destruct (rename_statements_raise c1 Hc1) as (e & He & HJ).
  rewrite (bind_raise _ (fun _ => commit) _ _ He).
  exists e. split; [reflexivity | exact HJ].
Qed.
End RenameReferenced.

(** C1 fails on the code: renaming a student that has registrations never
    goes through.  Whatever the new id, [update_student] raises; nothing is
    committed and the student keeps its old id.  (With a new id that no
    student has, the UPDATE of [registrations] violates the foreign key to
    [students]: the schema of this adapter declares no ON UPDATE CASCADE.) *)
Theorem update_student_rename_referenced_raises
    (c : SchoolSqlite.conn) (sid new_id cid : string)
    (name : option string) (age : option Z) (email : option string) :
  SchoolSqlite.has_student (SchoolSqlite.view c) sid = true ->
  In (sid, cid) (SchoolSqlite.tbl_registrations (SchoolSqlite.view c)) ->
  new_id <> sid ->
  exists e c',
    SchoolSqlite.update_student sid name age email (Some new_id) c
    = (Raise e, c')
    /\ SchoolSqlite.db c' = SchoolSqlite.db c
    /\ SchoolSqlite.has_student (SchoolSqlite.view c') sid = true.
Proof.
  intros Hs Hin Hne.
  assert (HI : (SchoolSqlite.db c = SchoolSqlite.db c
                /\ SchoolSqlite.has_student (SchoolSqlite.view c) sid = true)
               /\ existsb (fun e => String.eqb (fst e) sid)
                    (SchoolSqlite.tbl_registrations (SchoolSqlite.view c))
                  = true).
  { split; [split; [reflexivity | exact Hs]|].
    apply existsb_exists. exists (sid, cid).
    split; [exact Hin | apply String.eqb_refl]. }
  enough (H : exists e,
             fst (SchoolSqlite.update_student sid name age email
                    (Some new_id) c) = Raise e
             /\ (SchoolSqlite.db
                   (snd (SchoolSqlite.update_student sid name age email
                           (Some new_id) c)) = SchoolSqlite.db c
                 /\ SchoolSqlite.has_student
                      (SchoolSqlite.view
                         (snd (SchoolSqlite.update_student sid name age email
                                 (Some new_id) c))) sid = true)).
  { destruct H as (e & He & Hd & Hv).
    destruct (SchoolSqlite.update_student sid name age email (Some new_id) c)
      as [r c'].
    simpl in *. subst r. eauto. }
  exact (update_student_rename_raises (SchoolSqlite.db c) sid new_id Hne
           name age email c HI).
Qed.

Lemma update_student_rename_referenced_raises_witness :
  exists e c',
    SchoolSqlite.update_student "s1" (Some "Bob") None None (Some "s2")
      Examples.school1 = (Raise e, c')
    /\ SchoolSqlite.db c' = SchoolSqlite.db Examples.school1
    /\ SchoolSqlite.has_student (SchoolSqlite.view c') "s1" = true.
Proof.
  apply (update_student_rename_referenced_raises
           Examples.school1 "s1" "s2" "c1").
  - reflexivity.
  - simpl. now left.
  - discriminate.
Defined.

(** The same call, evaluated: the foreign key fails, the registrations and
    the student's id are as before, but the new name stays in the open
    transaction, and the next method that commits writes it. *)
Example update_student_rename_leaves_partial_state :
  let r := SchoolSqlite.update_student "s1" (Some "Bob") None None (Some "s2")
             Examples.school1 in
  fst r = Raise SchoolSqlite.fk_failed
  /\ SchoolSqlite.tbl_registrations (SchoolSqlite.view (snd r))
     = [("s1", "c1"); ("s1", "c2")]
  /\ SchoolSqlite.tbl_students (SchoolSqlite.view (snd r))
     = [{| SchoolSqlite.student_id := "s1"; SchoolSqlite.name := "Bob";
           SchoolSqlite.age := 20; SchoolSqlite.email := "ann@x.com" |}]
  /\ SchoolSqlite.tbl_students
       (SchoolSqlite.db
          (snd (SchoolSqlite.register_student_in_course "s1" "c1" (snd r))))
     = [{| SchoolSqlite.student_id := "s1"; SchoolSqlite.name := "Bob";
           SchoolSqlite.age := 20; SchoolSqlite.email := "ann@x.com" |}].
Proof. repeat split. Qed.

(* ===================================================================== *)
(** * Part III: further properties of the code                             *)
(* ===================================================================== *)

(** ** [school.py]: entities *)

(** X1: [Instructor.assign_course] never lists a course twice: on a list
    without duplicates it leaves one without duplicates that holds the
    course, and assigning the same course again changes nothing. *)
Theorem assign_course_no_duplicates (i : School.Instructor) (course : string) :
  NoDup (School.assigned_courses i) ->
  NoDup (School.assigned_courses (School.assign_course i course))
  /\ In course (School.assigned_courses (School.assign_course i course))
  /\ School.assign_course (School.assign_course i course) course
     = School.assign_course i course.
Proof.
  intros Hnd.
  assert (Hin : In course
                  (School.assigned_courses (School.assign_course i course))).
  { unfold School.assign_course.
    destruct (existsb _ _) eqn:E.
    - apply existsb_exists in E as (x & Hx & E).
      apply String.eqb_eq in E. now subst.
    - simpl. apply in_or_app. right. now left. }
  split; [|split; [exact Hin|]].
  - unfold School.assign_course.
    destruct (existsb _ _) eqn:E; [exact Hnd|]. simpl.
    apply NoDup_app. split; [exact Hnd|]. split; [|apply NoDup_singleton].
    intros x Hx [<-|[]]%list_elem_of_In. apply list_elem_of_In in Hx.
    apply Bool.not_true_iff_false in E. apply E.
    apply existsb_exists. exists course.
    split; [exact Hx | apply String.eqb_refl].
  - unfold School.assign_course at 1.
    destruct (existsb _ (School.assigned_courses (School.assign_course i course)))
      eqn:E; [reflexivity|].
    apply Bool.not_true_iff_false in E. destruct E.
    apply existsb_exists. exists course.
    split; [exact Hin | apply String.eqb_refl].
Qed.

Lemma assign_course_no_duplicates_witness :
  School.assigned_courses (School.assign_course Examples.kim "c2") = ["c1"; "c2"]
  /\ NoDup (School.assigned_courses (School.assign_course Examples.kim "c2")).
Proof.
  split; [reflexivity|].
  apply (assign_course_no_duplicates Examples.kim "c2").
  simpl. apply NoDup_singleton.
Defined.

Lemma rmap_roundtrip {A} (save : A -> School.value)
    (from_dict : School.value -> result A) (ok : A -> Prop) (l : list A) :
  (forall x, ok x -> from_dict (save x) = Ok x) ->
  Forall ok l -> rmap from_dict (map save l) = Ok l.
Proof.
  intros Hrt. induction 1 as [|x l Hx Hl IH]; [reflexivity|].
  cbn [map rmap]. unfold_bind. rewrite (Hrt x Hx).
  fold (@rmap School.value A). now rewrite IH.
Qed.

(** X2: [load_from_file] on the document [save_to_file] wrote restores the
    three lists of the store that was saved, whatever the store it is
    loaded into held before: loading replaces, it does not merge. *)
Theorem load_from_file_save_to_file (db db0 : School.School_DB) :
  Forall Spec.student_ok (School.students db) ->
  Forall Spec.instructor_ok (School.instructors db) ->
  Forall Spec.course_ok (School.courses db) ->
  School.load_from_file db0 (School.save_to_file db) = (Ok tt, db).
Proof.
  intros Hs Hi Hc. destruct db as [ss ins cs]. simpl in Hs, Hi, Hc.
  unfold School.load_from_file, School.load_list, School.save_to_file.
  cbn [School.as_dict School.students School.instructors School.courses].
  unfold_bind. cbn [School.dict_getitem School.dict_lookup String.eqb
                    Ascii.eqb Bool.eqb School.iterate].
  rewrite (rmap_roundtrip _ _ _ ss Student_roundtrip Hs).
  rewrite (rmap_roundtrip _ _ _ ins Instructor_roundtrip Hi).
  rewrite (rmap_roundtrip _ _ _ cs Course_roundtrip Hc).
  reflexivity.
Qed.

Lemma load_from_file_save_to_file_witness :
  School.load_from_file
    (School.add_student School.School_DB_init
       (School.register_course Examples.ann "c9"))
    (School.save_to_file
       (School.add_course
          (School.add_instructor
             (School.add_student School.School_DB_init Examples.ann)
             Examples.kim)
          Examples.cs101))
  = (Ok tt,
     {| School.students := [Examples.ann];
        School.instructors := [Examples.kim];
        School.courses := [Examples.cs101] |}).
Proof.
  apply (load_from_file_save_to_file
           {| School.students := [Examples.ann];
              School.instructors := [Examples.kim];
              School.courses := [Examples.cs101] |}).
  - repeat constructor.
  - repeat constructor.
  - constructor; [|constructor]. split.
    + intros i [= <-]. split; reflexivity.
    + repeat constructor.
Defined.

Ltac case_result :=
  match goal with
  | |- context [match ?x with Ok _ => _ | Raise _ => _ end] =>
      let E := fresh "E" in destruct x eqn:E; try discriminate
  end.

(** X3: [Student.from_dict] on a dictionary that lacks one of its five keys
    raises [KeyError] for a key that is missing, whatever the other values
    are: nothing is validated before all five are found. *)
Theorem Student_from_dict_missing_key (d : School.dict) :
  (exists k, In k ["name"; "age"; "email"; "student_id"; "registered_courses"]
             /\ School.dict_lookup k d = None) ->
  exists k, In k ["name"; "age"; "email"; "student_id"; "registered_courses"]
            /\ School.dict_lookup k d = None
            /\ School.Student_from_dict (School.VDict d) = Raise (KeyError k).
Proof.
  intros (k0 & Hk0 & Hnone).
  unfold School.Student_from_dict, School.dict_getitem. unfold_bind.
  cbn [School.as_dict].
  destruct (School.dict_lookup "name" d) eqn:E1;
    [|exists "name"; simpl; auto 10].
  destruct (School.dict_lookup "age" d) eqn:E2;
    [|exists "age"; simpl; auto 10].
  destruct (School.dict_lookup "email" d) eqn:E3;
    [|exists "email"; simpl; auto 10].
  destruct (School.dict_lookup "student_id" d) eqn:E4;
    [|exists "student_id"; simpl; auto 10].
  destruct (School.dict_lookup "registered_courses" d) eqn:E5;
    [|exists "registered_courses"; simpl; auto 10].
  exfalso. simpl in Hk0.
  destruct Hk0 as [<-|[<-|[<-|[<-|[<-|[]]]]]]; congruence.
Qed.

Lemma Student_from_dict_missing_key_witness :
  exists k, In k ["name"; "age"; "email"; "student_id"; "registered_courses"]
            /\ School.dict_lookup k (School.Person_save_to_dict
                                       (School.student_person Examples.ann))
               = None
            /\ School.Student_from_dict
                 (School.VDict (School.Person_save_to_dict
                                  (School.student_person Examples.ann)))
               = Raise (KeyError k).
Proof.
  apply Student_from_dict_missing_key.
  exists "student_id". split; [simpl; auto|reflexivity].
Defined.

Lemma rmap_Forall {A B} (f : A -> result B) (P : B -> Prop) :
  (forall x y, f x = Ok y -> P y) ->
  forall l l', rmap f l = Ok l' -> Forall P l'.
Proof.
  intros Hf. induction l as [|x l IH]; simpl; intros l'.
  - intros [= <-]. constructor.
  - unfold_bind. destruct (f x) as [y|] eqn:Ex; [|discriminate].
    fold (@rmap A B).
    destruct (rmap f l) as [ys|] eqn:El; [|discriminate].
    intros [= <-]. constructor; eauto.
Qed.

Lemma Student_from_dict_ok v s :
  School.Student_from_dict v = Ok s -> Spec.student_ok s.
Proof.
  unfold School.Student_from_dict, School.Student_init. unfold_bind.
  repeat case_result.
  intros [= <-]. unfold Spec.student_ok. simpl.
  match goal with H : School.Person_init _ _ _ = Ok _ |- _ =>
    now apply Person_init_ok in H as [_ H] end.
Qed.

Lemma Instructor_from_dict_ok v i :
  School.Instructor_from_dict v = Ok i -> Spec.instructor_ok i.
Proof.
  unfold School.Instructor_from_dict, School.Instructor_init. unfold_bind.
  repeat case_result.
  intros [= <-]. unfold Spec.instructor_ok. simpl.
  match goal with H : School.Person_init _ _ _ = Ok _ |- _ =>
    now apply Person_init_ok in H as [_ H] end.
Qed.

(** X4: whatever record it is given, an entity that [from_dict] returns
    passed validation: a Student or Instructor has an e-mail that
    [validate_email] accepts and an age >= 0, and so have the instructor and
    every student nested in a Course. *)
Theorem from_dict_validates :
  (forall v s, School.Student_from_dict v = Ok s -> Spec.student_ok s)
  /\ (forall v i, School.Instructor_from_dict v = Ok i -> Spec.instructor_ok i)
  /\ (forall v c, School.Course_from_dict v = Ok c -> Spec.course_ok c).
Proof.
  split; [exact Student_from_dict_ok|].
  split; [exact Instructor_from_dict_ok|].
  intros v c. unfold School.Course_from_dict. unfold_bind.
  destruct (School.as_dict v) as [d|]; [|discriminate].
  destruct (School.truthy _).
  - destruct (School.dict_getitem "instructor" d) as [vi|]; [|discriminate].
    destruct (School.Instructor_from_dict vi) as [i|] eqn:Ei; [|discriminate].
    repeat case_result. intros [= <-]. split; simpl.
    + intros i' [= <-]. eapply Instructor_from_dict_ok, Ei.
    + eapply rmap_Forall; [exact Student_from_dict_ok | eassumption].
  - repeat case_result. intros [= <-]. split; simpl.
    + discriminate.
    + eapply rmap_Forall; [exact Student_from_dict_ok | eassumption].
Qed.

Lemma from_dict_validates_witness :
  School.Student_from_dict
    (School.VDict [("name", School.VStr "Ann"); ("age", School.VInt (-1));
                   ("email", School.VStr "ann@x.com");
                   ("student_id", School.VStr "s1");
                   ("registered_courses", School.VList [])])
  = Raise (ValueError "Age must be non-negative integer")
  /\ Spec.student_ok Examples.ann.
Proof.
  split; [reflexivity|].
  apply (proj1 from_dict_validates
           (School.VDict (School.Student_save_to_dict Examples.ann))).
  reflexivity.
Defined.

(** ** [app_tk_done.py]: the validators *)

Lemma lstrip_nil_iff s : AppTk.lstrip s = [] <-> forallb AppTk.is_space s = true.
Proof.
  induction s as [|c s IH]; simpl; [tauto|].
  destruct (AppTk.is_space c); simpl; [exact IH|].
  split; discriminate.
Qed.

Lemma lstrip_head c t s : AppTk.lstrip s = c :: t -> AppTk.is_space c = false.
Proof.
  induction s as [|x s IH]; simpl; [discriminate|].
  destruct (AppTk.is_space x) eqn:E; [exact IH|]. now intros [= <- _].
Qed.

Lemma lstrip_fixed s :
  match s with [] => True | c :: _ => AppTk.is_space c = false end ->
  AppTk.lstrip s = s.
Proof. destruct s as [|c s]; simpl; [reflexivity|]. now intros ->. Qed.

Lemma lstrip_idem s : AppTk.lstrip (AppTk.lstrip s) = AppTk.lstrip s.
Proof.
  apply lstrip_fixed. destruct (AppTk.lstrip s) as [|c t] eqn:E; [exact I|].
  eapply lstrip_head, E.
Qed.

Lemma lstrip_snoc l c :
  AppTk.is_space c = false -> AppTk.lstrip (l ++ [c]) = AppTk.lstrip l ++ [c].
Proof.
  intros Hc. induction l as [|x l IH]; simpl; [now rewrite Hc|].
  destruct (AppTk.is_space x); [exact IH | reflexivity].
Qed.

Lemma rstrip_cons c t :
  AppTk.is_space c = false -> AppTk.rstrip (c :: t) = c :: AppTk.rstrip t.
Proof.
  intros Hc. unfold AppTk.rstrip. simpl.
  rewrite (lstrip_snoc _ _ Hc), rev_app_distr. reflexivity.
Qed.

Lemma strip_nil_iff s : AppTk.strip s = [] <-> forallb AppTk.is_space s = true.
Proof.
  unfold AppTk.strip, AppTk.rstrip. rewrite <- lstrip_nil_iff. split.
  - intros H. apply (f_equal (@rev ascii)) in H. rewrite rev_involutive in H.
    simpl in H. apply lstrip_nil_iff in H.
    rewrite List.forallb_forall in H.
    destruct (AppTk.lstrip s) as [|c t] eqn:E; [reflexivity|].
    apply lstrip_head in E. specialize (H c). rewrite E in H.
    discriminate H. apply -> in_rev. now left.
  - intros ->. reflexivity.
Qed.

Lemma strip_idem s : AppTk.strip (AppTk.strip s) = AppTk.strip s.
Proof.
  unfold AppTk.strip.
  assert (H : AppTk.lstrip (AppTk.rstrip (AppTk.lstrip s))
              = AppTk.rstrip (AppTk.lstrip s)).
  { apply lstrip_fixed. destruct (AppTk.lstrip s) as [|c t] eqn:E.
    - exact I.
    - apply lstrip_head in E. now rewrite (rstrip_cons _ _ E). }
  rewrite H. unfold AppTk.rstrip. now rewrite rev_involutive, lstrip_idem.
Qed.

(** X5: [nonempty] holds exactly when each of its arguments has a character
    that is not white space; with no argument it holds. *)
Theorem nonempty_iff (strings : list string) :
  AppTk.nonempty strings = true <->
  forall s, In s strings ->
            exists c, In c (list_ascii_of_string s) /\ AppTk.is_space c = false.
Proof.
  unfold AppTk.nonempty. rewrite List.forallb_forall.
  assert (Hone : forall s,
    match AppTk.strip (list_ascii_of_string s) with
    | [] => false | _ :: _ => true end = true <->
    exists c, In c (list_ascii_of_string s) /\ AppTk.is_space c = false).
  { intros s. destruct (AppTk.strip (list_ascii_of_string s)) eqn:E.
    - apply strip_nil_iff in E. rewrite List.forallb_forall in E. split.
      + discriminate.
      + intros (c & Hc & Hs). rewrite (E c Hc) in Hs. discriminate.
    - split; [intros _|reflexivity].
      destruct (forallb AppTk.is_space (list_ascii_of_string s)) eqn:F.
      + apply strip_nil_iff in F. congruence.
      + apply Bool.not_true_iff_false in F.
        destruct (existsb (fun c => negb (AppTk.is_space c))
                    (list_ascii_of_string s)) eqn:X.
        * apply existsb_exists in X as (c & Hc & Hn).
          exists c. split; [exact Hc | now apply negb_true_iff].
        * exfalso. apply F. apply List.forallb_forall. intros c Hc.
          destruct (AppTk.is_space c) eqn:Ec; [reflexivity|].
          apply Bool.not_true_iff_false in X. destruct X.
          apply existsb_exists. exists c. now rewrite Ec. }
  split; intros H s Hs; apply Hone; auto.
Qed.

(** ** [DB]: what a call that returned has done *)

Lemma DbDone_bind_int_some n m : DbDone.bind_int n = Ok m -> m = n.
Proof. intros H. now apply DbDone_bind_int_ok in H. Qed.

Ltac split_ands :=
  repeat match goal with |- _ /\ _ => split end.

Ltac bind_ints :=
  repeat match goal with
  | H : DbDone.bind_int _ = Ok _ |- _ =>
      apply DbDone_bind_int_ok in H as [-> ?]
  end.

Lemma upsert_student_inv s sid n a e s' :
  DbDone.upsert_student s sid n a e = Ok s' ->
  Spec.int64 sid /\ Spec.int64 a
  /\ (forall r, In r (DbDone.students s) -> DbDone.email r = e ->
                DbDone.student_id r = sid)
  /\ DbDone.instructors s' = DbDone.instructors s
  /\ DbDone.courses s' = DbDone.courses s
  /\ DbDone.enrollments s' = DbDone.enrollments s.
Proof.
  intros H.
  assert (Hok : is_ok (DbDone.upsert_student s sid n a e) = true)
    by now rewrite H.
  apply upsert_student_succeeds in Hok as (H1 & H2 & H3).
  split; [exact H1|]. split; [exact H2|]. split; [exact H3|].
  revert H. unfold DbDone.upsert_student. unfold_bind.
  repeat case_result. destruct (existsb _ _); [discriminate|].
  now intros [= <-].
Qed.

Lemma upsert_instructor_inv s iid n a e s' :
  DbDone.upsert_instructor s iid n a e = Ok s' ->
  Spec.int64 iid /\ Spec.int64 a
  /\ (forall r, In r (DbDone.instructors s) -> DbDone.i_email r = e ->
                DbDone.instructor_id r = iid)
  /\ DbDone.instructors s' =
       (let row := {| DbDone.instructor_id := iid; DbDone.i_name := n;
                      DbDone.i_age := a; DbDone.i_email := e |} in
        if DbDone.has_instructor s iid
        then map (fun r => if (DbDone.instructor_id r =? iid)%Z then row else r)
                 (DbDone.instructors s)
        else DbDone.instructors s ++ [row])
  /\ DbDone.students s' = DbDone.students s
  /\ DbDone.courses s' = DbDone.courses s
  /\ DbDone.enrollments s' = DbDone.enrollments s.
Proof.
  unfold DbDone.upsert_instructor. unfold_bind.
  repeat case_result. bind_ints.
  destruct (existsb _ _) eqn:Ex; [discriminate|]. intros [= <-].
  split_ands; try assumption; try reflexivity.
  intros r Hr He.
  destruct (Z.eqb_spec (DbDone.instructor_id r) iid) as [E|E]; [exact E|].
  exfalso. apply Bool.not_true_iff_false in Ex. apply Ex.
  apply existsb_exists. exists r. split; [exact Hr|].
  apply andb_true_intro. split.
  - now apply negb_true_iff, Z.eqb_neq.
  - now apply String.eqb_eq.
Qed.

Lemma upsert_course_inv s cid n i s' :
  DbDone.upsert_course s cid n i = Ok s' ->
  Spec.int64 cid
  /\ (forall j, i = Some j -> DbDone.has_instructor s j = true)
  /\ DbDone.courses s' =
       (let row := {| DbDone.course_id := cid; DbDone.course_name := n;
                      DbDone.c_instructor_id := i |} in
        if DbDone.has_course s cid
        then map (fun r => if (DbDone.course_id r =? cid)%Z then row else r)
                 (DbDone.courses s)
        else DbDone.courses s ++ [row])
  /\ DbDone.students s' = DbDone.students s
  /\ DbDone.instructors s' = DbDone.instructors s
  /\ DbDone.enrollments s' = DbDone.enrollments s.
Proof.
  unfold DbDone.upsert_course, DbDone.bind_opt_int. unfold_bind.
  destruct (DbDone.bind_int cid) as [cid'|] eqn:Ec; [|discriminate].
  destruct i as [j|].
  - destruct (DbDone.bind_int j) as [j'|] eqn:Ej; [|discriminate].
    bind_ints.
    destruct (DbDone.has_instructor s j) eqn:Hj; [|discriminate].
    intros [= <-]. simpl. split_ands; try assumption; try reflexivity.
    now intros j0 [= <-].
  - bind_ints. intros [= <-]. simpl.
    split_ands; try assumption; try reflexivity. discriminate.
Qed.

Lemma assign_instructor_inv s cid iid s' :
  DbDone.assign_instructor s cid iid = Ok s' ->
  Spec.int64 cid /\ Spec.int64 iid
  /\ (DbDone.has_course s cid = true -> DbDone.has_instructor s iid = true)
  /\ DbDone.courses s' =
       map (fun r => if (DbDone.course_id r =? cid)%Z
                     then {| DbDone.course_id := DbDone.course_id r;
                             DbDone.course_name := DbDone.course_name r;
                             DbDone.c_instructor_id := Some iid |}
                     else r) (DbDone.courses s)
  /\ DbDone.students s' = DbDone.students s
  /\ DbDone.instructors s' = DbDone.instructors s
  /\ DbDone.enrollments s' = DbDone.enrollments s.
Proof.
  unfold DbDone.assign_instructor. unfold_bind.
  repeat case_result. bind_ints.
  destruct (DbDone.has_course s cid) eqn:Hc;
    destruct (DbDone.has_instructor s iid) eqn:Hi; simpl;
    try discriminate; intros [= <-]; simpl;
    split_ands; try assumption; try reflexivity; auto; discriminate.
Qed.

Lemma enroll_inv s sid cid s' :
  DbDone.enroll s sid cid = Ok s' ->
  Spec.int64 sid /\ Spec.int64 cid
  /\ DbDone.students s' = DbDone.students s
  /\ DbDone.instructors s' = DbDone.instructors s
  /\ DbDone.courses s' = DbDone.courses s
  /\ ((In (sid, cid) (DbDone.enrollments s) /\ s' = s)
      \/ (~ In (sid, cid) (DbDone.enrollments s)
          /\ DbDone.has_student s sid = true
          /\ DbDone.has_course s cid = true
          /\ DbDone.enrollments s' = DbDone.enrollments s ++ [(sid, cid)])).
Proof.
  unfold DbDone.enroll. unfold_bind.
  repeat case_result. bind_ints.
  destruct (DbDone.has_enrollment s sid cid) eqn:He.
  - intros [= <-]. split_ands; try assumption; try reflexivity.
    left. split; [now apply has_enrollment_In | reflexivity].
  - destruct (DbDone.has_student s sid) eqn:Hs;
      destruct (DbDone.has_course s cid) eqn:Hc; simpl; try discriminate.
    intros [= <-]. simpl. split_ands; try assumption; try reflexivity.
    right. split_ands; try reflexivity.
    intros Hin. apply has_enrollment_In in Hin. congruence.
Qed.

(** ** [DB]: the schema's constraints hold in every store it reaches *)

Section UniqueColumn.
Context {A : Type} (key : A -> Z) (val : A -> string).




Lemma keys_upsert_incl (row : A) (l : list A) k :
  In k (map key l) ->
  In k (map key
          (if existsb (fun r => (key r =? key row)%Z) l
           then map (fun r => if (key r =? key row)%Z then row else r) l
           else l ++ [row])).
Proof using Type.
  intros Hk. destruct (existsb _ l) eqn:E.
  - now rewrite map_key_replace.
  - rewrite map_app. apply in_or_app. now left.
Qed.
End UniqueColumn.





(** X7: in every store a [DB] reaches the references are valid: the
    instructor a course names is in [instructors], and the student and the
    course of every enrollment are in [students] and [courses]. *)
Theorem reachable_refs_valid (s : DbDone.store) :
  DbDone.reachable s -> DbDone.refs_valid s.
Proof.
  induction 1 as [|s sid n a e s' _ [R1 R2] H
                  |s iid n a e s' _ [R1 R2] H
                  |s cid n i s' _ [R1 R2] H
                  |s cid iid s' _ [R1 R2] H
                  |s sid cid s' _ [R1 R2] H].
  - split; simpl; intros; contradiction.
  - pose proof (upsert_student_students _ _ _ _ _ _ H) as Hst.
    destruct (upsert_student_inv _ _ _ _ _ _ H) as (_ & _ & _ & Hi & Hc & He).
    cbv zeta in Hst. unfold DbDone.refs_valid. rewrite Hi, Hc, He, Hst.
    split; [exact R1|]. intros en Hen. destruct (R2 en Hen) as [Ha Hb].
    split; [|exact Hb].
    now apply (keys_upsert_incl DbDone.student_id
                 {| DbDone.student_id := sid; DbDone.name := n;
                    DbDone.age := a; DbDone.email := e |}).
  - destruct (upsert_instructor_inv _ _ _ _ _ _ H)
      as (_ & _ & _ & Hin & Hs & Hc & He).
    cbv zeta in Hin. unfold DbDone.refs_valid. rewrite Hs, Hc, He, Hin.
    split; [|exact R2]. intros c j Hc1 Hc2.
    apply (keys_upsert_incl DbDone.instructor_id
             {| DbDone.instructor_id := iid; DbDone.i_name := n;
                DbDone.i_age := a; DbDone.i_email := e |}).
    eapply R1; eassumption.
  - destruct (upsert_course_inv _ _ _ _ _ H) as (_ & Hj & Hc & Hs & Hi & He).
    cbv zeta in Hc. unfold DbDone.refs_valid. rewrite Hs, Hi, He, Hc.
    split.
    + intros c j Hc1 Hc2.
      assert (Hnew : forall j0, i = Some j0 ->
                 In j0 (map DbDone.instructor_id (DbDone.instructors s))).
      { intros j0 E. apply (existsb_key_In DbDone.instructor_id), Hj, E. }
      destruct (DbDone.has_course s cid).
      * apply List.in_map_iff in Hc1 as (r & Hr & Hin).
        destruct (DbDone.course_id r =? cid)%Z; subst c; eauto.
      * apply in_app_or in Hc1 as [Hc1|[<-|[]]]; eauto.
    + intros en Hen. destruct (R2 en Hen) as [Ha Hb]. split; [exact Ha|].
      now apply (keys_upsert_incl DbDone.course_id
                   {| DbDone.course_id := cid; DbDone.course_name := n;
                      DbDone.c_instructor_id := i |}).
  - destruct (assign_instructor_inv _ _ _ _ H)
      as (_ & _ & Hj & Hc & Hs & Hi & He).
    unfold DbDone.refs_valid. rewrite Hs, Hi, He, Hc. split.
    + intros c j Hc1 Hc2.
      apply List.in_map_iff in Hc1 as (r & Hr & Hin).
      destruct (Z.eqb_spec (DbDone.course_id r) cid) as [E|E]; subst c.
      * simpl in Hc2. injection Hc2 as <-.
        apply (existsb_key_In DbDone.instructor_id), Hj.
        apply (existsb_key_In DbDone.course_id).
        rewrite <- E. now apply List.in_map.
      * eauto.
    + intros en Hen. destruct (R2 en Hen) as [Ha Hb]. split; [exact Ha|].
      rewrite map_map. erewrite map_ext; [exact Hb|]. intros r. simpl.
      now destruct (DbDone.course_id r =? cid)%Z.
  - destruct (enroll_inv _ _ _ _ H) as (_ & _ & Hs & Hi & Hc & He).
    unfold DbDone.refs_valid. rewrite Hs, Hi, Hc. split; [exact R1|].
    destruct He as [[_ ->]|(_ & Hst & Hco & ->)]; [exact R2|].
    intros en Hen. apply in_app_or in Hen as [Hen|[<-|[]]]; [now apply R2|].
    simpl. split.
    + now apply (existsb_key_In DbDone.student_id).
    + now apply (existsb_key_In DbDone.course_id).
Qed.

Lemma reachable_refs_valid_witness :
  exists s, DbDone.enroll Examples.db1 1 10 = Ok s /\ DbDone.refs_valid s.
Proof.
  eexists. split; [reflexivity|].
  apply reachable_refs_valid.
  apply (DbDone.reach_enroll Examples.db1 1 10); [|reflexivity].
  apply (DbDone.reach_upsert_course
           {| DbDone.students := DbDone.students Examples.db1;
              DbDone.instructors := []; DbDone.courses := [];
              DbDone.enrollments := [] |} 10 "CS101" None); [|reflexivity].
  apply (DbDone.reach_upsert_student DbDone.empty 1 "Ann" 20 "ann@x.com");
    [apply DbDone.reach_empty | reflexivity].
Defined.

(** ** [DB]: errors and what the listings show *)

(** X8: [upsert_student] with an e-mail that a student of another id holds
    raises [IntegrityError] for the UNIQUE column, on a new id and on an
    existing one alike: ON CONFLICT covers the primary key only. *)
Theorem upsert_student_email_taken
    (s : DbDone.store) (sid : Z) (n : string) (a : Z) (e : string)
    (r : DbDone.student_row) :
  Spec.int64 sid -> Spec.int64 a ->
  In r (DbDone.students s) -> DbDone.email r = e ->
  DbDone.student_id r <> sid ->
  DbDone.upsert_student s sid n a e
  = Raise (IntegrityError "UNIQUE constraint failed: students.email").
Proof.
  intros Hs Ha Hr He Hne. unfold DbDone.upsert_student. unfold_bind.
  rewrite (proj2 (DbDone_bind_int_ok sid sid) (conj eq_refl Hs)).
  rewrite (proj2 (DbDone_bind_int_ok a a) (conj eq_refl Ha)).
  assert (Hex : existsb
            (fun r0 => negb (DbDone.student_id r0 =? sid)%Z
                       && String.eqb (DbDone.email r0) e)
            (DbDone.students s) = true).
  { apply existsb_exists. exists r. split; [exact Hr|].
    apply andb_true_intro. split.
    - now apply negb_true_iff, Z.eqb_neq.
    - now apply String.eqb_eq. }
  now rewrite Hex.
Qed.

Lemma upsert_student_email_taken_witness :
  DbDone.upsert_student Examples.db1 2 "Bob" 30 "ann@x.com"
  = Raise (IntegrityError "UNIQUE constraint failed: students.email").
Proof.
  apply (upsert_student_email_taken Examples.db1 2 "Bob" 30 "ann@x.com"
           {| DbDone.student_id := 1; DbDone.name := "Ann"; DbDone.age := 20;
              DbDone.email := "ann@x.com" |})%Z.
  - unfold Spec.int64. lia.
  - unfold Spec.int64. lia.
  - simpl. now left.
  - reflexivity.
  - discriminate.
Defined.

Lemma In_replace_other {A} (key : A -> Z) (row x : A) (k : Z) (l : list A) :
  key x <> k -> key row = k ->
  In x (map (fun r => if (key r =? k)%Z then row else r) l) <-> In x l.
Proof.
  intros Hx Hrow. rewrite List.in_map_iff. split.
  - intros (r & Hr & Hin). destruct (Z.eqb_spec (key r) k); subst; tauto.
  - intros Hin. exists x. split; [|exact Hin].
    destruct (Z.eqb_spec (key x) k); tauto.
Qed.

(** X9: a successful [upsert_student] touches the row of its id only: the
    rows [list_students] shows for other ids are the same before and after,
    and [list_instructors] and [list_courses] are unchanged. *)
Theorem upsert_student_frame
    (s s' : DbDone.store) (sid : Z) (n : string) (a : Z) (e : string) :
  DbDone.upsert_student s sid n a e = Ok s' ->
  (forall row, fst (fst (fst row)) <> sid ->
     (In row (DbDone.list_students s') <-> In row (DbDone.list_students s)))
  /\ DbDone.list_instructors s' = DbDone.list_instructors s
  /\ DbDone.list_courses s' = DbDone.list_courses s.
Proof.
  intros H. pose proof (upsert_student_students _ _ _ _ _ _ H) as Hst.
  destruct (upsert_student_inv _ _ _ _ _ _ H) as (_ & _ & _ & Hi & Hc & _).
  cbv zeta in Hst. split; [|split].
  - intros row Hne. unfold DbDone.list_students.
    rewrite !List.in_map_iff.
    assert (Hrows : forall x, DbDone.student_id x <> sid ->
              (In x (DbDone.students s') <-> In x (DbDone.students s))).
    { intros x Hx. rewrite Hst. destruct (DbDone.has_student s sid).
      - now apply (In_replace_other DbDone.student_id).
      - rewrite List.in_app_iff. simpl. split; [|tauto].
        intros [Hin|[<-|[]]]; [exact Hin|]. now destruct Hx. }
    split; intros (x & <- & Hx); exists x; (split; [reflexivity|]);
      apply order_by_In; apply order_by_In in Hx; apply Hrows; auto.
  - unfold DbDone.list_instructors. now rewrite Hi.
  - unfold DbDone.list_courses. now rewrite Hi, Hc.
Qed.

Lemma upsert_student_frame_witness :
  exists s',
    DbDone.upsert_student Examples.db1 2 "Bob" 30 "bob@x.com" = Ok s'
    /\ In (1, "Ann", 20, "ann@x.com")%Z (DbDone.list_students s').
Proof.
  eexists. split; [reflexivity|].
  apply (proj1 (upsert_student_frame Examples.db1 _ 2 "Bob" 30 "bob@x.com"
                  eq_refl) (1, "Ann", 20, "ann@x.com")%Z).
  - discriminate.
  - simpl. now left.
Defined.

Lemma store_eta (s : DbDone.store) :
  {| DbDone.students := DbDone.students s;
     DbDone.instructors := DbDone.instructors s;
     DbDone.courses := DbDone.courses s;
     DbDone.enrollments := DbDone.enrollments s |} = s.
Proof. now destruct s. Qed.

Lemma map_if_absent {A} (key : A -> Z) (g : A -> A) (k : Z) (l : list A) :
  existsb (fun r => (key r =? k)%Z) l = false ->
  map (fun r => if (key r =? k)%Z then g r else r) l = l.
Proof.
  induction l as [|x l IH]; simpl; [reflexivity|].
  destruct (key x =? k)%Z; simpl; [discriminate|].
  intros H. now rewrite IH.
Qed.

(** X10: [assign_instructor] for a course id that no course has returns
    normally and leaves the store as it was, whether or not the instructor
    exists: the UPDATE matches no row and nothing reports it. *)
Theorem assign_instructor_missing_course
    (s : DbDone.store) (course_id instructor_id : Z) :
  Spec.int64 course_id -> Spec.int64 instructor_id ->
  DbDone.has_course s course_id = false ->
  DbDone.assign_instructor s course_id instructor_id = Ok s.
Proof.
  intros Hc Hi Hno. unfold DbDone.assign_instructor. unfold_bind.
  rewrite (proj2 (DbDone_bind_int_ok _ _) (conj eq_refl Hi)).
  rewrite (proj2 (DbDone_bind_int_ok _ _) (conj eq_refl Hc)).
  rewrite Hno. simpl. f_equal.
  rewrite (map_if_absent DbDone.course_id) by exact Hno.
  apply store_eta.
Qed.

Lemma assign_instructor_missing_course_witness :
  DbDone.assign_instructor Examples.db1 99 7 = Ok Examples.db1.
Proof.
  apply assign_instructor_missing_course.
  - unfold Spec.int64. lia.
  - unfold Spec.int64. lia.
  - reflexivity.
Defined.

Lemma list_courses_In s c i :
  In c (DbDone.courses s) -> In i (DbDone.instructors s) ->
  DbDone.c_instructor_id c = Some (DbDone.instructor_id i) ->
  In (DbDone.course_id c, DbDone.course_name c,
      Some (DbDone.i_name i), Some (DbDone.i_email i))
     (DbDone.list_courses s).
Proof.
  intros Hc Hi E. unfold DbDone.list_courses.
  apply List.in_flat_map. exists c. split; [now apply order_by_In|].
  rewrite E.
  assert (Hf : In i (List.filter
                       (fun r => (DbDone.instructor_id r
                                  =? DbDone.instructor_id i)%Z)
                       (DbDone.instructors s))).
  { apply List.filter_In. split; [exact Hi | apply Z.eqb_refl]. }
  destruct (List.filter _ _) as [|j js]; [destruct Hf|].
  apply List.in_map_iff. exists i. split; [reflexivity | exact Hf].
Qed.

Lemma list_courses_In_null s c :
  In c (DbDone.courses s) -> DbDone.c_instructor_id c = None ->
  In (DbDone.course_id c, DbDone.course_name c, None, None)
     (DbDone.list_courses s).
Proof.
  intros Hc E. unfold DbDone.list_courses.
  apply List.in_flat_map. exists c. split; [now apply order_by_In|].
  rewrite E. now left.
Qed.

(** X11: [assign_instructor] on a course that exists: with an id that no
    instructor has it raises the foreign-key error; with the id of an
    instructor it returns, and [list_courses] then shows the course with
    that instructor's name and e-mail. *)
Theorem assign_instructor_existing_course
    (s : DbDone.store) (c : DbDone.course_row) (instructor_id : Z) :
  Spec.int64 (DbDone.course_id c) -> Spec.int64 instructor_id ->
  In c (DbDone.courses s) ->
  (DbDone.has_instructor s instructor_id = false ->
   DbDone.assign_instructor s (DbDone.course_id c) instructor_id
   = Raise DbDone.fk_failed)
  /\ (forall i, In i (DbDone.instructors s) ->
        DbDone.instructor_id i = instructor_id ->
        exists s',
          DbDone.assign_instructor s (DbDone.course_id c) instructor_id = Ok s'
          /\ In (DbDone.course_id c, DbDone.course_name c,
                 Some (DbDone.i_name i), Some (DbDone.i_email i))
                (DbDone.list_courses s')).
Proof.
  intros Hc Hi Hin.
  assert (Hhas : DbDone.has_course s (DbDone.course_id c) = true).
  { apply (existsb_key_In DbDone.course_id). now apply List.in_map. }
  split.
  - intros Hno. unfold DbDone.assign_instructor. unfold_bind.
    rewrite (proj2 (DbDone_bind_int_ok _ _) (conj eq_refl Hi)).
    rewrite (proj2 (DbDone_bind_int_ok _ _) (conj eq_refl Hc)).
    now rewrite Hhas, Hno.
  - intros i Hi1 Hi2.
    assert (Hhi : DbDone.has_instructor s instructor_id = true).
    { apply (existsb_key_In DbDone.instructor_id). rewrite <- Hi2.
      now apply List.in_map. }
    unfold DbDone.assign_instructor. unfold_bind.
    rewrite (proj2 (DbDone_bind_int_ok _ _) (conj eq_refl Hi)).
    rewrite (proj2 (DbDone_bind_int_ok _ _) (conj eq_refl Hc)).
    rewrite Hhas, Hhi. simpl. eexists. split; [reflexivity|].
    apply (list_courses_In _
             {| DbDone.course_id := DbDone.course_id c;
                DbDone.course_name := DbDone.course_name c;
                DbDone.c_instructor_id := Some instructor_id |} i).
    + simpl. apply List.in_map_iff. exists c. split; [|exact Hin].
      now rewrite Z.eqb_refl.
    + exact Hi1.
    + simpl. now rewrite Hi2.
Qed.

Lemma assign_instructor_existing_course_witness :
  DbDone.assign_instructor Examples.db1 10 5 = Raise DbDone.fk_failed.
Proof.
  apply (proj1 (assign_instructor_existing_course Examples.db1
                  {| DbDone.course_id := 10; DbDone.course_name := "CS101";
                     DbDone.c_instructor_id := None |} 5
                  ltac:(unfold Spec.int64; simpl; lia)
                  ltac:(unfold Spec.int64; lia)
                  (or_introl eq_refl))).
  reflexivity.
Defined.

Lemma In_upsert_row {A} (key : A -> Z) (row : A) (l : list A) :
  In row (if existsb (fun r => (key r =? key row)%Z) l
          then map (fun r => if (key r =? key row)%Z then row else r) l
          else l ++ [row]).
Proof.
  destruct (existsb _ l) eqn:E.
  - now apply In_replace.
  - apply in_or_app. right. now left.
Qed.

Lemma upsert_course_none_listed (s : DbDone.store) (cid : Z) (n : string) :
  Spec.int64 cid ->
  exists s',
    DbDone.upsert_course s cid n None = Ok s'
    /\ In (cid, n, None, None) (DbDone.list_courses s').
Proof.
  intros Hc. unfold DbDone.upsert_course, DbDone.bind_opt_int. unfold_bind.
  rewrite (proj2 (DbDone_bind_int_ok _ _) (conj eq_refl Hc)).
  simpl. eexists. split; [reflexivity|].
  apply (list_courses_In_null _
           {| DbDone.course_id := cid; DbDone.course_name := n;
              DbDone.c_instructor_id := None |}); [|reflexivity].
  simpl. apply (In_upsert_row DbDone.course_id
                  {| DbDone.course_id := cid; DbDone.course_name := n;
                     DbDone.c_instructor_id := None |}).
Qed.

(** X12: [upsert_course] that names an instructor no row has raises the
    foreign-key error; a call that returns has written the course, and
    [list_courses] shows it with the name and e-mail of the instructor
    named, or with NULLs when none is named. *)
Theorem upsert_course_shown
    (s : DbDone.store) (cid : Z) (n : string) (i : option Z) :
  Spec.int64 cid ->
  (forall j, i = Some j -> Spec.int64 j) ->
  match i with
  | Some j =>
      (DbDone.has_instructor s j = false ->
       DbDone.upsert_course s cid n i = Raise DbDone.fk_failed)
      /\ (forall r, In r (DbDone.instructors s) ->
            DbDone.instructor_id r = j ->
            exists s',
              DbDone.upsert_course s cid n i = Ok s'
              /\ In (cid, n, Some (DbDone.i_name r), Some (DbDone.i_email r))
                    (DbDone.list_courses s'))
  | None =>
      exists s',
        DbDone.upsert_course s cid n i = Ok s'
        /\ In (cid, n, None, None) (DbDone.list_courses s')
  end.
Proof.
  intros Hc Hj. destruct i as [j|]; [|now apply upsert_course_none_listed].
  unfold DbDone.upsert_course, DbDone.bind_opt_int. unfold_bind.
  rewrite (proj2 (DbDone_bind_int_ok _ _) (conj eq_refl Hc)).
  - rewrite (proj2 (DbDone_bind_int_ok _ _) (conj eq_refl (Hj j eq_refl))).
    split.
    + now intros ->.
    + intros r Hr E.
      assert (Hh : DbDone.has_instructor s j = true).
      { apply (existsb_key_In DbDone.instructor_id). rewrite <- E.
        now apply List.in_map. }
      rewrite Hh. simpl. eexists. split; [reflexivity|].
      apply (list_courses_In _
               {| DbDone.course_id := cid; DbDone.course_name := n;
                  DbDone.c_instructor_id := Some j |} r).
      * simpl. apply (In_upsert_row DbDone.course_id
                        {| DbDone.course_id := cid; DbDone.course_name := n;
                           DbDone.c_instructor_id := Some j |}).
      * exact Hr.
      * simpl. now rewrite E.
Qed.

Lemma upsert_course_shown_witness :
  DbDone.upsert_course Examples.db1 11 "AI" (Some 5)%Z = Raise DbDone.fk_failed
  /\ exists s',
       DbDone.upsert_course Examples.db1 11 "AI" None = Ok s'
       /\ In (11, "AI", None, None)%Z (DbDone.list_courses s').
Proof.
  split.
  - apply (proj1 (upsert_course_shown Examples.db1 11 "AI" (Some 5)%Z
                    ltac:(unfold Spec.int64; lia)
                    ltac:(intros j [= <-]; unfold Spec.int64; lia))).
    reflexivity.
  - apply (upsert_course_shown Examples.db1 11 "AI" None).
    + unfold Spec.int64. lia.
    + discriminate.
Defined.

Lemma filter_key_at_most_one {A} (key : A -> Z) (k : Z) (l : list A) :
  NoDup (map key l) ->
  List.filter (fun r => (key r =? k)%Z) l = []
  \/ exists r, List.filter (fun r => (key r =? k)%Z) l = [r].
Proof.
  induction l as [|x l IH]; simpl; intros Hnd; [now left|].
  apply NoDup_cons in Hnd as [Hx Hnd]. rewrite list_elem_of_In in Hx.
  destruct (Z.eqb_spec (key x) k) as [E|E]; [|now apply IH].
  right. exists x. f_equal. apply filter_key_absent. congruence.
Qed.

(** X13: with instructor ids unique (as the primary key makes them),
    [list_courses] has exactly one row per course, in course-id order, with
    the course's id and name: the LEFT JOIN drops no course that has no
    instructor and repeats none. *)
Theorem list_courses_one_row_per_course (s : DbDone.store) :
  NoDup (map DbDone.instructor_id (DbDone.instructors s)) ->
  map (fun t => (fst (fst (fst t)), snd (fst (fst t)))) (DbDone.list_courses s)
  = map (fun c => (DbDone.course_id c, DbDone.course_name c))
        (order_by Z.leb DbDone.course_id (DbDone.courses s)).
Proof.
  intros Hnd. unfold DbDone.list_courses.
  induction (order_by Z.leb DbDone.course_id (DbDone.courses s))
    as [|c l IH]; [reflexivity|].
  cbn [flat_map]. rewrite map_app, IH, List.map_cons.
  match goal with |- _ = ?x :: ?r => change (x :: r) with ([x] ++ r) end.
  f_equal.
  destruct (DbDone.c_instructor_id c) as [i|]; [|reflexivity].
  destruct (filter_key_at_most_one DbDone.instructor_id i _ Hnd)
    as [->|[r ->]]; reflexivity.
Qed.

Lemma list_courses_one_row_per_course_witness :
  map (fun t => (fst (fst (fst t)), snd (fst (fst t))))
      (DbDone.list_courses Examples.db2)
  = [(10, "CS101"); (11, "AI"); (12, "Logic")]%Z
  /\ DbDone.list_courses Examples.db2
     = [(10, "CS101", None, None);
        (11, "AI", Some "Kim", Some "kim@x.com");
        (12, "Logic", Some "Kim", Some "kim@x.com")]%Z.
Proof.
  split; [|reflexivity].
  rewrite (list_courses_one_row_per_course Examples.db2).
  - reflexivity.
  - apply NoDup_cons. split.
    + intros [E|[]]%list_elem_of_In. discriminate E.
    + apply NoDup_singleton.
Defined.

Lemma list_enrollments_intro
    (s : DbDone.store) (cid : Z) (rows : list (Z * string * string))
    (r : DbDone.student_row) :
  DbDone.list_enrollments s cid = Ok rows ->
  In (DbDone.student_id r, cid) (DbDone.enrollments s) ->
  In r (DbDone.students s) ->
  In (DbDone.student_id r, DbDone.name r, DbDone.email r) rows.
Proof.
  unfold DbDone.list_enrollments. unfold_bind.
  destruct (DbDone.bind_int cid) as [cid'|] eqn:Ec; [|discriminate].
  apply DbDone_bind_int_ok in Ec as [-> _]. intros [= <-] Hen Hr.
  apply List.in_map_iff. exists r. split; [reflexivity|]. apply order_by_In.
  apply List.in_flat_map. exists (DbDone.student_id r, cid).
  split; [exact Hen|]. simpl.
  rewrite Z.eqb_refl. apply List.filter_In. split; [exact Hr|].
  apply Z.eqb_refl.
Qed.

(** X14: what [list_enrollments] returns for a course is exactly the
    students that have an enrollment row for it, each with its id, name and
    e-mail. *)
Theorem list_enrollments_exact
    (s : DbDone.store) (cid : Z) (rows : list (Z * string * string))
    (i : Z) (n e : string) :
  DbDone.list_enrollments s cid = Ok rows ->
  (In (i, n, e) rows <->
   In (i, cid) (DbDone.enrollments s)
   /\ exists a, In {| DbDone.student_id := i; DbDone.name := n;
                      DbDone.age := a; DbDone.email := e |}
                   (DbDone.students s)).
Proof.
  intros Hl. split.
  - revert Hl. unfold DbDone.list_enrollments. unfold_bind.
    destruct (DbDone.bind_int cid) as [cid'|] eqn:Ec; [|discriminate].
    apply DbDone_bind_int_ok in Ec as [-> _]. intros [= <-].
    rewrite List.in_map_iff.
    intros (r & Er & Hr). apply order_by_In in Hr.
    apply List.in_flat_map in Hr as ([i0 c0] & Hen & Hr). simpl in Hr.
    destruct (Z.eqb_spec c0 cid) as [->|]; [|destruct Hr].
    apply List.filter_In in Hr as [Hr Hid]. apply Z.eqb_eq in Hid.
    injection Er as <- <- <-. split; [now rewrite Hid|].
    exists (DbDone.age r). now destruct r.
  - intros [Hen (a & Hr)].
    exact (list_enrollments_intro s cid rows
             {| DbDone.student_id := i; DbDone.name := n; DbDone.age := a;
                DbDone.email := e |} Hl Hen Hr).
Qed.

Lemma list_enrollments_exact_witness :
  In (1, "Ann", "ann@x.com")%Z [(1, "Ann", "ann@x.com")%Z] <->
  In (1, 10)%Z [(1, 10)%Z]
  /\ exists a, In {| DbDone.student_id := 1; DbDone.name := "Ann";
                     DbDone.age := a; DbDone.email := "ann@x.com" |}
                  (DbDone.students Examples.db1).
Proof.
  apply (list_enrollments_exact
           {| DbDone.students := DbDone.students Examples.db1;
              DbDone.instructors := [];
              DbDone.courses := DbDone.courses Examples.db1;
              DbDone.enrollments := [(1, 10)]%Z |} 10%Z).
  reflexivity.
Defined.

(** X15: after [enroll] returned for a student that has a row,
    [list_enrollments] of the course returns normally and contains the
    student's id, name and e-mail. *)
Theorem enroll_then_listed
    (s s' : DbDone.store) (cid : Z) (r : DbDone.student_row) :
  In r (DbDone.students s) ->
  DbDone.enroll s (DbDone.student_id r) cid = Ok s' ->
  exists rows,
    DbDone.list_enrollments s' cid = Ok rows
    /\ In (DbDone.student_id r, DbDone.name r, DbDone.email r) rows.
Proof.
  intros Hr H.
  destruct (enroll_inv _ _ _ _ H) as (_ & Hc & Hs & _ & _ & He).
  assert (Hl : exists rows, DbDone.list_enrollments s' cid = Ok rows).
  { unfold DbDone.list_enrollments. unfold_bind.
    rewrite (proj2 (DbDone_bind_int_ok _ _) (conj eq_refl Hc)). eauto. }
  destruct Hl as [rows Hl]. exists rows. split; [exact Hl|].
  apply (list_enrollments_intro _ _ _ _ Hl).
  - destruct He as [[Hin ->]|(_ & _ & _ & ->)]; [exact Hin|].
    apply in_or_app. right. now left.
  - now rewrite Hs.
Qed.

Lemma enroll_then_listed_witness :
  exists s' rows,
    DbDone.enroll Examples.db1 1 10 = Ok s'
    /\ DbDone.list_enrollments s' 10 = Ok rows
    /\ In (1, "Ann", "ann@x.com")%Z rows.
Proof.
  eexists.
  destruct (enroll_then_listed Examples.db1 _ 10
              {| DbDone.student_id := 1; DbDone.name := "Ann";
                 DbDone.age := 20; DbDone.email := "ann@x.com" |}
              (or_introl eq_refl) eq_refl) as (rows & H1 & H2).
  exists rows. split; [reflexivity|]. split; [exact H1 | exact H2].
Defined.

(** X16: [enroll] for a pair that is not enrolled and whose student or
    course does not exist raises the foreign-key error: OR IGNORE does not
    cover it. *)
Theorem enroll_missing_raises (s : DbDone.store) (sid cid : Z) :
  Spec.int64 sid -> Spec.int64 cid ->
  ~ In (sid, cid) (DbDone.enrollments s) ->
  DbDone.has_student s sid = false \/ DbDone.has_course s cid = false ->
  DbDone.enroll s sid cid = Raise DbDone.fk_failed.
Proof.
  intros Hs Hc Hno Hmiss. unfold DbDone.enroll. unfold_bind.
  rewrite (proj2 (DbDone_bind_int_ok _ _) (conj eq_refl Hs)).
  rewrite (proj2 (DbDone_bind_int_ok _ _) (conj eq_refl Hc)).
  destruct (DbDone.has_enrollment s sid cid) eqn:He.
  - apply has_enrollment_In in He. contradiction.
  - destruct Hmiss as [->| ->]; [reflexivity|].
    now rewrite andb_false_r.
Qed.

Lemma enroll_missing_raises_witness :
  DbDone.enroll Examples.db1 1 99 = Raise DbDone.fk_failed.
Proof.
  apply enroll_missing_raises.
  - unfold Spec.int64. lia.
  - unfold Spec.int64. lia.
  - intros [].
  - now right.
Defined.

(** ** [app_tk_done.py]: what the forms write *)

Lemma App_strip_idem s : App.strip (App.strip s) = App.strip s.
Proof.
  unfold App.strip. now rewrite list_ascii_of_string_of_list_ascii, strip_idem.
Qed.

Lemma nonempty_two a b :
  AppTk.nonempty [a; b] = true ->
  AppTk.nonempty [a] = true /\ AppTk.nonempty [b] = true.
Proof.
  unfold AppTk.nonempty. simpl. rewrite !andb_true_r.
  now intros [? ?]%andb_prop.
Qed.

Lemma strip_text_ok s :
  AppTk.nonempty [App.strip s] = true -> AppRows.text_ok (App.strip s).
Proof. intros H. split; [exact H | apply App_strip_idem]. Qed.

Lemma is_valid_email_strip_shape s :
  AppTk.is_valid_email (App.strip s) = true ->
  Spec.email_shape (list_ascii_of_string (App.strip s)).
Proof.
  intros H. apply is_valid_email_iff in H. revert H. unfold App.strip.
  now rewrite list_ascii_of_string_of_list_ascii, strip_idem.
Qed.

Lemma In_upsert_cases {A} (key : A -> Z) (row x : A) (l : list A) :
  In x (if existsb (fun r => (key r =? key row)%Z) l
        then map (fun r => if (key r =? key row)%Z then row else r) l
        else l ++ [row]) ->
  x = row \/ (In x l /\ key x <> key row).
Proof.
  destruct (existsb _ l) eqn:E.
  - intros (r & Hr & Hin)%List.in_map_iff.
    destruct (Z.eqb_spec (key r) (key row)); subst; auto.
  - intros [Hin|[<-|[]]]%in_app_or; [|now left].
    right. split; [exact Hin|]. intros Hk.
    apply Bool.not_true_iff_false in E. apply E.
    apply existsb_exists. exists x. split; [exact Hin | now apply Z.eqb_eq].
Qed.

(** What each handler does to the store. *)
Lemma add_student_db a sid n ag e :
  App.db (snd (App.add_student a sid n ag e)) = App.db a
  \/ (AppRows.text_ok (App.strip n)
      /\ Spec.email_shape (list_ascii_of_string (App.strip e))
      /\ DbDone.upsert_student (App.db a) sid (App.strip n) ag (App.strip e)
         = Ok (App.db (snd (App.add_student a sid n ag e)))).
Proof.
  unfold App.add_student.
  destruct (AppTk.nonempty _) eqn:Hn; simpl; [|now left].
  destruct (AppTk.is_valid_email _) eqn:Hv; simpl; [|now left].
  destruct (DbDone.upsert_student _ _ _ _ _) as [d|]; simpl; [|now left].
  right. apply nonempty_two in Hn as [Hn _].
  split; [now apply strip_text_ok|].
  split; [now apply is_valid_email_strip_shape | reflexivity].
Qed.

Lemma add_instructor_db a iid n ag e :
  App.db (snd (App.add_instructor a iid n ag e)) = App.db a
  \/ (AppRows.text_ok (App.strip n)
      /\ Spec.email_shape (list_ascii_of_string (App.strip e))
      /\ DbDone.upsert_instructor (App.db a) iid (App.strip n) ag (App.strip e)
         = Ok (App.db (snd (App.add_instructor a iid n ag e)))).
Proof.
  unfold App.add_instructor.
  destruct (AppTk.nonempty _) eqn:Hn; simpl; [|now left].
  destruct (AppTk.is_valid_email _) eqn:Hv; simpl; [|now left].
  destruct (DbDone.upsert_instructor _ _ _ _ _) as [d|]; simpl; [|now left].
  right. apply nonempty_two in Hn as [Hn _].
  split; [now apply strip_text_ok|].
  split; [now apply is_valid_email_strip_shape | reflexivity].
Qed.

Lemma save_course_db a cid n i :
  App.db (snd (App.save_course a cid n i)) = App.db a
  \/ (AppRows.text_ok (App.strip n)
      /\ DbDone.upsert_course (App.db a) cid (App.strip n)
           (if negb (i =? 0)%Z then Some i else None)
         = Ok (App.db (snd (App.save_course a cid n i)))).
Proof.
  unfold App.save_course.
  destruct (AppTk.nonempty _) eqn:Hn; simpl; [|now left].
  destruct (DbDone.upsert_course _ _ _ _) as [d|]; simpl; [|now left].
  right. split; [now apply strip_text_ok | reflexivity].
Qed.

Lemma assign_instr_db a cid i yes :
  App.db (snd (App.assign_instr a cid i yes)) = App.db a
  \/ DbDone.assign_instructor (App.db a) cid i
     = Ok (App.db (snd (App.assign_instr a cid i yes))).
Proof.
  unfold App.assign_instr.
  destruct (i =? 0)%Z; simpl; [now left|].
  destruct yes; simpl; [|now left].
  destruct (DbDone.assign_instructor _ _ _) as [d|]; simpl; [|now left].
  now right.
Qed.

Lemma show_course_enrollments_db a cid :
  App.db (snd (App.show_course_enrollments a cid)) = App.db a.
Proof.
  unfold App.show_course_enrollments.
  destruct (cid <=? 0)%Z; simpl; [reflexivity|].
  now destruct (DbDone.list_enrollments _ _).
Qed.

Lemma enroll_db a sid cid :
  App.db (snd (App.enroll a sid cid)) = App.db a
  \/ ((0 < sid)%Z /\ (0 < cid)%Z
      /\ DbDone.enroll (App.db a) sid cid
         = Ok (App.db (snd (App.enroll a sid cid)))).
Proof.
  unfold App.enroll.
  destruct (Z.leb_spec sid 0); simpl; [now left|].
  destruct (Z.leb_spec cid 0); simpl; [now left|].
  destruct (DbDone.enroll _ _ _) as [d|]; simpl; [|now left].
  right. rewrite show_course_enrollments_db. simpl. auto.
Qed.

(** X17: in every state the Tk window reaches through its forms, each
    student and instructor row has a name that is stripped and not blank and
    an e-mail of the shape [local@domain.tld] as a whole, and each course
    row a name that is stripped and not blank. *)
Theorem forms_write_valid_rows (a : App.app) :
  App.reachable a -> AppRows.rows_valid (App.db a).
Proof.
  induction 1 as [|a h _ (V1 & V2 & V3) Hh].
  - split; [|split]; simpl; intros; contradiction.
  - destruct Hh as [sid n ag e|iid n ag e|cid n i|cid i yes|sid cid|cid| | |].
    + destruct (add_student_db a sid n ag e) as [->|(Hn & He & H)];
        [exact (conj V1 (conj V2 V3))|].
      pose proof (upsert_student_students _ _ _ _ _ _ H) as Hst.
      destruct (upsert_student_inv _ _ _ _ _ _ H) as (_ & _ & _ & Hi & Hc & _).
      cbv zeta in Hst. unfold AppRows.rows_valid. rewrite Hi, Hc, Hst.
      split; [|now split]. intros r Hr.
      apply (In_upsert_cases DbDone.student_id
               {| DbDone.student_id := sid; DbDone.name := App.strip n;
                  DbDone.age := ag; DbDone.email := App.strip e |}) in Hr
        as [->|[Hr _]]; [now split | now apply V1].
    + destruct (add_instructor_db a iid n ag e) as [->|(Hn & He & H)];
        [exact (conj V1 (conj V2 V3))|].
      destruct (upsert_instructor_inv _ _ _ _ _ _ H)
        as (_ & _ & _ & Hin & Hs & Hc & _).
      cbv zeta in Hin. unfold AppRows.rows_valid. rewrite Hs, Hc, Hin.
      split; [exact V1|]. split; [|exact V3]. intros r Hr.
      apply (In_upsert_cases DbDone.instructor_id
               {| DbDone.instructor_id := iid; DbDone.i_name := App.strip n;
                  DbDone.i_age := ag; DbDone.i_email := App.strip e |}) in Hr
        as [->|[Hr _]]; [now split | now apply V2].
    + destruct (save_course_db a cid n i) as [->|(Hn & H)];
        [exact (conj V1 (conj V2 V3))|].
      destruct (upsert_course_inv _ _ _ _ _ H) as (_ & _ & Hc & Hs & Hi & _).
      cbv zeta in Hc. unfold AppRows.rows_valid. rewrite Hs, Hi, Hc.
      split; [exact V1|]. split; [exact V2|]. intros c Hin.
      apply (In_upsert_cases DbDone.course_id
               {| DbDone.course_id := cid; DbDone.course_name := App.strip n;
                  DbDone.c_instructor_id :=
                    if negb (i =? 0)%Z then Some i else None |}) in Hin
        as [->|[Hin _]]; [exact Hn | now apply V3].
    + destruct (assign_instr_db a cid i yes) as [->|H]; [exact (conj V1 (conj V2 V3))|].
      destruct (assign_instructor_inv _ _ _ _ H)
        as (_ & _ & _ & Hc & Hs & Hi & _).
      unfold AppRows.rows_valid. rewrite Hs, Hi, Hc.
      split; [exact V1|]. split; [exact V2|]. intros c Hin.
      apply List.in_map_iff in Hin as (r & <- & Hr).
      destruct (DbDone.course_id r =? cid)%Z; simpl; now apply V3.
    + destruct (enroll_db a sid cid) as [->|(_ & _ & H)]; [exact (conj V1 (conj V2 V3))|].
      destruct (enroll_inv _ _ _ _ H) as (_ & _ & Hs & Hi & Hc & _).
      unfold AppRows.rows_valid. rewrite Hs, Hi, Hc.
      exact (conj V1 (conj V2 V3)).
    + rewrite show_course_enrollments_db. exact (conj V1 (conj V2 V3)).
    + exact (conj V1 (conj V2 V3)).
    + exact (conj V1 (conj V2 V3)).
    + exact (conj V1 (conj V2 V3)).
Qed.

Lemma forms_write_valid_rows_witness :
  AppRows.rows_valid
    (App.db (snd (App.add_student App.start 1 "  Ann " 20 " ann@x.com "))).
Proof.
  apply forms_write_valid_rows.
  apply (App.reach_handler App.start
           (fun a => App.add_student a 1 "  Ann " 20 " ann@x.com ")).
  - apply App.reach_start.
  - apply App.h_add_student.
Defined.

(** X18: in every state the Tk window reaches through its forms, every
    enrollment row has a student id and a course id greater than 0. *)
Theorem forms_enroll_positive_ids (a : App.app) :
  App.reachable a -> AppRows.enrollments_positive (App.db a).
Proof.
  induction 1 as [|a h _ IH Hh].
  - intros e [].
  - destruct Hh as [sid n ag e|iid n ag e|cid n i|cid i yes|sid cid|cid| | |].
    + destruct (add_student_db a sid n ag e) as [->|(_ & _ & H)]; [exact IH|].
      destruct (upsert_student_inv _ _ _ _ _ _ H) as (_ & _ & _ & _ & _ & He).
      unfold AppRows.enrollments_positive. now rewrite He.
    + destruct (add_instructor_db a iid n ag e) as [->|(_ & _ & H)];
        [exact IH|].
      destruct (upsert_instructor_inv _ _ _ _ _ _ H)
        as (_ & _ & _ & _ & _ & _ & He).
      unfold AppRows.enrollments_positive. now rewrite He.
    + destruct (save_course_db a cid n i) as [->|(_ & H)]; [exact IH|].
      destruct (upsert_course_inv _ _ _ _ _ H) as (_ & _ & _ & _ & _ & He).
      unfold AppRows.enrollments_positive. now rewrite He.
    + destruct (assign_instr_db a cid i yes) as [->|H]; [exact IH|].
      destruct (assign_instructor_inv _ _ _ _ H)
        as (_ & _ & _ & _ & _ & _ & He).
      unfold AppRows.enrollments_positive. now rewrite He.
    + destruct (enroll_db a sid cid) as [->|(Hs & Hc & H)]; [exact IH|].
      destruct (enroll_inv _ _ _ _ H) as (_ & _ & _ & _ & _ & He).
      destruct He as [[_ ->]|(_ & _ & _ & He)]; [exact IH|].
      unfold AppRows.enrollments_positive. rewrite He.
      intros e [Hin|[<-|[]]]%in_app_or; [now apply IH | simpl; auto].
    + now rewrite show_course_enrollments_db.
    + exact IH.
    + exact IH.
    + exact IH.
Qed.

Lemma forms_enroll_positive_ids_witness :
  DbDone.enrollments
    (App.db
       (snd (App.enroll
          (snd (App.save_course
               (snd (App.add_student App.start 1 "Ann" 20 "ann@x.com"))
               10 "CS101" 0))
          1 10)))
  = [(1, 10)]%Z
  /\ AppRows.enrollments_positive
       (App.db
          (snd (App.enroll
          (snd (App.save_course
               (snd (App.add_student App.start 1 "Ann" 20 "ann@x.com"))
               10 "CS101" 0))
          1 10))).
Proof.
  split; [vm_compute; reflexivity|].
  apply forms_enroll_positive_ids.
  apply (App.reach_handler
           (snd (App.save_course
                   (snd (App.add_student App.start 1 "Ann" 20 "ann@x.com"))
                   10 "CS101" 0))
           (fun a => App.enroll a 1 10));
    [|apply App.h_enroll].
  apply (App.reach_handler
           (snd (App.add_student App.start 1 "Ann" 20 "ann@x.com"))
           (fun a => App.save_course a 10 "CS101" 0));
    [|apply App.h_save_course].
  apply (App.reach_handler App.start
           (fun a => App.add_student a 1 "Ann" 20 "ann@x.com"));
    [apply App.reach_start | apply App.h_add_student].
Defined.

Lemma nonempty_strip s :
  AppTk.nonempty [App.strip s] = AppTk.nonempty [s].
Proof.
  unfold AppTk.nonempty, App.strip. simpl.
  now rewrite list_ascii_of_string_of_list_ascii, strip_idem.
Qed.

(** X19: saving a course from the Tk form with the instructor field left at
    0 writes the course without instructor: no message box is shown, the
    courses table on screen gets the row with empty instructor columns, and
    every course row with that id has a NULL instructor (an instructor
    assigned before is gone). *)
Theorem save_course_without_instructor
    (a : App.app) (cid : Z) (cname : string) :
  Spec.int64 cid -> AppTk.nonempty [cname] = true ->
  fst (App.save_course a cid cname 0) = []
  /\ In (cid, App.strip cname, None, None)
        (App.crs_tree (snd (App.save_course a cid cname 0)))
  /\ (forall c,
        In c (DbDone.courses (App.db (snd (App.save_course a cid cname 0)))) ->
        DbDone.course_id c = cid -> DbDone.c_instructor_id c = None).
Proof.
  intros Hc Hn. unfold App.save_course.
  rewrite nonempty_strip, Hn. cbn [negb Z.eqb].
  destruct (upsert_course_none_listed (App.db a) cid (App.strip cname) Hc)
    as (s' & H & Hin).
  rewrite H. cbn [fst snd App.crs_tree App._set_status App.refresh_courses
                  App.with_db App.db].
  split; [reflexivity|]. split; [exact Hin|].
  intros c Hcin Hid.
  destruct (upsert_course_inv _ _ _ _ _ H) as (_ & _ & Hcs & _).
  cbv zeta in Hcs. rewrite Hcs in Hcin.
  apply (In_upsert_cases DbDone.course_id
           {| DbDone.course_id := cid; DbDone.course_name := App.strip cname;
              DbDone.c_instructor_id := None |}) in Hcin
    as [->|[_ Hne]]; [reflexivity | now destruct Hne].
Qed.

Lemma save_course_without_instructor_witness :
  In (10, "Logic", None, None)%Z
     (App.crs_tree
        (snd (App.save_course
                {| App.db := Examples.db1; App._status_var := "Ready";
                   App.stu_tree := []; App.ins_tree := [];
                   App.crs_tree := []; App.enr_tree := [] |}
                10 " Logic " 0))).
Proof.
  apply (save_course_without_instructor
           {| App.db := Examples.db1; App._status_var := "Ready";
              App.stu_tree := []; App.ins_tree := [];
              App.crs_tree := []; App.enr_tree := [] |} 10 " Logic ").
  - unfold Spec.int64. lia.
  - reflexivity.
Defined.

(** ** Tables keyed by a string *)

Section StringKeyed.
Context {A : Type} (key : A -> string).

Lemma has_key_In (k : string) (l : list A) :
  existsb (fun r => String.eqb (key r) k) l = true <-> In k (map key l).
Proof using Type.
  rewrite existsb_exists, List.in_map_iff. split.
  - intros (r & Hr & E). apply String.eqb_eq in E. eauto.
  - intros (r & E & Hr). exists r. split; [exact Hr | now apply String.eqb_eq].
Qed.

Lemma has_key_false (k : string) (l : list A) :
  existsb (fun r => String.eqb (key r) k) l = false <-> ~ In k (map key l).
Proof using Type.
  rewrite <- has_key_In. now destruct (existsb _ l).
Qed.

Lemma map_key_same (f : A -> A) (l : list A) :
  (forall r, key (f r) = key r) -> map key (map f l) = map key l.
Proof using Type.
  intros Hf. rewrite map_map. apply map_ext. exact Hf.
Qed.

Lemma map_key_rename (g : A -> A) (old new : string) (l : list A) :
  (forall r, key (g r) = new) ->
  map key (map (fun r => if String.eqb (key r) old then g r else r) l)
  = map (fun k => if String.eqb k old then new else k) (map key l).
Proof using Type.
  intros Hg. rewrite !map_map. apply map_ext. intros r.
  now destruct (String.eqb (key r) old).
Qed.


Lemma filter_key_none (k : string) (l : list A) :
  existsb (fun r => String.eqb (key r) k) l = false ->
  List.filter (fun r => negb (String.eqb (key r) k)) l = l.
Proof using Type.
  induction l as [|r l IH]; simpl; [reflexivity|].
  destruct (String.eqb (key r) k); simpl; [discriminate|].
  intros H. now rewrite IH.
Qed.

Lemma map_if_none (g : A -> A) (k : string) (l : list A) :
  existsb (fun r => String.eqb (key r) k) l = false ->
  map (fun r => if String.eqb (key r) k then g r else r) l = l.
Proof using Type.
  induction l as [|r l IH]; simpl; [reflexivity|].
  destruct (String.eqb (key r) k); simpl; [discriminate|].
  intros H. now rewrite IH.
Qed.
End StringKeyed.







(** ** [SqliteSchoolDB]: every statement keeps the schema's constraints *)

Section StatementsKeepConsistency.
Import SchoolSqlite.





























End StatementsKeepConsistency.

(** A property of the tables that every statement of a method keeps holds
    of what is committed and of what the connection sees, after the method
    as before, whether it returned or raised. *)
Section ConnInvariant.
Import SchoolSqlite.
Variable P : store -> Prop.

Let Q (c : conn) : Prop := P (view c) /\ P (db c).





End ConnInvariant.







(** ** [SqliteSchoolDB]: deleting, assigning, renaming *)

Lemma sqlite_store_eta (s : SchoolSqlite.store) :
  {| SchoolSqlite.tbl_students := SchoolSqlite.tbl_students s;
     SchoolSqlite.tbl_instructors := SchoolSqlite.tbl_instructors s;
     SchoolSqlite.tbl_courses := SchoolSqlite.tbl_courses s;
     SchoolSqlite.tbl_registrations := SchoolSqlite.tbl_registrations s |} = s.
Proof. now destruct s. Qed.

(** X21: deleting a course that is in the store removes its row and every
    registration row for it, and nothing else: students and instructors
    are as before, and so are the other courses and the registrations for
    other courses. *)
Theorem delete_course_cascades (c : SchoolSqlite.conn) (cid : string) :
  SchoolSqlite.has_course (SchoolSqlite.view c) cid = true ->
  exists c',
    SchoolSqlite.delete_course cid c = (Ok tt, c')
    /\ SchoolSqlite.tx c' = None
    /\ SchoolSqlite.has_course (SchoolSqlite.db c') cid = false
    /\ (forall sid,
          ~ In (sid, cid) (SchoolSqlite.tbl_registrations (SchoolSqlite.db c')))
    /\ SchoolSqlite.tbl_students (SchoolSqlite.db c')
       = SchoolSqlite.tbl_students (SchoolSqlite.view c)
    /\ SchoolSqlite.tbl_instructors (SchoolSqlite.db c')
       = SchoolSqlite.tbl_instructors (SchoolSqlite.view c)
    /\ (forall r, In r (SchoolSqlite.tbl_courses (SchoolSqlite.view c)) ->
          SchoolSqlite.course_id r <> cid ->
          In r (SchoolSqlite.tbl_courses (SchoolSqlite.db c')))
    /\ (forall e, In e (SchoolSqlite.tbl_registrations (SchoolSqlite.view c)) ->
          snd e <> cid ->
          In e (SchoolSqlite.tbl_registrations (SchoolSqlite.db c'))).
Proof.
  intros Hc. eexists. split.
  { unfold SchoolSqlite.delete_course. apply execute_commit_ok.
    unfold SchoolSqlite.delete_courses. rewrite Hc. reflexivity. }
  cbn [SchoolSqlite.db SchoolSqlite.tx SchoolSqlite.tbl_courses
       SchoolSqlite.tbl_students SchoolSqlite.tbl_instructors
       SchoolSqlite.tbl_registrations].
  split_ands; try reflexivity.
  - unfold SchoolSqlite.has_course. cbn [SchoolSqlite.tbl_courses].
    apply Bool.not_true_iff_false. intros H.
    apply existsb_exists in H as (r & Hr & E).
    apply List.filter_In in Hr as [_ Hr]. now rewrite E in Hr.
  - intros sid Hin. apply List.filter_In in Hin as [_ Hin]. simpl in Hin.
    now rewrite String.eqb_refl in Hin.
  - intros r Hr Hne. apply List.filter_In. split; [exact Hr|].
    apply negb_true_iff. now apply String.eqb_neq.
  - intros e He Hne. apply List.filter_In. split; [exact He|].
    apply negb_true_iff. now apply String.eqb_neq.
Qed.

Lemma delete_course_cascades_witness :
  exists c',
    SchoolSqlite.delete_course "c1" Examples.school1 = (Ok tt, c')
    /\ SchoolSqlite.tbl_registrations (SchoolSqlite.db c') = [("s1", "c2")].
Proof.
  destruct (delete_course_cascades Examples.school1 "c1" eq_refl)
    as (c' & H & _).
  exists c'. split; [exact H|].
  cbv in H. injection H as <-. reflexivity.
Defined.

(** X22: deleting a student, an instructor or a course whose id is not in
    the store returns normally and changes no table; it only commits what
    the connection saw. *)
Theorem delete_absent_changes_nothing :
  (forall c sid,
      SchoolSqlite.has_student (SchoolSqlite.view c) sid = false ->
      SchoolSqlite.delete_student sid c
      = (Ok tt, {| SchoolSqlite.db := SchoolSqlite.view c;
                   SchoolSqlite.tx := None |}))
  /\ (forall c iid,
        SchoolSqlite.has_instructor (SchoolSqlite.view c) iid = false ->
        SchoolSqlite.delete_instructor iid c
        = (Ok tt, {| SchoolSqlite.db := SchoolSqlite.view c;
                     SchoolSqlite.tx := None |}))
  /\ (forall c cid,
        SchoolSqlite.has_course (SchoolSqlite.view c) cid = false ->
        SchoolSqlite.delete_course cid c
        = (Ok tt, {| SchoolSqlite.db := SchoolSqlite.view c;
                     SchoolSqlite.tx := None |})).
Proof.
  split; [|split]; intros c k Hno.
  - unfold SchoolSqlite.delete_student. apply execute_commit_ok.
    unfold SchoolSqlite.delete_students. rewrite Hno.
    rewrite (filter_key_none SchoolSqlite.student_id) by exact Hno.
    now rewrite sqlite_store_eta.
  - unfold SchoolSqlite.delete_instructor. apply execute_commit_ok.
    unfold SchoolSqlite.delete_instructors. rewrite Hno.
    rewrite (filter_key_none SchoolSqlite.instructor_id) by exact Hno.
    now rewrite sqlite_store_eta.
  - unfold SchoolSqlite.delete_course. apply execute_commit_ok.
    unfold SchoolSqlite.delete_courses. rewrite Hno.
    rewrite (filter_key_none SchoolSqlite.course_id) by exact Hno.
    now rewrite sqlite_store_eta.
Qed.

Lemma delete_absent_changes_nothing_witness :
  SchoolSqlite.delete_student "s9" Examples.school1 = (Ok tt, Examples.school1).
Proof.
  exact (proj1 delete_absent_changes_nothing Examples.school1 "s9" eq_refl).
Defined.

(** X23: [assign_instructor_to_course] with [None] clears the instructor of
    the course (the way to unassign that [update_course] does not offer);
    with an id that no instructor has, on a course that exists, it raises
    the foreign-key error and changes nothing. *)
Theorem assign_instructor_to_course_none_or_unknown
    (c : SchoolSqlite.conn) (cid : string) :
  (exists c',
      SchoolSqlite.assign_instructor_to_course None cid c = (Ok tt, c')
      /\ SchoolSqlite.tx c' = None
      /\ map SchoolSqlite.course_id (SchoolSqlite.tbl_courses (SchoolSqlite.db c'))
         = map SchoolSqlite.course_id
             (SchoolSqlite.tbl_courses (SchoolSqlite.view c))
      /\ (forall r, In r (SchoolSqlite.tbl_courses (SchoolSqlite.db c')) ->
            SchoolSqlite.course_id r = cid ->
            SchoolSqlite.c_instructor_id r = None))
  /\ (forall iid,
        SchoolSqlite.has_course (SchoolSqlite.view c) cid = true ->
        SchoolSqlite.has_instructor (SchoolSqlite.view c) iid = false ->
        SchoolSqlite.assign_instructor_to_course (Some iid) cid c
        = (Raise SchoolSqlite.fk_failed,
           {| SchoolSqlite.db := SchoolSqlite.db c;
              SchoolSqlite.tx := Some (SchoolSqlite.view c) |})).
Proof.
  split.
  - eexists. split.
    { unfold SchoolSqlite.assign_instructor_to_course.
      apply execute_commit_ok. unfold SchoolSqlite.update_courses_instructor.
      rewrite andb_false_r. reflexivity. }
    cbn [SchoolSqlite.db SchoolSqlite.tx SchoolSqlite.tbl_courses
         SchoolSqlite.with_courses].
    split; [reflexivity|]. split.
    + apply (map_key_same SchoolSqlite.course_id). intros r.
      now destruct (String.eqb _ _).
    + intros r Hr E. apply List.in_map_iff in Hr as (r0 & <- & _).
      destruct (String.eqb_spec (SchoolSqlite.course_id r0) cid) as [|Hne];
        [reflexivity | now destruct Hne].
  - intros iid Hc Hi.
    unfold SchoolSqlite.assign_instructor_to_course, SchoolSqlite.bind,
      SchoolSqlite.execute, SchoolSqlite.update_courses_instructor.
    now rewrite Hc, Hi.
Qed.

Lemma assign_instructor_to_course_none_or_unknown_witness :
  SchoolSqlite.assign_instructor_to_course (Some "i9") "c1" Examples.school1
  = (Raise SchoolSqlite.fk_failed,
     {| SchoolSqlite.db := SchoolSqlite.db Examples.school1;
        SchoolSqlite.tx := Some (SchoolSqlite.view Examples.school1) |}).
Proof.
  apply (proj2 (assign_instructor_to_course_none_or_unknown
                  Examples.school1 "c1") "i9"); reflexivity.
Defined.

(** ** [SqliteSchoolDB]: renaming an instructor that teaches, a course that
    has registrations *)

Section RenameGuard.
Import SchoolSqlite.
Variables (d0 : store) (has ref : store -> bool).

Let J (c : conn) : Prop := db c = d0 /\ has (view c) = true.
Let I (c : conn) : Prop := J c /\ ref (view c) = true.

Lemma execute_keeps_guard stmt :
  (forall s s', stmt s = Ok s' -> ref s' = ref s /\ has s' = has s) ->
  forall c, I c -> I (snd (execute stmt c)).
Proof using Type.
  intros Hstmt c [[Hd Hs] Hr]. unfold execute.
  destruct (stmt (view c)) as [s'|e] eqn:E; simpl.
  - destruct (Hstmt _ _ E) as [H1 H2].
    unfold I, J, view. simpl. now rewrite H1, H2.
  - unfold I, J, view. simpl. auto.
Qed.

Lemma when_given_keeps_guard {A} (x : option A)
    (stmt : A -> store -> result store) :
  (forall a s s', stmt a s = Ok s' -> ref s' = ref s /\ has s' = has s) ->
  forall c, I c -> I (snd (when_given x (fun v => execute (stmt v)) c)).
Proof using Type.
  intros Hstmt c Hc. destruct x as [a|]; simpl; [|exact Hc].
  apply execute_keeps_guard; [apply Hstmt | exact Hc].
Qed.

Lemma bind_raises_guard {A B} (m : M A) (k : A -> M B) :
  (forall c, I c -> I (snd (m c))) ->
  (forall a c, I c -> exists e, fst (k a c) = Raise e /\ J (snd (k a c))) ->
  forall c, I c ->
    exists e, fst (bind m k c) = Raise e /\ J (snd (bind m k c)).
Proof using Type.
  intros Hm Hk c Hc. unfold bind. specialize (Hm c Hc).
  destruct (m c) as [[a|e] c']; simpl in *.
  - now apply Hk.
  - exists e. split; [reflexivity | apply Hm].
Qed.
End RenameGuard.

Lemma has_instructor_map
    (f : SchoolSqlite.instructor_row -> SchoolSqlite.instructor_row) s k :
  (forall r, SchoolSqlite.instructor_id (f r) = SchoolSqlite.instructor_id r) ->
  SchoolSqlite.has_instructor
    (SchoolSqlite.with_instructors s (map f (SchoolSqlite.tbl_instructors s))) k
  = SchoolSqlite.has_instructor s k.
Proof.
  intros Hf. unfold SchoolSqlite.has_instructor. simpl.
  induction (SchoolSqlite.tbl_instructors s) as [|r l IH]; simpl; [reflexivity|].
  now rewrite Hf, IH.
Qed.

Lemma has_course_map
    (f : SchoolSqlite.course_row -> SchoolSqlite.course_row) s k :
  (forall r, SchoolSqlite.course_id (f r) = SchoolSqlite.course_id r) ->
  SchoolSqlite.has_course
    (SchoolSqlite.with_courses s (map f (SchoolSqlite.tbl_courses s))) k
  = SchoolSqlite.has_course s k.
Proof.
  intros Hf. unfold SchoolSqlite.has_course. simpl.
  induction (SchoolSqlite.tbl_courses s) as [|r l IH]; simpl; [reflexivity|].
  now rewrite Hf, IH.
Qed.

Section RenameTeaching.
Import SchoolSqlite.
Variables (d0 : store) (iid new : string).
Hypothesis new_differs : new <> iid.

Let has (s : store) : bool := has_instructor s iid.
Let ref (s : store) : bool := existsb (teaches iid) (tbl_courses s).
Let J (c : conn) : Prop := db c = d0 /\ has (view c) = true.
Let I (c : conn) : Prop := J c /\ ref (view c) = true.

Lemma rename_instructor_statements_raise c :
  I c ->
  exists e,
    fst (bind (execute (update_courses_instructor_id new iid))
              (fun _ => execute (update_instructors_instructor_id new iid)) c)
    = Raise e
    /\ J (snd (bind (execute (update_courses_instructor_id new iid))
                    (fun _ => execute (update_instructors_instructor_id new iid))
                    c)).
Proof using new_differs.
  intros [[Hd Hs] Hr]. unfold has in Hs. unfold ref in Hr.
  unfold bind, execute.
  destruct (update_courses_instructor_id new iid (view c))
    as [s1|e] eqn:E1; simpl.
  2:{ exists e. split; [reflexivity|]. split; [exact Hd|exact Hs]. }
  unfold update_courses_instructor_id in E1.
  rewrite Hr in E1. simpl in E1.
  destruct (has_instructor (view c) new) eqn:Hn; [|discriminate].
  injection E1 as <-.
  rewrite !view_open.
  unfold update_instructors_instructor_id.
  change (has_instructor (with_courses (view c) _) iid)
    with (has_instructor (view c) iid).
  change (has_instructor (with_courses (view c) _) new)
    with (has_instructor (view c) new).
  rewrite Hs, Hn.
  destruct (String.eqb_spec new iid) as [E|_]; [contradiction|]. simpl.
  eexists. split; [reflexivity|]. split; [exact Hd | exact Hs].
Qed.

Lemma update_instructor_rename_raises name age email c :
  I c ->
  exists e,
    fst (update_instructor iid name age email (Some new) c) = Raise e
    /\ J (snd (update_instructor iid name age email (Some new) c)).
Proof using new_differs.
  revert c. unfold update_instructor.
  apply (bind_raises_guard d0 has ref); [|intros _].
  { apply (when_given_keeps_guard d0 has ref). intros v s s' [= <-].
    split; [reflexivity|].
    apply has_instructor_map. intros r. now destruct (String.eqb _ _). }
  apply (bind_raises_guard d0 has ref); [|intros _].
  { apply (when_given_keeps_guard d0 has ref). intros v s s'.
    unfold update_instructors_age. unfold_bind.
    destruct (bind_int v); [|discriminate]. intros [= <-].
    split; [reflexivity|].
    apply has_instructor_map. intros r. now destruct (String.eqb _ _). }
  apply (bind_raises_guard d0 has ref); [|intros _].
  { apply (when_given_keeps_guard d0 has ref). intros v s s' [= <-].
    split; [reflexivity|].
    apply has_instructor_map. intros r. now destruct (String.eqb _ _). }
  intros c1 Hc1. cbn [when_given].
  destruct (String.eqb_spec new iid) as [E|_]; [contradiction|].
  cbn [negb].
  destruct (rename_instructor_statements_raise c1 Hc1) as (e & He & HJ).
  rewrite (bind_raise _ (fun _ => commit) _ _ He).
  exists e. split; [reflexivity | exact HJ].
Qed.
End RenameTeaching.

Section RenameRegistered.
Import SchoolSqlite.
Variables (d0 : store) (cid new : string).
Hypothesis new_differs : new <> cid.

Let has (s : store) : bool := has_course s cid.
Let ref (s : store) : bool :=
  existsb (fun e => String.eqb (snd e) cid) (tbl_registrations s).
Let J (c : conn) : Prop := db c = d0 /\ has (view c) = true.
Let I (c : conn) : Prop := J c /\ ref (view c) = true.

Lemma rename_course_statements_raise c :
  I c ->
  exists e,
    fst (bind (execute (update_registrations_course_id new cid))
              (fun _ => execute (update_courses_course_id new cid)) c)
    = Raise e
    /\ J (snd (bind (execute (update_registrations_course_id new cid))
                    (fun _ => execute (update_courses_course_id new cid))
                    c)).
Proof using new_differs.
  intros [[Hd Hs] Hr]. unfold has in Hs. unfold ref in Hr.
  unfold bind, execute.
  destruct (update_registrations_course_id new cid (view c))
    as [s1|e] eqn:E1; simpl.
  2:{ exists e. split; [reflexivity|]. split; [exact Hd|exact Hs]. }
  unfold update_registrations_course_id in E1.
  destruct (existsb _ _) in E1; [discriminate|].
  rewrite Hr in E1. simpl in E1.
  destruct (has_course (view c) new) eqn:Hn; [|discriminate].
  injection E1 as <-.
  rewrite !view_open.
  unfold update_courses_course_id.
  change (has_course (with_registrations (view c) _) cid)
    with (has_course (view c) cid).
  change (has_course (with_registrations (view c) _) new)
    with (has_course (view c) new).
  rewrite Hs, Hn.
  destruct (String.eqb_spec new cid) as [E|_]; [contradiction|]. simpl.
  eexists. split; [reflexivity|]. split; [exact Hd | exact Hs].
Qed.

Lemma update_course_rename_raises name instr c :
  I c ->
  exists e,
    fst (update_course cid name instr (Some new) c) = Raise e
    /\ J (snd (update_course cid name instr (Some new) c)).
Proof using new_differs.
  revert c. unfold update_course.
  apply (bind_raises_guard d0 has ref); [|intros _].
  { apply (when_given_keeps_guard d0 has ref). intros v s s' [= <-].
    split; [reflexivity|].
    apply has_course_map. intros r. now destruct (String.eqb _ _). }
  apply (bind_raises_guard d0 has ref); [|intros _].
  { apply (when_given_keeps_guard d0 has ref
             instr (fun v => update_courses_instructor (Some v) cid)).
    intros v s s'. unfold update_courses_instructor.
    destruct (_ && _); [discriminate|]. intros [= <-].
    split; [reflexivity|].
    apply has_course_map. intros r. now destruct (String.eqb _ _). }
  intros c1 Hc1. cbn [when_given].
  destruct (String.eqb_spec new cid) as [E|_]; [contradiction|].
  cbn [negb].
  destruct (rename_course_statements_raise c1 Hc1) as (e & He & HJ).
  rewrite (bind_raise _ (fun _ => commit) _ _ He).
  exists e. split; [reflexivity | exact HJ].
Qed.
End RenameRegistered.

Lemma raises_with_state {A} (m : SchoolSqlite.M A) (c : SchoolSqlite.conn)
    (P : SchoolSqlite.conn -> Prop) :
  (exists e, fst (m c) = Raise e /\ P (snd (m c))) ->
  exists e c', m c = (Raise e, c') /\ P c'.
Proof.
  intros (e & He & HP). destruct (m c) as [r c']. simpl in *. subst r. eauto.
Qed.

(** X24: renaming an instructor that teaches a course never goes through:
    whatever the new id and the other fields given, [update_instructor]
    raises, nothing is committed and the instructor keeps its old id.  (The
    UPDATE of [courses] needs the new id to exist already, and then the
    UPDATE of [instructors] collides with it.) *)
Theorem update_instructor_rename_teaching_raises
    (c : SchoolSqlite.conn) (iid new_id : string) (r : SchoolSqlite.course_row)
    (name : option string) (age : option Z) (email : option string) :
  SchoolSqlite.has_instructor (SchoolSqlite.view c) iid = true ->
  In r (SchoolSqlite.tbl_courses (SchoolSqlite.view c)) ->
  SchoolSqlite.c_instructor_id r = Some iid ->
  new_id <> iid ->
  exists e c',
    SchoolSqlite.update_instructor iid name age email (Some new_id) c
    = (Raise e, c')
    /\ SchoolSqlite.db c' = SchoolSqlite.db c
    /\ SchoolSqlite.has_instructor (SchoolSqlite.view c') iid = true.
Proof.
  intros Hs Hin Hr Hne.
  apply (raises_with_state _ c
           (fun c' => SchoolSqlite.db c' = SchoolSqlite.db c
                      /\ SchoolSqlite.has_instructor (SchoolSqlite.view c') iid
                         = true)).
  apply (update_instructor_rename_raises (SchoolSqlite.db c) iid new_id Hne
           name age email c).
  split; [split; [reflexivity | exact Hs]|].
  apply existsb_exists. exists r. split; [exact Hin|].
  unfold SchoolSqlite.teaches. rewrite Hr. apply String.eqb_refl.
Qed.

Lemma update_instructor_rename_teaching_raises_witness :
  exists e c',
    SchoolSqlite.update_instructor "i5" None None None (Some "i6")
      Examples.school1 = (Raise e, c')
    /\ SchoolSqlite.db c' = SchoolSqlite.db Examples.school1
    /\ SchoolSqlite.has_instructor (SchoolSqlite.view c') "i5" = true.
Proof.
  apply (update_instructor_rename_teaching_raises
           Examples.school1 "i5" "i6"
           {| SchoolSqlite.course_id := "c1";
              SchoolSqlite.course_name := "CS101";
              SchoolSqlite.c_instructor_id := Some "i5" |}).
  - reflexivity.
  - simpl. now left.
  - reflexivity.
  - discriminate.
Defined.

(** X25: renaming a course that has a registration never goes through:
    whatever the new id, the name and the instructor given,
    [update_course] raises, nothing is committed and the course keeps its
    old id. *)
Theorem update_course_rename_registered_raises
    (c : SchoolSqlite.conn) (cid new_id sid : string)
    (name instr : option string) :
  SchoolSqlite.has_course (SchoolSqlite.view c) cid = true ->
  In (sid, cid) (SchoolSqlite.tbl_registrations (SchoolSqlite.view c)) ->
  new_id <> cid ->
  exists e c',
    SchoolSqlite.update_course cid name instr (Some new_id) c = (Raise e, c')
    /\ SchoolSqlite.db c' = SchoolSqlite.db c
    /\ SchoolSqlite.has_course (SchoolSqlite.view c') cid = true.
Proof.
  intros Hs Hin Hne.
  apply (raises_with_state _ c
           (fun c' => SchoolSqlite.db c' = SchoolSqlite.db c
                      /\ SchoolSqlite.has_course (SchoolSqlite.view c') cid
                         = true)).
  apply (update_course_rename_raises (SchoolSqlite.db c) cid new_id Hne
           name instr c).
  split; [split; [reflexivity | exact Hs]|].
  apply existsb_exists. exists (sid, cid).
  split; [exact Hin | apply String.eqb_refl].
Qed.

Lemma update_course_rename_registered_raises_witness :
  exists e c',
    SchoolSqlite.update_course "c1" (Some "Logic") None (Some "c9")
      Examples.school1 = (Raise e, c')
    /\ SchoolSqlite.db c' = SchoolSqlite.db Examples.school1
    /\ SchoolSqlite.has_course (SchoolSqlite.view c') "c1" = true.
Proof.
  apply (update_course_rename_registered_raises
           Examples.school1 "c1" "c9" "s1").
  - reflexivity.
  - simpl. now left.
  - discriminate.
Defined.

(** ** [SqliteSchoolDB]: a rename that goes through *)

Lemma bind_succeeds {A B} (P Q R : SchoolSqlite.conn -> Prop)
    (m : SchoolSqlite.M A) (k : A -> SchoolSqlite.M B) :
  (forall c, P c -> exists a c', m c = (Ok a, c') /\ Q c') ->
  (forall a c, Q c -> exists b c', k a c = (Ok b, c') /\ R c') ->
  forall c, P c -> exists b c', SchoolSqlite.bind m k c = (Ok b, c') /\ R c'.
Proof.
  intros Hm Hk c Hc. unfold SchoolSqlite.bind.
  destruct (Hm c Hc) as (a & c1 & -> & Hq). now apply Hk.
Qed.

Lemma execute_succeeds (P Q : SchoolSqlite.store -> Prop) stmt :
  (forall s, P s -> exists s', stmt s = Ok s' /\ Q s') ->
  forall c, P (SchoolSqlite.view c) ->
    exists u c', SchoolSqlite.execute stmt c = (Ok u, c')
                 /\ Q (SchoolSqlite.view c').
Proof.
  intros Hstmt c Hc. unfold SchoolSqlite.execute.
  destruct (Hstmt _ Hc) as (s' & -> & Hq). eauto.
Qed.

Lemma when_given_succeeds {A} (P : SchoolSqlite.store -> Prop)
    (x : option A) (stmt : A -> SchoolSqlite.store -> result SchoolSqlite.store) :
  (forall a s, x = Some a -> P s -> exists s', stmt a s = Ok s' /\ P s') ->
  forall c, P (SchoolSqlite.view c) ->
    exists u c',
      SchoolSqlite.when_given x (fun v => SchoolSqlite.execute (stmt v)) c
      = (Ok u, c')
      /\ P (SchoolSqlite.view c').
Proof.
  intros Hstmt c Hc. destruct x as [a|]; simpl.
  - apply (execute_succeeds P P); [|exact Hc]. intros s. now apply Hstmt.
  - exists tt, c. now split.
Qed.

Lemma has_student_renamed s old new :
  SchoolSqlite.has_student s old = true -> new <> old ->
  let s' := SchoolSqlite.with_students s
              (map (fun r => if String.eqb (SchoolSqlite.student_id r) old
                             then {| SchoolSqlite.student_id := new;
                                     SchoolSqlite.name := SchoolSqlite.name r;
                                     SchoolSqlite.age := SchoolSqlite.age r;
                                     SchoolSqlite.email := SchoolSqlite.email r |}
                             else r) (SchoolSqlite.tbl_students s)) in
  SchoolSqlite.has_student s' new = true
  /\ SchoolSqlite.has_student s' old = false.
Proof.
  intros Hold Hne s'. unfold s', SchoolSqlite.has_student in *.
  cbn [SchoolSqlite.tbl_students SchoolSqlite.with_students].
  rewrite has_key_In in Hold. rewrite has_key_In, has_key_false.
  rewrite (map_key_rename SchoolSqlite.student_id _ old new)
    by reflexivity.
  split.
  - apply List.in_map_iff. exists old. split; [|exact Hold].
    now rewrite String.eqb_refl.
  - intros Hin. apply List.in_map_iff in Hin as (k & Hk & _).
    destruct (String.eqb_spec k old); congruence.
Qed.

(** X26: a student that no registration names can be renamed to an id that
    no student has: [update_student] returns and commits, the new id is in
    [students] and the old one is not, and the other three tables are as
    they were.  (The age, when one is given, must fit SQLite's integer.) *)
Theorem update_student_rename_unreferenced
    (c : SchoolSqlite.conn) (sid new_id : string)
    (name : option string) (age : option Z) (email : option string) :
  SchoolSqlite.has_student (SchoolSqlite.view c) sid = true ->
  SchoolSqlite.has_student (SchoolSqlite.view c) new_id = false ->
  (forall cid,
      ~ In (sid, cid) (SchoolSqlite.tbl_registrations (SchoolSqlite.view c))) ->
  (forall a, age = Some a -> Spec.int64 a) ->
  exists c',
    SchoolSqlite.update_student sid name age email (Some new_id) c = (Ok tt, c')
    /\ SchoolSqlite.tx c' = None
    /\ SchoolSqlite.has_student (SchoolSqlite.db c') new_id = true
    /\ SchoolSqlite.has_student (SchoolSqlite.db c') sid = false
    /\ SchoolSqlite.tbl_registrations (SchoolSqlite.db c')
       = SchoolSqlite.tbl_registrations (SchoolSqlite.view c)
    /\ SchoolSqlite.tbl_instructors (SchoolSqlite.db c')
       = SchoolSqlite.tbl_instructors (SchoolSqlite.view c)
    /\ SchoolSqlite.tbl_courses (SchoolSqlite.db c')
       = SchoolSqlite.tbl_courses (SchoolSqlite.view c).
Proof.
  intros Hs Hn Hfree Hage.
  assert (Hne : new_id <> sid) by (intros ->; congruence).
  assert (Hnohit :
            existsb (fun e => String.eqb (fst e) sid)
              (SchoolSqlite.tbl_registrations (SchoolSqlite.view c)) = false).
  { apply Bool.not_true_iff_false. intros H.
    apply existsb_exists in H as ([s0 c0] & Hin & E). simpl in E.
    apply String.eqb_eq in E. subst s0. exact (Hfree c0 Hin). }
  clear Hfree.
  remember (SchoolSqlite.tbl_registrations (SchoolSqlite.view c)) as R0 eqn:ER.
  remember (SchoolSqlite.tbl_instructors (SchoolSqlite.view c)) as I0 eqn:EI.
  remember (SchoolSqlite.tbl_courses (SchoolSqlite.view c)) as C0 eqn:EC.
  set (rest := fun s : SchoolSqlite.store =>
                 SchoolSqlite.tbl_registrations s = R0
                 /\ SchoolSqlite.tbl_instructors s = I0
                 /\ SchoolSqlite.tbl_courses s = C0).
  set (P := fun s : SchoolSqlite.store =>
              SchoolSqlite.has_student s sid = true
              /\ SchoolSqlite.has_student s new_id = false
              /\ rest s).
  set (Q := fun s : SchoolSqlite.store =>
              SchoolSqlite.has_student s new_id = true
              /\ SchoolSqlite.has_student s sid = false
              /\ rest s).
  assert (Hfield : forall f s,
             (forall r, SchoolSqlite.student_id (f r) = SchoolSqlite.student_id r) ->
             P s ->
             P (SchoolSqlite.with_students s
                  (map f (SchoolSqlite.tbl_students s)))).
  { intros f s Hf (H1 & H2 & H3). unfold P.
    rewrite !has_student_map by exact Hf. now split_ands. }
  enough (H : exists u c',
             SchoolSqlite.update_student sid name age email (Some new_id) c
             = (Ok u, c')
             /\ (SchoolSqlite.tx c' = None /\ Q (SchoolSqlite.db c'))).
  { destruct H as ([] & c' & E & Htx & H1 & H2 & H3 & H4 & H5).
    exists c'. now split_ands. }
  assert (HP : P (SchoolSqlite.view c)) by (unfold P, rest; now split_ands).
  clear Hs Hn ER EI EC. revert c HP. unfold SchoolSqlite.update_student.
  apply (bind_succeeds (fun c => P (SchoolSqlite.view c))
           (fun c => P (SchoolSqlite.view c))).
  { apply (when_given_succeeds P). intros v s _ HPs. eexists.
    split; [reflexivity|]. apply Hfield; [|exact HPs].
    intros r. now destruct (String.eqb _ _). }
  intros _.
  apply (bind_succeeds (fun c => P (SchoolSqlite.view c))
           (fun c => P (SchoolSqlite.view c))).
  { apply (when_given_succeeds P). intros v s Ev HPs.
    unfold SchoolSqlite.update_students_age, SchoolSqlite.bind_int.
    unfold_bind.
    destruct (Hage v Ev) as [Hlo Hhi].
    replace ((- 2 ^ 63 <=? v)%Z) with true by (symmetry; apply Z.leb_le; lia).
    replace ((v <? 2 ^ 63)%Z) with true by (symmetry; apply Z.ltb_lt; lia).
    cbn [andb]. eexists.
    split; [reflexivity|]. apply Hfield; [|exact HPs].
    intros r. now destruct (String.eqb _ _). }
  intros _.
  apply (bind_succeeds (fun c => P (SchoolSqlite.view c))
           (fun c => P (SchoolSqlite.view c))).
  { apply (when_given_succeeds P). intros v s _ HPs. eexists.
    split; [reflexivity|]. apply Hfield; [|exact HPs].
    intros r. now destruct (String.eqb _ _). }
  intros _.
  apply (bind_succeeds (fun c => P (SchoolSqlite.view c))
           (fun c => Q (SchoolSqlite.view c))).
  { intros c1 HP1. cbn [SchoolSqlite.when_given].
    destruct (String.eqb_spec new_id sid) as [E|_]; [contradiction|].
    cbn [negb]. revert c1 HP1.
    apply (bind_succeeds (fun c => P (SchoolSqlite.view c))
             (fun c => P (SchoolSqlite.view c))).
    - apply (execute_succeeds P P). intros s (H1 & H2 & H3 & H4).
      unfold SchoolSqlite.update_registrations_student_id.
      assert (Hno : existsb (fun e => String.eqb (fst e) sid)
                      (SchoolSqlite.tbl_registrations s) = false)
        by now rewrite H3.
      assert (Hno' : existsb
                (fun e => String.eqb (fst e) sid
                          && negb (String.eqb new_id sid)
                          && SchoolSqlite.has_registration s new_id (snd e))
                (SchoolSqlite.tbl_registrations s) = false).
      { apply Bool.not_true_iff_false. intros H.
        apply existsb_exists in H as (e & He & E).
        apply andb_true_iff in E as [E _]. apply andb_true_iff in E as [E _].
        apply Bool.not_true_iff_false in Hno. apply Hno.
        apply existsb_exists. eauto. }
      rewrite Hno', Hno. cbn [andb]. eexists. split; [reflexivity|].
      rewrite (map_if_none fst (fun e => (new_id, snd e)) sid _ Hno).
      unfold SchoolSqlite.with_registrations. rewrite sqlite_store_eta.
      unfold P, rest. now split_ands.
    - intros _. apply (execute_succeeds P Q). intros s (H1 & H2 & H3 & H4).
      unfold SchoolSqlite.update_students_student_id.
      rewrite H1, H2, H3, Hnohit.
      destruct (String.eqb_spec new_id sid) as [E|_]; [contradiction|].
      cbn [negb andb]. eexists. split; [reflexivity|].
      destruct (has_student_renamed s sid new_id H1 Hne) as [Ha Hb].
      unfold Q. split; [exact Ha|]. split; [exact Hb|].
      unfold rest. now split_ands. }
  intros _ c1 HQ. exists tt. eexists. split; [reflexivity|].
  split; [reflexivity | exact HQ].
Qed.

Lemma update_student_rename_unreferenced_witness :
  exists c',
    SchoolSqlite.update_student "2" (Some "Amy B") None None (Some "7")
      Examples.school2 = (Ok tt, c')
    /\ SchoolSqlite.has_student (SchoolSqlite.db c') "7" = true
    /\ SchoolSqlite.has_student (SchoolSqlite.db c') "2" = false.
Proof.
  destruct (update_student_rename_unreferenced Examples.school2 "2" "7"
              (Some "Amy B") None None eq_refl eq_refl)
    as (c' & H & _ & H1 & H2 & _).
  - intros cid [].
  - discriminate.
  - exists c'. split; [exact H|]. split; [exact H1 | exact H2].
Defined.

(** ** [SqliteSchoolDB]: what the [students] and [instructors] properties
    build *)

Lemma group_by_key_lookup (pairs : list (string * string)) (k : string) :
  default [] (SchoolSqlite.group_by_key pairs !! k)
  = map snd (List.filter (fun kv => String.eqb (fst kv) k) pairs).
Proof.
  unfold SchoolSqlite.group_by_key.
  induction pairs as [|kv pairs IH] using rev_ind.
  - simpl. now rewrite lookup_empty.
  - rewrite foldl_app, List.filter_app, map_app. cbn [foldl List.filter].
    destruct (String.eqb_spec (fst kv) k) as [E|E].
    + rewrite E, lookup_insert_eq. cbn [default map]. now rewrite IH.
    + rewrite lookup_insert_ne by exact E. rewrite IH.
      cbn [map]. now rewrite app_nil_r.
Qed.

Lemma taught_pairs_of (s : SchoolSqlite.store) (iid : string) :
  map snd (List.filter (fun kv => String.eqb (fst kv) iid)
             (SchoolSqlite.taught_pairs s))
  = map SchoolSqlite.course_id
      (List.filter (SchoolSqlite.teaches iid) (SchoolSqlite.tbl_courses s)).
Proof.
  unfold SchoolSqlite.taught_pairs.
  induction (SchoolSqlite.tbl_courses s) as [|c l IH]; [reflexivity|].
  cbn [flat_map List.filter]. rewrite List.filter_app, map_app, IH.
  unfold SchoolSqlite.teaches at 2.
  destruct (SchoolSqlite.c_instructor_id c) as [i|]; [|reflexivity].
  cbn [List.filter fst]. now destruct (String.eqb i iid).
Qed.

Lemma rmap_Forall2 {A B} (f : A -> result B) (R : A -> B -> Prop) :
  (forall x y, f x = Ok y -> R x y) ->
  forall l l', rmap f l = Ok l' -> Forall2 R l l'.
Proof.
  intros Hf. induction l as [|x l IH]; simpl; intros l'.
  - intros [= <-]. constructor.
  - unfold_bind. destruct (f x) as [y|] eqn:Ex; [|discriminate].
    destruct (rmap f l) as [ys|]; [|discriminate].
    intros [= <-]. constructor; [now apply Hf | now apply IH].
Qed.

Lemma Forall2_In_left {A B} (R : A -> B -> Prop) l l' x :
  Forall2 R l l' -> In x l -> exists y, In y l' /\ R x y.
Proof.
  induction 1 as [|a b l l' Hab _ IH]; intros Hin; [destruct Hin|].
  destruct Hin as [->|Hin].
  - exists b. split; [now left | exact Hab].
  - destruct (IH Hin) as (y & Hy & HR). exists y. split; [now right | exact HR].
Qed.

Lemma rmap_is_ok {A B} (f : A -> result B) (l : list A) :
  is_ok (rmap f l) = forallb (fun x => is_ok (f x)) l.
Proof.
  induction l as [|x l IH]; [reflexivity|].
  cbn [rmap forallb]. unfold_bind. rewrite <- IH.
  destruct (f x); [|reflexivity]. now destruct (rmap f l).
Qed.

Lemma Person_init_fields n a e p :
  School.Person_init n a e = Ok p ->
  p = {| School.name := n; School.age := a; School._email := e |}.
Proof.
  unfold School.Person_init. unfold_bind.
  destruct (School.validate_email e); [|discriminate].
  destruct (School.validate_age a); [|discriminate].
  now intros [= <-].
Qed.

Lemma Person_init_is_ok n a e :
  is_ok (School.Person_init n a e)
  = is_ok (School.validate_email e) && (0 <=? a)%Z.
Proof.
  unfold School.Person_init, School.validate_age. unfold_bind.
  destruct (School.validate_email e); [|reflexivity]. simpl.
  destruct (Z.ltb_spec a 0), (Z.leb_spec 0 a); try reflexivity; lia.
Qed.

Lemma students_rows (c : SchoolSqlite.conn) (l : list School.Student) :
  SchoolSqlite.students c = Ok l ->
  Forall2 (Hydrated.student_of_row (SchoolSqlite.tbl_registrations (SchoolSqlite.view c)))
    (order_by String.leb SchoolSqlite.name
       (SchoolSqlite.tbl_students (SchoolSqlite.view c)))
    l.
Proof.
  unfold SchoolSqlite.students. apply rmap_Forall2. intros r st.
  unfold School.Student_init. unfold_bind.
  destruct (School.Person_init _ _ _) as [p|] eqn:Ep; [|discriminate].
  apply Person_init_fields in Ep. intros [= <-]. unfold Hydrated.student_of_row.
  cbn [School.student_id School.student_person School.registered_courses].
  split; [reflexivity|]. split; [exact Ep|]. apply group_by_key_lookup.
Qed.

Lemma instructors_rows (c : SchoolSqlite.conn) (l : list School.Instructor) :
  SchoolSqlite.instructors c = Ok l ->
  Forall2 (Hydrated.instructor_of_row (SchoolSqlite.tbl_courses (SchoolSqlite.view c)))
    (order_by String.leb SchoolSqlite.i_name
       (SchoolSqlite.tbl_instructors (SchoolSqlite.view c)))
    l.
Proof.
  unfold SchoolSqlite.instructors. apply rmap_Forall2. intros r i.
  unfold School.Instructor_init. unfold_bind.
  destruct (School.Person_init _ _ _) as [p|] eqn:Ep; [|discriminate].
  apply Person_init_fields in Ep. intros [= <-]. unfold Hydrated.instructor_of_row.
  cbn [School.instructor_id School.instructor_person School.assigned_courses].
  split; [reflexivity|]. split; [exact Ep|].
  rewrite group_by_key_lookup. apply taught_pairs_of.
Qed.

(** X27: when the [students] property returns, it returns one [Student] per
    row of the students table, in the order of the names, with the row's
    id, name, age and e-mail, and with [registered_courses] the course ids
    of that student's registration rows, in the order they were stored.
    Likewise [instructors]: one [Instructor] per row, with
    [assigned_courses] the ids of the courses that name it. *)
Theorem students_instructors_built_from_rows (c : SchoolSqlite.conn) :
  (forall l, SchoolSqlite.students c = Ok l ->
     Forall2
       (Hydrated.student_of_row (SchoolSqlite.tbl_registrations (SchoolSqlite.view c)))
       (order_by String.leb SchoolSqlite.name
          (SchoolSqlite.tbl_students (SchoolSqlite.view c)))
       l)
  /\ (forall l, SchoolSqlite.instructors c = Ok l ->
        Forall2
          (Hydrated.instructor_of_row (SchoolSqlite.tbl_courses (SchoolSqlite.view c)))
          (order_by String.leb SchoolSqlite.i_name
             (SchoolSqlite.tbl_instructors (SchoolSqlite.view c)))
          l).
Proof.
  split; intros l H; [now apply students_rows | now apply instructors_rows].
Qed.

Lemma students_instructors_built_from_rows_witness :
  Forall2
    (Hydrated.student_of_row
       (SchoolSqlite.tbl_registrations (SchoolSqlite.view Examples.school1)))
    (SchoolSqlite.tbl_students (SchoolSqlite.view Examples.school1))
    [Examples.ann].
Proof.
  apply (proj1 (students_instructors_built_from_rows Examples.school1)
           [Examples.ann]).
  vm_compute. reflexivity.
Defined.

(** X28: the [students] property returns exactly when every row of the
    students table has an e-mail that [validate_email] accepts and an age
    that is not negative; one row that fails makes the whole property
    raise. *)
Theorem students_returns_iff_rows_valid (c : SchoolSqlite.conn) :
  is_ok (SchoolSqlite.students c) = true <->
  (forall r, In r (SchoolSqlite.tbl_students (SchoolSqlite.view c)) ->
     is_ok (School.validate_email (SchoolSqlite.email r)) = true
     /\ (0 <= SchoolSqlite.age r)%Z).
Proof.
  unfold SchoolSqlite.students. rewrite rmap_is_ok, List.forallb_forall.
  assert (Hrow : forall (m : gmap string (list string)) r,
             is_ok (School.Student_init (SchoolSqlite.name r)
                      (SchoolSqlite.age r) (SchoolSqlite.email r)
                      (SchoolSqlite.student_id r)
                      (Some (default [] (m !! SchoolSqlite.student_id r))))
             = true
             <-> is_ok (School.validate_email (SchoolSqlite.email r)) = true
                 /\ (0 <= SchoolSqlite.age r)%Z).
  { intros m r. rewrite <- Z.leb_le, <- andb_true_iff.
    rewrite <- (Person_init_is_ok (SchoolSqlite.name r)).
    unfold School.Student_init. unfold_bind.
    now destruct (School.Person_init _ _ _). }
  split.
  - intros H r Hr.
    apply (order_by_In String.leb SchoolSqlite.name) in Hr.
    exact (proj1 (Hrow _ r) (H r Hr)).
  - intros H r Hr. apply Hrow, H. now apply order_by_In in Hr.
Qed.

Lemma filter_fst_none (regs : list (string * string)) (k : string) :
  (forall e, In e regs -> fst e <> k) ->
  List.filter (fun e => String.eqb (fst e) k) regs = [].
Proof.
  induction regs as [|e regs IH]; intros H; [reflexivity|].
  cbn [List.filter].
  destruct (String.eqb_spec (fst e) k) as [E|_].
  - now destruct (H e (or_introl eq_refl)).
  - apply IH. intros e' He'. apply H. now right.
Qed.

(** X29: [add_student] writes the id, name, age and e-mail of the student
    and nothing of its [registered_courses]: where the registrations name
    existing students only, the student that [students] lists after a
    successful [add_student] has the same id and personal data and no
    registered course, whatever the object passed held. *)
Theorem add_student_drops_registered_courses
    (c c' : SchoolSqlite.conn) (st : School.Student) (l : list School.Student) :
  SchoolSqlite.refs_valid (SchoolSqlite.view c) ->
  SchoolSqlite.add_student st c = (Ok tt, c') ->
  SchoolSqlite.students c' = Ok l ->
  exists st',
    In st' l
    /\ School.student_id st' = School.student_id st
    /\ School.student_person st' = School.student_person st
    /\ School.registered_courses st' = [].
Proof.
  intros [_ Hrefs] Hadd Hl.
  unfold SchoolSqlite.add_student, SchoolSqlite.bind, SchoolSqlite.execute,
    SchoolSqlite.insert_student, SchoolSqlite.bind_int in Hadd.
  revert Hadd. unfold_bind.
  destruct (_ && _)%bool; [|discriminate]. cbn [rbind].
  destruct (SchoolSqlite.has_student (SchoolSqlite.view c)
              (School.student_id st)) eqn:Hno; [discriminate|].
  unfold SchoolSqlite.commit. intros [= <-].
  apply students_rows in Hl.
  cbn [SchoolSqlite.view SchoolSqlite.tx SchoolSqlite.db
       SchoolSqlite.with_students SchoolSqlite.tbl_students
       SchoolSqlite.tbl_registrations] in Hl.
  set (row := {| SchoolSqlite.student_id := School.student_id st;
                 SchoolSqlite.name := School.name (School.student_person st);
                 SchoolSqlite.age := School.age (School.student_person st);
                 SchoolSqlite.email :=
                   School._email (School.student_person st) |}) in *.
  assert (Hrow : In row (order_by String.leb SchoolSqlite.name
                           (SchoolSqlite.tbl_students (SchoolSqlite.view c)
                            ++ [row]))).
  { apply order_by_In. apply in_or_app. right. now left. }
  destruct (Forall2_In_left _ _ _ row Hl Hrow)
    as (st' & Hin & Hid & Hp & Hreg).
  exists st'. split; [exact Hin|]. split; [exact Hid|].
  split; [rewrite Hp; simpl; now destruct (School.student_person st)|].
  rewrite Hreg. subst row. cbn [SchoolSqlite.student_id].
  rewrite filter_fst_none; [reflexivity|].
  intros e He E. destruct (Hrefs e He) as [Hs _]. rewrite E in Hs.
  apply (has_key_In SchoolSqlite.student_id) in Hs.
  unfold SchoolSqlite.has_student in Hno. congruence.
Qed.

Lemma add_student_drops_registered_courses_witness :
  exists st',
    In st' [{| School.student_person := School.student_person Examples.ann;
               School.student_id := "s1";
               School.registered_courses := [] |}]
    /\ School.student_id st' = School.student_id Examples.ann
    /\ School.student_person st' = School.student_person Examples.ann
    /\ School.registered_courses st' = [].
Proof.
  apply (add_student_drops_registered_courses SchoolSqlite.connect
           (snd (SchoolSqlite.add_student Examples.ann SchoolSqlite.connect))
           Examples.ann).
  - split; [intros ? ? [] | intros ? []].
  - reflexivity.
  - vm_compute. reflexivity.
Defined.

(** X30: after [register_student_in_course] returned for a student that has
    a row, the [students] property, when it returns, lists that student
    with the course among its [registered_courses]. *)
Theorem register_then_listed
    (c c' : SchoolSqlite.conn) (sid cid : string) (l : list School.Student) :
  SchoolSqlite.has_student (SchoolSqlite.view c) sid = true ->
  SchoolSqlite.register_student_in_course sid cid c = (Ok tt, c') ->
  SchoolSqlite.students c' = Ok l ->
  exists st,
    In st l /\ School.student_id st = sid
    /\ In cid (School.registered_courses st).
Proof.
  intros Hs Hreg Hl.
  assert (H : SchoolSqlite.tbl_students (SchoolSqlite.view c')
              = SchoolSqlite.tbl_students (SchoolSqlite.view c)
              /\ In (sid, cid)
                    (SchoolSqlite.tbl_registrations (SchoolSqlite.view c'))).
  { revert Hreg.
    unfold SchoolSqlite.register_student_in_course, SchoolSqlite.bind,
      SchoolSqlite.execute, SchoolSqlite.insert_or_ignore_registration,
      SchoolSqlite.commit.
    destruct (SchoolSqlite.has_registration _ sid cid) eqn:Hhas.
    - intros [= <-]. split; [reflexivity|].
      cbn [SchoolSqlite.view SchoolSqlite.tx SchoolSqlite.db].
      unfold SchoolSqlite.has_registration in Hhas.
      apply existsb_exists in Hhas as ([s0 c0] & Hin & E). simpl in E.
      apply andb_true_iff in E as [E1 E2].
      apply String.eqb_eq in E1, E2. now subst.
    - destruct (_ && _)%bool; [|discriminate]. intros [= <-].
      split; [reflexivity|].
      cbn [SchoolSqlite.view SchoolSqlite.tx SchoolSqlite.db
           SchoolSqlite.with_registrations SchoolSqlite.tbl_registrations].
      apply in_or_app. right. now left. }
  destruct H as [Htbl Hin].
  apply students_rows in Hl. rewrite Htbl in Hl.
  unfold SchoolSqlite.has_student in Hs.
  apply existsb_exists in Hs as (r & Hr & E). apply String.eqb_eq in E.
  destruct (Forall2_In_left _ _ _ r Hl) as (st & Hst & Hid & _ & Hrc).
  { now apply order_by_In. }
  exists st. split; [exact Hst|]. split; [congruence|].
  rewrite Hrc. apply (List.in_map snd _ (sid, cid)).
  apply List.filter_In. split; [exact Hin|]. simpl. rewrite E.
  apply String.eqb_refl.
Qed.

Lemma register_then_listed_witness :
  SchoolSqlite.tbl_registrations
    (SchoolSqlite.db
       (snd (SchoolSqlite.register_student_in_course "s2" "c2"
               Examples.school3)))
  = [("s1", "c1"); ("s2", "c1"); ("s1", "c2"); ("s2", "c2")]
  /\ exists l st,
       SchoolSqlite.students
         (snd (SchoolSqlite.register_student_in_course "s2" "c2"
                 Examples.school3)) = Ok l
       /\ In st l /\ School.student_id st = "s2"
       /\ In "c2" (School.registered_courses st).
Proof.
  split; [reflexivity|].
  eexists.
  assert (Hl : SchoolSqlite.students
                 (snd (SchoolSqlite.register_student_in_course "s2" "c2"
                         Examples.school3)) = Ok _)
    by (vm_compute; reflexivity).
  destruct (register_then_listed Examples.school3 _ "s2" "c2" _
              eq_refl eq_refl Hl) as (st & H1 & H2 & H3).
  exists st. split; [exact Hl|]. split; [exact H1|]. split; [exact H2|exact H3].
Defined.
